(** * infrastructure-manager: reconciliation core

    A shallow embedding of three pieces of the repository and the
    properties the specification states about them:

    - [auditlogs]: the auditlog extension mutation of a Shoot
      (pkg/gardener/shoot/extender/auditlogs/set_extension.go);
    - [fsm]: the create-shoot state function of the Runtime state machine
      (internal/controller/runtime/fsm/runtime_fsm_create_shoot.go);
    - [controller]: the GardenerCluster controller that rotates the
      kubeconfig secret (internal/controller/gardener_cluster_controller.go).

    Go values are modelled as follows.  A [string] is a [string]; [[]byte]
    is [list Byte.byte]; [map[string]T] is [gmap string T], a nil map and an
    empty map being identified (every read of the sources treats them the
    same, and every write is guarded by a nil check); a pointer that may be
    nil is an [option]; [error] is the type [error] below, which keeps the one
    distinction the code makes ([k8serrors.IsNotFound]).  [time.Time] and
    [time.Duration] are integers counting nanoseconds; a [float64] is an
    IEEE 754 binary64 number, with the operations of [SpecFloat] at precision
    53.  Calls of the logger are left out: they have no effect on what the
    functions return or on the objects they touch. *)

From Stdlib Require Import ZArith QArith Qpower Lqa SpecFloat Strings.Ascii Strings.Byte.
From stdpp Require Import gmap strings list fin_maps.

#[local] Open Scope string_scope.
#[local] Open Scope list_scope.
#[local] Open Scope Z_scope.

(** ** Errors *)

Inductive error : Type :=
| NotFoundError (msg : string)
| OtherError (msg : string).

(** k8serrors.IsNotFound *)
Definition IsNotFound (e : error) : bool :=
  match e with
  | NotFoundError _ => true
  | OtherError _ => false
  end.

(** The method [Error()] *)
Definition errorString (e : error) : string :=
  match e with
  | NotFoundError msg => msg
  | OtherError msg => msg
  end.

(** [err != nil] *)
Definition isErr (err : option error) : bool :=
  match err with
  | Some _ => true
  | None => false
  end.

(** ** The Shoot document (gardener core/v1beta1, the fields the sources use) *)

Record RawExtension : Type := mkRawExtension { Raw : list Byte.byte }.

Record Extension : Type := mkExtension {
  Type_ : string;
  ProviderConfig : option RawExtension;
  Disabled : option bool
}.

Record ShootSpec : Type := mkShootSpec {
  Extensions : list Extension;
  ExposureClassName : option string;
  ShootPurpose : option string;
  ShootRegion : string;
  ShootProviderType : string;
  SeedName : option string
}.

Record Shoot : Type := mkShoot {
  ShootName : string;
  ShootNamespace : string;
  ShootLabels : gmap string string;
  ShootAnnotations : gmap string string;
  Spec : ShootSpec
}.

(** ** package auditlogs *)

Module auditlogs.

Definition auditlogExtensionType : string := "shoot-auditlog-service".
Definition auditlogReferenceName : string := "auditlog-credentials".

Record AuditLogData : Type := mkAuditLogData {
  TenantID : string;
  ServiceURL : string;
  SecretName : string
}.

Record TypeMeta : Type := mkTypeMeta {
  Kind : string;
  APIVersion : string
}.

Record AuditlogExtensionConfig : Type := mkAuditlogExtensionConfig {
  cfgTypeMeta : TypeMeta;
  cfgType : string;
  cfgTenantID : string;
  cfgServiceURL : string;
  cfgSecretReferenceName : string
}.

(** [json.NewEncoder(&buffer).Encode(&cfg)] followed by [buffer.Bytes()]:
    the encoder belongs to the JSON library, so it is an interface here.
    It yields the bytes written to the buffer, or the encoder's error. *)
Class JSON : Type := { json_Encode : AuditlogExtensionConfig -> error + list Byte.byte }.

(** slices.IndexFunc: the first index whose element satisfies [f], or -1. *)
Fixpoint IndexFunc {A : Type} (l : list A) (f : A -> bool) : Z :=
  match l with
  | [] => -1
  | x :: l' =>
      if f x then 0
      else let i := IndexFunc l' f in
           if i =? -1 then -1 else i + 1
  end.

Definition setExtensions (s : Shoot) (exts : list Extension) : Shoot :=
  mkShoot (ShootName s) (ShootNamespace s) (ShootLabels s) (ShootAnnotations s)
    (mkShootSpec exts
       (ExposureClassName (Spec s)) (ShootPurpose (Spec s)) (ShootRegion (Spec s))
       (ShootProviderType (Spec s)) (SeedName (Spec s))).

(** The configuration [oSetExtension] builds from the audit log data. *)
Definition auditlogConfig (d : AuditLogData) : AuditlogExtensionConfig :=
  {| cfgTypeMeta :=
       {| Kind := "AuditlogConfig";
          APIVersion := "service.auditlog.extensions.gardener.cloud/v1alpha1" |};
     cfgType := "standard";
     cfgTenantID := TenantID d;
     cfgServiceURL := ServiceURL d;
     cfgSecretReferenceName := auditlogReferenceName |}.

(** An [operation] takes the Shoot it may mutate and returns the Shoot
    after the call together with the error. *)
Definition operation : Type := Shoot -> Shoot * option error.

Definition oSetExtension `{JSON} (d : AuditLogData) : operation :=
  fun s =>
    let cfg := auditlogConfig d in
    match json_Encode cfg with
    | inl err => (s, Some err)
    | inr buffer =>
        let extension :=
          {| Type_ := auditlogExtensionType;
             ProviderConfig := Some {| Raw := buffer |};
             Disabled := None |} in
        let index :=
          IndexFunc (Extensions (Spec s))
            (fun e => String.eqb (Type_ e) auditlogExtensionType) in
        if index =? -1 then
          (setExtensions s (Extensions (Spec s) ++ [extension]), None)
        else
          (setExtensions s (<[Z.to_nat index := extension]> (Extensions (Spec s))), None)
    end.

(** The test [oSetExtension] hands to [IndexFunc], and the extension it
    writes when the configuration is encoded as [raw]. *)
Definition isAuditlog (e : Extension) : bool :=
  String.eqb (Type_ e) auditlogExtensionType.

Definition auditlogExtension (raw : list Byte.byte) : Extension :=
  {| Type_ := auditlogExtensionType;
     ProviderConfig := Some {| Raw := raw |};
     Disabled := None |}.

End auditlogs.

(** ** Time

    [time.Time] is the number of nanoseconds since the Unix epoch and
    [time.Duration] a number of nanoseconds; a [Duration] is an int64. *)

Definition Time : Type := Z.
Definition Duration : Type := Z.

Definition Nanosecond : Duration := 1.
Definition Second : Duration := 1000000000 * Nanosecond.
Definition Minute : Duration := 60 * Second.

Definition minDuration : Duration := - 2 ^ 63.
Definition maxDuration : Duration := 2 ^ 63 - 1.

(** ** float64

    The binary64 format: 53 bits of precision, exponents below 1024.  The
    arithmetic rounds to nearest, ties to even. *)

Definition float64 : Type := spec_float.

Definition prec64 : Z := 53.
Definition emax64 : Z := 1024.

(** The conversion float64(z) of an integer. *)
Definition float64_of_int (z : Z) : float64 := binary_normalize prec64 emax64 z 0 false.

Definition float64_add (x y : float64) : float64 := SFadd prec64 emax64 x y.
Definition float64_mul (x y : float64) : float64 := SFmul prec64 emax64 x y.
Definition float64_div (x y : float64) : float64 := SFdiv prec64 emax64 x y.

(** The comparison [x >= y]; it is false when an operand is not a number. *)
Definition float64_ge (x y : float64) : bool := SFleb y x.

(** [Duration.Minutes]: the whole minutes plus the rest divided by 60*1e9. *)
Definition Minutes (d : Duration) : float64 :=
  let min := Z.quot d Minute in
  let nsec := Z.rem d Minute in
  float64_add (float64_of_int min)
    (float64_div (float64_of_int nsec) (float64_of_int (60 * 1000000000))).

(** ** Reading binary64 numbers as rationals

    The vocabulary of the rounding proofs: powers of two, the rational a
    mantissa and an exponent stand for, the unit roundoff, and the place of a
    rational in the unit interval above an integer. *)

Definition pow2 (e : Z) : Q := Qpower 2 e.

Definition value (m : positive) (e : Z) : Q := (inject_Z (Zpos m) * pow2 e)%Q.

Definition u64 : Q := 1 # 9007199254740992.

(** A mantissa of exactly 53 bits. *)
Definition normal (m : positive) : Prop := 2 ^ 52 <= Zpos m < 2 ^ 53.

Definition located (m : Z) (l : location) (x : Q) : Prop :=
  match l with
  | loc_Exact => (x == inject_Z m)%Q
  | loc_Inexact Lt => (inject_Z m < x /\ x < inject_Z m + (1 # 2))%Q
  | loc_Inexact Eq => (x == inject_Z m + (1 # 2))%Q
  | loc_Inexact Gt => (inject_Z m + (1 # 2) < x /\ x < inject_Z m + 1)%Q
  end.

Definition locatedRecord (mrs : shr_record) (x : Q) : Prop :=
  0 <= shr_m mrs /\ located (shr_m mrs) (loc_of_shr_record mrs) x.

(** ** package fsm: the create-shoot state function *)

Module fsm.

Inductive RuntimeConditionType : Type :=
| ConditionTypeRuntimeProvisioned.

#[global] Instance RuntimeConditionType_eq_dec : EqDecision RuntimeConditionType.
Proof. solve_decision. Defined.

Inductive RuntimeConditionReason : Type :=
| ConditionReasonGardenerError
| ConditionReasonSeedNotFound
| ConditionReasonAuditLogError
| ConditionReasonConversionError
| ConditionReasonShootCreationPending.

Inductive State : Type := StateNone | RuntimeStatePending.

Record Condition : Type := mkCondition {
  condType : RuntimeConditionType;
  condStatus : string;
  condReason : RuntimeConditionReason;
  condMessage : string
}.

Record RuntimeShoot : Type := mkRuntimeShoot {
  rsName : string;
  rsPurpose : string;
  rsRegion : string;
  rsEnforceSeedLocation : option bool;
  rsProviderType : string
}.

Record RuntimeStatus : Type := mkRuntimeStatus {
  rState : State;
  rConditions : list Condition
}.

Record Runtime : Type := mkRuntime {
  rName : string;
  rLabels : gmap string string;
  rShoot : RuntimeShoot;
  rStatus : RuntimeStatus
}.

Record MaintenanceTimeWindow : Type := mkMaintenanceTimeWindow {
  mwBegin : string;
  mwEnd : string
}.

Record ConverterConfig : Type := mkConverterConfig {
  WindowMapPath : string
}.

Record CreateOpts : Type := mkCreateOpts {
  optConverterConfig : ConverterConfig;
  optAuditLogData : auditlogs.AuditLogData;
  optMaintenanceTimeWindow : option MaintenanceTimeWindow
}.

(** The machine [m]: its configuration and its collaborators.  The
    collaborators are outside the sources (the seed lookup of the same
    package, the audit log and maintenance window data sources, the
    converter and the Shoot client), so each one is the function giving
    its answer. *)
Record fsm : Type := mkFsm {
  seedForRegionAvailable : string -> string -> bool * list string * option error;
  GetAuditLogData : string -> string -> auditlogs.AuditLogData * option error;
  GetMaintenanceWindow : string -> string -> option MaintenanceTimeWindow * option error;
  ValidateRequiredLabels : Runtime -> option error;
  ToShoot : CreateOpts -> Runtime -> Shoot * option error;
  ShootClient_Create : Shoot -> option error;
  AuditLogMandatory : bool;
  converterConfig : ConverterConfig;
  GardenerRequeueDuration : Duration
}.

(** What one run of a state function touches: the Runtime instance, the
    stop counter of the metrics and the Shoots handed to the backend's
    create call. *)
Record systemState : Type := mkSystemState {
  instance : Runtime;
  stopCounter : nat;
  created : list Shoot
}.

Definition setInstance (s : systemState) (r : Runtime) : systemState :=
  mkSystemState r (stopCounter s) (created s).

(** m.Metrics.IncRuntimeFSMStopCounter() *)
Definition IncRuntimeFSMStopCounter (s : systemState) : systemState :=
  mkSystemState (instance s) (S (stopCounter s)) (created s).

(** m.ShootClient.Create(ctx, &shoot) *)
Definition Create (m : fsm) (shoot : Shoot) (s : systemState) : option error * systemState :=
  (ShootClient_Create m shoot, mkSystemState (instance s) (stopCounter s) (created s ++ [shoot])).

(** Modelled from the spec: the method [UpdateStatePending] of the Runtime
    is declared outside the sources.  The spec has the state machine set the
    state and upsert the condition by its type, leaving no other condition
    of that type. *)
Definition UpdateStatePending (r : Runtime) (c : RuntimeConditionType)
    (reason : RuntimeConditionReason) (status msg : string) : Runtime :=
  mkRuntime (rName r) (rLabels r) (rShoot r)
    (mkRuntimeStatus RuntimeStatePending
       (filter (fun x => condType x <> c) (rConditions (rStatus r))
          ++ [mkCondition c status reason msg])).

(** Modelled from the spec: what a state function returns.  The helpers
    [updateStatusAndRequeueAfter] and [updateStatePendingWithErrorAndStop]
    are outside the sources; the spec gives their results as "requeue after
    fixed interval" and "terminal stop: set False condition, no further
    requeue". *)
Inductive directive : Type :=
| Stop
| RequeueAfter (d : Duration).

Definition updateStatusAndRequeueAfter (d : Duration) (s : systemState)
    : directive * systemState :=
  (RequeueAfter d, s).

Definition updateStatePendingWithErrorAndStop (c : RuntimeConditionType)
    (r : RuntimeConditionReason) (msg : string) (s : systemState)
    : directive * systemState :=
  (Stop, setInstance s (UpdateStatePending (instance s) c r "False" msg)).

Definition msgFailedToConfigureAuditlogs : string := "Failed to configure audit logs".

(** fmt.Sprintf with the verb %v on a []string *)
Definition sprintSlice (l : list string) : string :=
  "[" +:+ String.concat " " l +:+ "]".

(** gardener.Shoot{} *)
Definition emptyShoot : Shoot :=
  mkShoot EmptyString EmptyString ∅ ∅ (mkShootSpec [] None None EmptyString EmptyString None).

Definition convertCreate (m : fsm) (inst : Runtime) (opts : CreateOpts)
    : Shoot * option error :=
  match ValidateRequiredLabels m inst with
  | Some err => (emptyShoot, Some err)
  | None => ToShoot m opts inst
  end.

Definition sFnCreateShoot (m : fsm) (s : systemState) : directive * systemState :=
  let region := rsRegion (rShoot (instance s)) in
  let providerType := rsProviderType (rShoot (instance s)) in
  let seedCheck : option (directive * systemState) :=
    match rsEnforceSeedLocation (rShoot (instance s)) with
    | Some true =>
        let '(seedAvailable, regionsWithSeeds, err) :=
          seedForRegionAvailable m providerType region in
        match err with
        | Some _ =>
            let msg := "Failed to verify whether seed is available for the region "
                         +:+ region +:+ "." in
            Some (updateStatusAndRequeueAfter (GardenerRequeueDuration m)
                    (setInstance s
                       (UpdateStatePending (instance s) ConditionTypeRuntimeProvisioned
                          ConditionReasonGardenerError "False" msg)))
        | None =>
            if negb seedAvailable then
              let msg := "Cannot find available seed for the region " +:+ region
                           +:+ ". The followig regions have seeds ready: "
                           +:+ sprintSlice regionsWithSeeds +:+ "." in
              Some (updateStatePendingWithErrorAndStop ConditionTypeRuntimeProvisioned
                      ConditionReasonSeedNotFound msg (IncRuntimeFSMStopCounter s))
            else None
        end
    | _ => None
    end in
  match seedCheck with
  | Some r => r
  | None =>
      let '(data, err) := GetAuditLogData m providerType region in
      if isErr err && AuditLogMandatory m then
        updateStatePendingWithErrorAndStop ConditionTypeRuntimeProvisioned
          ConditionReasonAuditLogError msgFailedToConfigureAuditlogs
          (IncRuntimeFSMStopCounter s)
      else
        let maintenanceWindowData :=
          if String.eqb (rsPurpose (rShoot (instance s))) "production"
             && negb (String.eqb (WindowMapPath (converterConfig m)) EmptyString)
          then fst (GetMaintenanceWindow m (WindowMapPath (converterConfig m)) region)
          else None in
        match convertCreate m (instance s)
                (mkCreateOpts (converterConfig m) data maintenanceWindowData) with
        | (_, Some _) =>
            updateStatePendingWithErrorAndStop ConditionTypeRuntimeProvisioned
              ConditionReasonConversionError "Runtime conversion error"
              (IncRuntimeFSMStopCounter s)
        | (shoot, None) =>
            let '(err, s1) := Create m shoot s in
            match err with
            | Some e =>
                updateStatusAndRequeueAfter (GardenerRequeueDuration m)
                  (setInstance s1
                     (UpdateStatePending (instance s1) ConditionTypeRuntimeProvisioned
                        ConditionReasonGardenerError "False"
                        ("Gardener API create error: " +:+ errorString e)))
            | None =>
                updateStatusAndRequeueAfter (GardenerRequeueDuration m)
                  (setInstance s1
                     (UpdateStatePending (instance s1) ConditionTypeRuntimeProvisioned
                        ConditionReasonShootCreationPending "Unknown" "Shoot is pending"))
            end
        end
  end.

(** The message [sFnCreateShoot] gives the SeedNotFound condition. *)
Definition seedNotFoundMessage (region : string) (regionsWithSeeds : list string) : string :=
  "Cannot find available seed for the region " +:+ region
    +:+ ". The followig regions have seeds ready: "
    +:+ sprintSlice regionsWithSeeds +:+ ".".

End fsm.

(** ** package auditlogs: the extenders (extender.go)

    The extenders take the Runtime of package [fsm]'s API types, so they
    stand here, after it. *)

Module extender.

Import auditlogs.

(** [oSetSecret] and [oSetPolicyConfigmap] are declared in other files of
    the package, which this development does not cover: the extenders are
    read over any pair of operations of their types, and nothing is assumed
    of them. *)
Class Operations : Type := {
  oSetSecret : string -> operation;
  oSetPolicyConfigmap : string -> operation
}.

(** An [Extend] takes the Runtime and the Shoot it may mutate and returns
    the Shoot after the call together with the error. *)
Definition Extend : Type := fsm.Runtime -> Shoot -> Shoot * option error.

(** The loop of [NewAuditlogExtenderForCreate]: the operations run in
    order on the same Shoot, and the first error ends the loop. *)
Fixpoint applyOperations (ops : list operation) (shoot : Shoot) : Shoot * option error :=
  match ops with
  | [] => (shoot, None)
  | f :: rest =>
      match f shoot with
      | (shoot', Some err) => (shoot', Some err)
      | (shoot', None) => applyOperations rest shoot'
      end
  end.

Definition NewAuditlogExtenderForCreate `{Operations}
    (policyConfigMapName : string) (data : AuditLogData) : Extend :=
  fun _ shoot =>
    applyOperations
      [oSetSecret (SecretName data); oSetPolicyConfigmap policyConfigMapName] shoot.


End extender.

(** ** package controller: the GardenerCluster controller *)

Module controller.

Definition lastKubeconfigSyncAnnotation : string := "operator.kyma-project.io/last-sync".
Definition forceKubeconfigRotationAnnotation : string :=
  "operator.kyma-project.io/force-kubeconfig-rotation".
Definition clusterCRNameLabel : string := "operator.kyma-project.io/cluster-name".

(** *** Objects *)

Record Secret : Type := mkSecret {
  sName : string;
  sNamespace : string;
  sLabels : gmap string string;
  sAnnotations : gmap string string;
  sData : gmap string (list Byte.byte);
  sStringData : gmap string string
}.

(** cluster.Spec.Kubeconfig.Secret *)
Record SecretRef : Type := mkSecretRef {
  refName : string;
  refNamespace : string;
  refKey : string
}.

Inductive State : Type :=
| ConditionTypeKubeconfigManagement.

Inductive ConditionReason : Type :=
| ConditionReasonKubeconfigSecretCreated
| ConditionReasonKubeconfigSecretRotated
| ConditionReasonFailedToGetSecret
| ConditionReasonFailedToCreateSecret
| ConditionReasonFailedToUpdateSecret
| ConditionReasonFailedToDeleteSecret
| ConditionReasonFailedToGetKubeconfig.

Inductive ConditionStatus : Type := ConditionTrue | ConditionFalse | ConditionUnknown.

Inductive ClusterState : Type := StateNone | ReadyState | ErrorState.

Record Condition : Type := mkCondition {
  condType : State;
  condStatus : ConditionStatus;
  condReason : ConditionReason;
  condMessage : string
}.

Record GardenerClusterStatus : Type := mkStatus {
  stState : ClusterState;
  stConditions : list Condition
}.

Record GardenerCluster : Type := mkGardenerCluster {
  cName : string;
  cNamespace : string;
  cLabels : gmap string string;
  cAnnotations : gmap string string;
  cShootName : string;
  cSecret : SecretRef;
  cStatus : GardenerClusterStatus
}.

(** The two condition methods of the GardenerCluster are declared with the
    type, outside the sources: the controller is stated over any pair of
    them. *)
Class ConditionMethods : Type := {
  UpdateConditionForErrorState :
    GardenerCluster -> State -> ConditionReason -> error -> GardenerCluster;
  UpdateConditionForReadyState :
    GardenerCluster -> State -> ConditionReason -> ConditionStatus -> GardenerCluster
}.

(** [time.Parse(time.RFC3339, s)] and [t.UTC().Format(time.RFC3339)] of the
    time library. *)
Class TimeLayout : Type := {
  parseRFC3339 : string -> option Time;
  formatRFC3339 : Time -> string
}.

(** ctrl.Request and ctrl.Result *)
Record Request : Type := mkRequest {
  reqNamespace : string;
  reqName : string
}.

Record Result : Type := mkResult {
  Requeue : bool;
  RequeueAfter : Duration
}.

(** *** The API server and the clock

    The controller talks to the API server through [client.Client].  The
    world holds the stored secrets and GardenerClusters, keyed by namespace
    and name, the calls issued so far and the number of clock readings.
    Any call may fail for a reason of its own (network, conflict): the
    environment says which error, if any, the n-th call meets, and what
    the clock shows at the n-th reading. *)

Inductive Call : Type :=
| CallGet (namespace name : string)
| CallList (label value : string)
| CallCreate (s : Secret)
| CallUpdate (s : Secret)
| CallDelete (s : Secret)
| CallUpdateCluster (c : GardenerCluster)
| CallStatusUpdate (c : GardenerCluster)
| CallFetch (shootName : string).

Record World : Type := mkWorld {
  wSecrets : gmap (string * string) Secret;
  wClusters : gmap (string * string) GardenerCluster;
  wTrace : list Call;
  wTicks : nat
}.

Record Env : Type := mkEnv {
  eFault : nat -> option error;
  eClock : nat -> Time
}.

(** GardenerClusterController: [Fetch] is the KubeconfigProvider. *)
Record GardenerClusterController : Type := mkController {
  Fetch : string -> string * option error;
  rotationPeriod : Duration
}.

Definition M (A : Type) : Type := World -> A * World.

Definition ret {A : Type} (a : A) : M A := fun w => (a, w).
Definition bind {A B : Type} (m : M A) (f : A -> M B) : M B :=
  fun w => let '(a, w') := m w in f a w'.

Notation "x <- c1 ;; c2" := (bind c1 (fun x => c2))
  (at level 100, c1 at next level, right associativity).

Definition secretKey (s : Secret) : string * string := (sNamespace s, sName s).
Definition clusterKey (c : GardenerCluster) : string * string := (cNamespace c, cName c).

Definition setSecrets (w : World) (m : gmap (string * string) Secret) : World :=
  mkWorld m (wClusters w) (wTrace w) (wTicks w).
Definition setClusters (w : World) (m : gmap (string * string) GardenerCluster) : World :=
  mkWorld (wSecrets w) m (wTrace w) (wTicks w).

Definition quote : string := String (Ascii.ascii_of_nat 34) EmptyString.

(** k8serrors.NewNotFound(schema.GroupResource{}, name) *)
Definition NewNotFound (name : string) : error :=
  NotFoundError (" " +:+ quote +:+ name +:+ quote +:+ " not found").

Definition NewAlreadyExists (name : string) : error :=
  OtherError (" " +:+ quote +:+ name +:+ quote +:+ " already exists").

Definition matchingLabels (label value : string) (s : Secret) : bool :=
  bool_decide (sLabels s !! label = Some value).

Inductive kubeconfigStatus : Type :=
| ksZero
| ksCreated
| ksModified
| ksRotated.

#[global] Instance kubeconfigStatus_eq_dec : EqDecision kubeconfigStatus.
Proof. solve_decision. Defined.

(** *** Durations

    [Time.Sub] saturates at the ends of the int64 range.  The constant
    [rotationPeriodRatio] is the float64 nearest to 0.95. *)

Definition Sub (t u : Time) : Duration :=
  let d := t - u in
  if d <? minDuration then minDuration
  else if maxDuration <? d then maxDuration
  else d.

Definition rotationPeriodRatio : float64 := S754_finite false 8556839292003942 (-53).

(** The test at the end of [secretRotationTimePassed], as a function of the
    period and of the time the secret has been valid for. *)
Definition thresholdReached (period alreadyValidFor : Duration) : bool :=
  float64_ge (Minutes alreadyValidFor) (float64_mul rotationPeriodRatio (Minutes period)).

(** [err != nil && !k8serrors.IsNotFound(err)]: the error, when the
    condition holds. *)
Definition unlessNotFound (err : option error) : option error :=
  match err with
  | Some e => if IsNotFound e then None else Some e
  | None => None
  end.

(** What a label selector finds among the stored secrets (all namespaces). *)
Definition matchingSecrets (w : World) (label value : string) : list Secret :=
  List.filter (matchingLabels label value) (map_to_list (wSecrets w)).*2.

Definition traced (w : World) (c : Call) : World :=
  mkWorld (wSecrets w) (wClusters w) (wTrace w ++ [c]) (wTicks w).

(** Every stored object sits under its own namespace and name. *)
Definition wellKeyed (w : World) : Prop :=
  map_Forall (fun k s => secretKey s = k) (wSecrets w) /\
  map_Forall (fun k c => clusterKey c = k) (wClusters w).

(** The calls that write secrets. *)
Definition isCreate (c : Call) : bool :=
  match c with CallCreate _ => true | _ => false end.
Definition isUpdate (c : Call) : bool :=
  match c with CallUpdate _ => true | _ => false end.
Definition isDelete (c : Call) : bool :=
  match c with CallDelete _ => true | _ => false end.

(** The world as [handleKubeconfig] finds it in [Reconcile]: the
    GardenerCluster has been read and the clock consulted once. *)
Definition whenHandled (req : Request) (w : World) : World :=
  mkWorld (wSecrets w) (wClusters w)
    (wTrace w ++ [CallGet (reqNamespace req) (reqName req)]) (S (wTicks w)).

Definition shootNameLabel : string := "kyma-project.io/shoot-name".

(** What [getSecret] answers when the API server has answered the lookup
    with [items]. *)
Definition lookupResult (shootName : string) (items : list Secret)
    : option Secret * option error :=
  match items with
  | [] => (None, Some (NewNotFound EmptyString))
  | [item] => (Some item, None)
  | _ :: _ :: _ =>
      (None, Some (OtherError ("unexpected numer of secrets found for shoot `"
                                 +:+ shootName +:+ "`")))
  end.

Section Controller.

Context (env : Env).

(** Every call is entered in the trace; its fault, if any, is returned
    before the store is read or written. *)
Definition call (c : Call) : M (option error) :=
  fun w => (eFault env (length (wTrace w)), traced w c).

(** time.Now() *)
Definition Now : M Time :=
  fun w => (eClock env (wTicks w),
            mkWorld (wSecrets w) (wClusters w) (wTrace w) (S (wTicks w))).

Definition client_Get (namespace name : string) : M (error + GardenerCluster) :=
  fault <- call (CallGet namespace name) ;;
  match fault with
  | Some err => ret (inl err)
  | None =>
      fun w =>
        match wClusters w !! (namespace, name) with
        | Some c => (inr c, w)
        | None => (inl (NewNotFound name), w)
        end
  end.

Definition client_List (label value : string) : M (error + list Secret) :=
  fault <- call (CallList label value) ;;
  match fault with
  | Some err => ret (inl err)
  | None =>
      fun w => (inr (matchingSecrets w label value), w)
  end.

Definition client_Create (s : Secret) : M (option error) :=
  fault <- call (CallCreate s) ;;
  match fault with
  | Some err => ret (Some err)
  | None =>
      fun w =>
        match wSecrets w !! secretKey s with
        | Some _ => (Some (NewAlreadyExists (sName s)), w)
        | None => (None, setSecrets w (<[secretKey s := s]> (wSecrets w)))
        end
  end.

Definition client_Update (s : Secret) : M (option error) :=
  fault <- call (CallUpdate s) ;;
  match fault with
  | Some err => ret (Some err)
  | None =>
      fun w =>
        match wSecrets w !! secretKey s with
        | Some _ => (None, setSecrets w (<[secretKey s := s]> (wSecrets w)))
        | None => (Some (NewNotFound (sName s)), w)
        end
  end.

Definition client_Delete (s : Secret) : M (option error) :=
  fault <- call (CallDelete s) ;;
  match fault with
  | Some err => ret (Some err)
  | None =>
      fun w =>
        match wSecrets w !! secretKey s with
        | Some _ => (None, setSecrets w (delete (secretKey s) (wSecrets w)))
        | None => (Some (NewNotFound (sName s)), w)
        end
  end.

Definition client_UpdateCluster (c : GardenerCluster) : M (option error) :=
  fault <- call (CallUpdateCluster c) ;;
  match fault with
  | Some err => ret (Some err)
  | None =>
      fun w =>
        match wClusters w !! clusterKey c with
        | Some _ => (None, setClusters w (<[clusterKey c := c]> (wClusters w)))
        | None => (Some (NewNotFound (cName c)), w)
        end
  end.

(** controller.Client.Status().Update: only the status is written. *)
Definition client_StatusUpdate (c : GardenerCluster) : M (option error) :=
  fault <- call (CallStatusUpdate c) ;;
  match fault with
  | Some err => ret (Some err)
  | None =>
      fun w =>
        match wClusters w !! clusterKey c with
        | Some c0 =>
            (None, setClusters w
                     (<[clusterKey c :=
                          mkGardenerCluster (cName c0) (cNamespace c0) (cLabels c0)
                            (cAnnotations c0) (cShootName c0) (cSecret c0) (cStatus c)]>
                        (wClusters w)))
        | None => (Some (NewNotFound (cName c)), w)
        end
  end.

(** *** The controller *)

Context (ctl : GardenerClusterController) `{TimeLayout} `{ConditionMethods}.

(** controller.KubeconfigProvider.Fetch: the call is entered in the
    trace; its result is the provider's. *)
Definition KubeconfigProvider_Fetch (shootName : string) : M (string * option error) :=
  fun w => (Fetch ctl shootName, traced w (CallFetch shootName)).

Definition resultWithRequeue : Result :=
  {| Requeue := true; RequeueAfter := rotationPeriod ctl |}.

Definition resultWithoutRequeue : Result :=
  {| Requeue := false; RequeueAfter := 0 |}.

Definition persistStatusChange (cluster : GardenerCluster) : M (option error) :=
  client_StatusUpdate cluster.

Definition deleteKubeconfigSecret (clusterCRName : string) : M (option error) :=
  r <- client_List clusterCRNameLabel clusterCRName ;;
  match r with
  | inl err => ret (Some err)
  | inr items =>
      if bool_decide (length items <> 1%nat) then
        ret (Some (OtherError ("unexpected numer of secrets found for cluster CR `"
                                 +:+ clusterCRName +:+ "`")))
      else
        match items with
        | item :: _ => client_Delete item
        | [] => ret None
        end
  end.

Definition getSecret (shootName : string) : M (option Secret * option error) :=
  r <- client_List shootNameLabel shootName ;;
  match r with
  | inl err => ret (None, Some err)
  | inr items =>
      let size := length items in
      if bool_decide (size = 0%nat) then
        ret (None, Some (NewNotFound EmptyString))
      else if bool_decide (1 < size)%nat then
        ret (None, Some (OtherError ("unexpected numer of secrets found for shoot `"
                                       +:+ shootName +:+ "`")))
      else ret (head items, None)
  end.

Definition secretRotationForced (cluster : GardenerCluster) : bool :=
  match cAnnotations cluster !! forceKubeconfigRotationAnnotation with
  | Some _ => true
  | None => false
  end.

Definition secretRotationTimePassed (secret : option Secret) (period : Duration)
    : M bool :=
  match secret with
  | None => ret true
  | Some secret =>
      let annotations := sAnnotations secret in
      match annotations !! lastKubeconfigSyncAnnotation with
      | None => ret true
      | Some lastSyncTimeString =>
          match parseRFC3339 lastSyncTimeString with
          | None => ret true
          | Some lastSyncTime =>
              now <- Now ;;
              let alreadyValidFor := Sub now lastSyncTime in
              ret (float64_ge (Minutes alreadyValidFor)
                     (float64_mul rotationPeriodRatio (Minutes period)))
          end
      end
  end.

(** The operator [||] evaluates its right operand only when the left one
    is false; the right operand has no effect. *)
Definition secretNeedsToBeRotated (cluster : GardenerCluster) (secret : option Secret)
    (period : Duration) : M bool :=
  passed <- secretRotationTimePassed secret period ;;
  ret (passed || secretRotationForced cluster).

Definition newSecret (cluster : GardenerCluster) (kubeconfig : string)
    (lastSyncTime : Time) : Secret :=
  let labels :=
    <[clusterCRNameLabel := cName cluster]>
      (<["operator.kyma-project.io/managed-by" := "infrastructure-manager"]>
         (cLabels cluster)) in
  {| sName := refName (cSecret cluster);
     sNamespace := refNamespace (cSecret cluster);
     sLabels := labels;
     sAnnotations := {[ lastKubeconfigSyncAnnotation := formatRFC3339 lastSyncTime ]};
     sData := ∅;
     sStringData := {[ refKey (cSecret cluster) := kubeconfig ]} |}.

Definition createNewSecret (kubeconfig : string) (cluster : GardenerCluster)
    (lastSyncTime : Time) : M (GardenerCluster * option error) :=
  let newSecret := newSecret cluster kubeconfig lastSyncTime in
  err <- client_Create newSecret ;;
  match err with
  | Some e =>
      ret (UpdateConditionForErrorState cluster ConditionTypeKubeconfigManagement
             ConditionReasonFailedToCreateSecret e, Some e)
  | None =>
      ret (UpdateConditionForReadyState cluster ConditionTypeKubeconfigManagement
             ConditionReasonKubeconfigSecretCreated ConditionTrue, None)
  end.

(** The secret after [removeKubeconfig] has deleted the kubeconfig entry
    and the last-sync annotation from its maps. *)
Definition withoutKubeconfig (cluster : GardenerCluster) (existingSecret : Secret)
    : Secret :=
  mkSecret (sName existingSecret) (sNamespace existingSecret) (sLabels existingSecret)
    (delete lastKubeconfigSyncAnnotation (sAnnotations existingSecret))
    (delete (refKey (cSecret cluster)) (sData existingSecret))
    (sStringData existingSecret).

Definition removeKubeconfig (cluster : GardenerCluster) (existingSecret : option Secret)
    : M (option error) :=
  match existingSecret with
  | None => ret None
  | Some existingSecret => client_Update (withoutKubeconfig cluster existingSecret)
  end.

(** The secret after [updateExistingSecret] has written the kubeconfig and
    the last-sync annotation into its maps. *)
Definition withKubeconfig (kubeconfig : string) (cluster : GardenerCluster)
    (existingSecret : Secret) (lastSyncTime : Time) : Secret :=
  let data :=
    <[refKey (cSecret cluster) := String.list_byte_of_string kubeconfig]>
      (sData existingSecret) in
  let annotations :=
    <[lastKubeconfigSyncAnnotation := formatRFC3339 lastSyncTime]>
      (sAnnotations existingSecret) in
  mkSecret (sName existingSecret) (sNamespace existingSecret) (sLabels existingSecret)
    annotations data (sStringData existingSecret).

Definition updateExistingSecret (kubeconfig : string) (cluster : GardenerCluster)
    (existingSecret : Secret) (lastSyncTime : Time) : M (GardenerCluster * option error) :=
  let existingSecret := withKubeconfig kubeconfig cluster existingSecret lastSyncTime in
  err <- client_Update existingSecret ;;
  match err with
  | Some e =>
      ret (UpdateConditionForErrorState cluster ConditionTypeKubeconfigManagement
             ConditionReasonFailedToUpdateSecret e, Some e)
  | None =>
      ret (UpdateConditionForReadyState cluster ConditionTypeKubeconfigManagement
             ConditionReasonKubeconfigSecretRotated ConditionTrue, None)
  end.

(** [handleKubeconfig] writes conditions through the pointer [cluster]:
    the GardenerCluster it leaves behind is the first component. *)
Definition handleKubeconfig (cluster : GardenerCluster) (lastSyncTime : Time)
    : M (GardenerCluster * kubeconfigStatus * option error) :=
  found <- getSecret (cShootName cluster) ;;
  let existingSecret := fst found in
  match unlessNotFound (snd found) with
  | Some err =>
      ret (UpdateConditionForErrorState cluster ConditionTypeKubeconfigManagement
             ConditionReasonFailedToGetSecret err, ksZero, Some err)
  | None =>
      fetched <- KubeconfigProvider_Fetch (cShootName cluster) ;;
      let kubeconfig := fst fetched in
      match snd fetched with
      | Some err =>
          ret (UpdateConditionForErrorState cluster ConditionTypeKubeconfigManagement
                 ConditionReasonFailedToGetKubeconfig err, ksZero, Some err)
      | None =>
          if secretRotationForced cluster then
            err <- removeKubeconfig cluster existingSecret ;;
            match err with
            | Some e =>
                ret (UpdateConditionForErrorState cluster
                       ConditionTypeKubeconfigManagement
                       ConditionReasonFailedToDeleteSecret e, ksZero, Some e)
            | None => ret (cluster, ksRotated, None)
            end
          else
            needs <- secretNeedsToBeRotated cluster existingSecret (rotationPeriod ctl) ;;
            if negb needs then ret (cluster, ksZero, None)
            else
              match existingSecret with
              | Some existingSecret =>
                  r <- updateExistingSecret kubeconfig cluster existingSecret
                         lastSyncTime ;;
                  ret (fst r, ksModified, snd r)
              | None =>
                  r <- createNewSecret kubeconfig cluster lastSyncTime ;;
                  ret (fst r, ksCreated, snd r)
              end
      end
  end.

(** The GardenerCluster after [removeForceRotationAnnotation] has deleted
    the annotation from its map. *)
Definition withoutForceRotation (clusterToUpdate : GardenerCluster) : GardenerCluster :=
  let annotations :=
    delete forceKubeconfigRotationAnnotation (cAnnotations clusterToUpdate) in
  mkGardenerCluster (cName clusterToUpdate) (cNamespace clusterToUpdate)
    (cLabels clusterToUpdate) annotations (cShootName clusterToUpdate)
    (cSecret clusterToUpdate) (cStatus clusterToUpdate).

Definition removeForceRotationAnnotation (cluster : GardenerCluster) : M (option error) :=
  if secretRotationForced cluster then
    r <- client_Get (cNamespace cluster) (cName cluster) ;;
    match r with
    | inl err => ret (Some err)
    | inr clusterToUpdate => client_UpdateCluster (withoutForceRotation clusterToUpdate)
    end
  else ret None.

Definition Reconcile (req : Request) : M (Result * option error) :=
  r <- client_Get (reqNamespace req) (reqName req) ;;
  match r with
  | inl err =>
      err <- (if IsNotFound err then deleteKubeconfigSecret (reqName req)
              else ret (Some err)) ;;
      ret (resultWithoutRequeue, err)
  | inr cluster =>
      lastSyncTime <- Now ;;
      handled <- handleKubeconfig cluster lastSyncTime ;;
      let cluster := fst (fst handled) in
      let kubeconfigStatus := snd (fst handled) in
      match snd handled with
      | Some err =>
          _ <- persistStatusChange cluster ;;
          ret (resultWithoutRequeue, if IsNotFound err then None else Some err)
      | None =>
          err <- (if bool_decide (kubeconfigStatus = ksRotated)
                  then removeForceRotationAnnotation cluster
                  else ret None) ;;
          match err with
          | Some e => ret (resultWithoutRequeue, Some e)
          | None =>
              if bool_decide (kubeconfigStatus = ksCreated)
                 || bool_decide (kubeconfigStatus = ksModified)
              then
                _ <- persistStatusChange cluster ;;
                ret (resultWithoutRequeue, None)
              else ret (resultWithRequeue, None)
          end
      end
  end.

End Controller.

End controller.

(** * Examples: instances of the library interfaces and sample objects *)

(** ** A JSON encoder

    It writes the fields in the order of the struct, strings between quotes,
    and ends the line as [Encode] does; the sample strings need no escaping. *)

Definition jsonField (name value : string) : string :=
  controller.quote +:+ name +:+ controller.quote +:+ ":"
    +:+ controller.quote +:+ value +:+ controller.quote.

Definition exampleEncode (cfg : auditlogs.AuditlogExtensionConfig) : string :=
  "{" +:+ jsonField "kind" (auditlogs.Kind (auditlogs.cfgTypeMeta cfg))
    +:+ "," +:+ jsonField "apiVersion" (auditlogs.APIVersion (auditlogs.cfgTypeMeta cfg))
    +:+ "," +:+ jsonField "type" (auditlogs.cfgType cfg)
    +:+ "," +:+ jsonField "tenantID" (auditlogs.cfgTenantID cfg)
    +:+ "," +:+ jsonField "serviceURL" (auditlogs.cfgServiceURL cfg)
    +:+ "," +:+ jsonField "secretReferenceName" (auditlogs.cfgSecretReferenceName cfg)
    +:+ "}" +:+ String (Ascii.ascii_of_nat 10) EmptyString.

Definition exampleJSON : auditlogs.JSON :=
  {| auditlogs.json_Encode := fun cfg => inr (String.list_byte_of_string (exampleEncode cfg)) |}.

Definition exampleAuditLogData : auditlogs.AuditLogData :=
  {| auditlogs.TenantID := "79c64792-9c1e-4c1b-9941-ef7560dd3eae";
     auditlogs.ServiceURL := "https://auditlog.example.com:3001";
     auditlogs.SecretName := "auditlog-secret" |}.

Definition exampleRaw : list Byte.byte :=
  String.list_byte_of_string (exampleEncode (auditlogs.auditlogConfig exampleAuditLogData)).

Definition dnsExtension : Extension :=
  {| Type_ := "shoot-dns-service"; ProviderConfig := None; Disabled := None |}.

Definition certExtension : Extension :=
  {| Type_ := "shoot-cert-service"; ProviderConfig := None; Disabled := Some false |}.

Definition staleAuditlogExtension : Extension :=
  {| Type_ := "shoot-auditlog-service";
     ProviderConfig := Some {| Raw := String.list_byte_of_string "{}" |};
     Disabled := None |}.

Definition exampleShootWith (exts : list Extension) : Shoot :=
  {| ShootName := "shoot-1";
     ShootNamespace := "garden-kyma";
     ShootLabels := ∅;
     ShootAnnotations := ∅;
     Spec := {| Extensions := exts;
                ExposureClassName := None;
                ShootPurpose := Some "evaluation";
                ShootRegion := "eu-west-1";
                ShootProviderType := "aws";
                SeedName := None |} |}.

(** ** The RFC 3339 layout, for instants in UTC

    [exampleFormat] writes an instant the way [t.UTC().Format(time.RFC3339)]
    does for the years 0 to 9999, and [exampleParse] reads that form back. *)

Definition daysFromCivil (y m d : Z) : Z :=
  let y := if m <=? 2 then y - 1 else y in
  let era := y / 400 in
  let yoe := y - era * 400 in
  let doy := (153 * (if 2 <? m then m - 3 else m + 9) + 2) / 5 + d - 1 in
  let doe := yoe * 365 + yoe / 4 - yoe / 100 + doy in
  era * 146097 + doe - 719468.

Definition civilFromDays (z : Z) : Z * Z * Z :=
  let z := z + 719468 in
  let era := z / 146097 in
  let doe := z - era * 146097 in
  let yoe := (doe - doe / 1460 + doe / 36524 - doe / 146096) / 365 in
  let doy := doe - (365 * yoe + yoe / 4 - yoe / 100) in
  let mp := (5 * doy + 2) / 153 in
  let d := doy - (153 * mp + 2) / 5 + 1 in
  let m := if mp <? 10 then mp + 3 else mp - 9 in
  (yoe + era * 400 + (if m <=? 2 then 1 else 0), m, d).

Definition digit (n : Z) : Ascii.ascii := Ascii.ascii_of_nat (48 + Z.to_nat (n mod 10)).

Definition pad2 (n : Z) : string := String (digit (n / 10)) (String (digit n) EmptyString).

Definition exampleFormat (t : Time) : string :=
  let secs := t / Second in
  let '(y, m, d) := civilFromDays (secs / 86400) in
  let rem := secs mod 86400 in
  pad2 (y / 100) +:+ pad2 y +:+ "-" +:+ pad2 m +:+ "-" +:+ pad2 d +:+ "T"
    +:+ pad2 (rem / 3600) +:+ ":" +:+ pad2 (rem mod 3600 / 60) +:+ ":" +:+ pad2 (rem mod 60)
    +:+ "Z".

Definition digitValue (c : Ascii.ascii) : option Z :=
  let n := Z.of_nat (Ascii.nat_of_ascii c) in
  if (48 <=? n) && (n <=? 57) then Some (n - 48) else None.

Fixpoint number (acc : Z) (cs : list Ascii.ascii) : option Z :=
  match cs with
  | [] => Some acc
  | c :: cs =>
      match digitValue c with
      | Some v => number (10 * acc + v) cs
      | None => None
      end
  end.

Definition daysIn (y m : Z) : Z :=
  if m =? 2 then
    if ((y mod 4 =? 0) && negb (y mod 100 =? 0)) || (y mod 400 =? 0) then 29 else 28
  else if (m =? 4) || (m =? 6) || (m =? 9) || (m =? 11) then 30
  else 31.

Definition exampleParse (s : string) : option Time :=
  match String.list_ascii_of_string s with
  | [y1; y2; y3; y4; "-"%char; m1; m2; "-"%char; d1; d2; "T"%char;
     h1; h2; ":"%char; n1; n2; ":"%char; s1; s2; "Z"%char] =>
      match number 0 [y1; y2; y3; y4], number 0 [m1; m2], number 0 [d1; d2],
            number 0 [h1; h2], number 0 [n1; n2], number 0 [s1; s2] with
      | Some y, Some m, Some d, Some h, Some n, Some sec =>
          if (1 <=? m) && (m <=? 12) && (1 <=? d) && (d <=? daysIn y m)
             && (h <? 24) && (n <? 60) && (sec <? 60)
          then Some ((daysFromCivil y m d * 86400 + h * 3600 + n * 60 + sec) * Second)
          else None
      | _, _, _, _, _, _ => None
      end
  | _ => None
  end.

Definition exampleLayout : controller.TimeLayout :=
  {| controller.parseRFC3339 := exampleParse;
     controller.formatRFC3339 := exampleFormat |}.

(** ** Condition methods

    The error method records the state Error and a False condition carrying
    the error's message, the ready method the state Ready and the condition
    it is given; both replace the conditions of the same type. *)

Definition exampleSetCondition (c : controller.GardenerCluster) (st : controller.ClusterState)
    (cond : controller.Condition) : controller.GardenerCluster :=
  controller.mkGardenerCluster (controller.cName c) (controller.cNamespace c)
    (controller.cLabels c) (controller.cAnnotations c) (controller.cShootName c)
    (controller.cSecret c)
    (controller.mkStatus st [cond]).

Definition exampleConditions : controller.ConditionMethods :=
  {| controller.UpdateConditionForErrorState := fun c t r err =>
       exampleSetCondition c controller.ErrorState
         (controller.mkCondition t controller.ConditionFalse r (errorString err));
     controller.UpdateConditionForReadyState := fun c t r status =>
       exampleSetCondition c controller.ReadyState
         (controller.mkCondition t status r EmptyString) |}.

(** ** A GardenerCluster, its secret and the worlds around them *)

Definition exampleCluster (annotations : gmap string string) : controller.GardenerCluster :=
  {| controller.cName := "cluster-1";
     controller.cNamespace := "kcp-system";
     controller.cLabels := {[ "kyma-project.io/shoot-name" := "shoot-1" ]};
     controller.cAnnotations := annotations;
     controller.cShootName := "shoot-1";
     controller.cSecret :=
       {| controller.refName := "kubeconfig-cluster-1";
          controller.refNamespace := "kcp-system";
          controller.refKey := "config" |};
     controller.cStatus := controller.mkStatus controller.StateNone [] |}.

Definition forcedAnnotations : gmap string string :=
  {[ controller.forceKubeconfigRotationAnnotation := "true" ]}.

Definition exampleSecret (name lastSync : string) : controller.Secret :=
  {| controller.sName := name;
     controller.sNamespace := "kcp-system";
     controller.sLabels :=
       {[ "kyma-project.io/shoot-name" := "shoot-1";
          "operator.kyma-project.io/managed-by" := "infrastructure-manager";
          controller.clusterCRNameLabel := "cluster-1" ]};
     controller.sAnnotations := {[ controller.lastKubeconfigSyncAnnotation := lastSync ]};
     controller.sData := {[ "config" := String.list_byte_of_string "kubeconfig-0" ]};
     controller.sStringData := ∅ |}.

Definition exampleWorld (clusters : list controller.GardenerCluster)
    (secrets : list controller.Secret) : controller.World :=
  {| controller.wSecrets := list_to_map (map (fun s => (controller.secretKey s, s)) secrets);
     controller.wClusters := list_to_map (map (fun c => (controller.clusterKey c, c)) clusters);
     controller.wTrace := [];
     controller.wTicks := 0 |}.

(** The first reading of the clock is at 2024-01-01T00:00:00Z plus [elapsed],
    every later one a millisecond after the one before; no call fails. *)
Definition exampleEnv (elapsed : Duration) : controller.Env :=
  {| controller.eFault := fun _ => None;
     controller.eClock := fun n => 1704067200 * Second + elapsed + Z.of_nat n * 1000000 |}.

Definition exampleController (period : Duration) : controller.GardenerClusterController :=
  {| controller.Fetch := fun _ => ("kubeconfig-1", None);
     controller.rotationPeriod := period |}.

Definition failingController (period : Duration) (err : error)
    : controller.GardenerClusterController :=
  {| controller.Fetch := fun _ => (EmptyString, Some err);
     controller.rotationPeriod := period |}.

Definition exampleRequest : controller.Request :=
  {| controller.reqNamespace := "kcp-system"; controller.reqName := "cluster-1" |}.

Definition exampleStoredSecret : controller.Secret :=
  exampleSecret "kubeconfig-cluster-1" "2024-01-01T00:00:00Z".

Definition exampleSecondSecret : controller.Secret :=
  exampleSecret "kubeconfig-cluster-1-copy" "2024-01-01T00:00:00Z".

Definition exampleTenMinutes : Duration := 10 * Minute.

Definition exampleFetchError : error := OtherError "gardener is not reachable".

(** ** A Runtime and a machine whose seed lookup finds no seed in the region *)

Definition exampleRuntime : fsm.Runtime :=
  {| fsm.rName := "runtime-1";
     fsm.rLabels := ∅;
     fsm.rShoot :=
       {| fsm.rsName := "shoot-1";
          fsm.rsPurpose := "production";
          fsm.rsRegion := "eu-west-1";
          fsm.rsEnforceSeedLocation := Some true;
          fsm.rsProviderType := "aws" |};
     fsm.rStatus :=
       {| fsm.rState := fsm.StateNone;
          fsm.rConditions :=
            [fsm.mkCondition fsm.ConditionTypeRuntimeProvisioned "Unknown"
               fsm.ConditionReasonShootCreationPending "Shoot is pending"] |} |}.

Definition exampleFsm : fsm.fsm :=
  {| fsm.seedForRegionAvailable := fun _ _ => (false, ["eu-central-1"], None);
     fsm.GetAuditLogData := fun _ _ => (exampleAuditLogData, None);
     fsm.GetMaintenanceWindow := fun _ _ => (None, None);
     fsm.ValidateRequiredLabels := fun _ => None;
     fsm.ToShoot := fun _ _ => (exampleShootWith [], None);
     fsm.ShootClient_Create := fun _ => None;
     fsm.AuditLogMandatory := true;
     fsm.converterConfig := {| fsm.WindowMapPath := EmptyString |};
     fsm.GardenerRequeueDuration := 15 * Second |}.

Definition exampleSystemState : fsm.systemState :=
  {| fsm.instance := exampleRuntime; fsm.stopCounter := 4; fsm.created := [] |}.

(** * Vocabulary of the further properties *)

(** ** The create-shoot state function *)

(** The machine [m] with one collaborator exchanged. *)
Definition withSeedLookup (m : fsm.fsm)
    (lookup : string -> string -> bool * list string * option error) : fsm.fsm :=
  fsm.mkFsm lookup (fsm.GetAuditLogData m) (fsm.GetMaintenanceWindow m)
    (fsm.ValidateRequiredLabels m) (fsm.ToShoot m) (fsm.ShootClient_Create m)
    (fsm.AuditLogMandatory m) (fsm.converterConfig m) (fsm.GardenerRequeueDuration m).

Definition withAuditLogData (m : fsm.fsm)
    (get : string -> string -> auditlogs.AuditLogData * option error) : fsm.fsm :=
  fsm.mkFsm (fsm.seedForRegionAvailable m) get (fsm.GetMaintenanceWindow m)
    (fsm.ValidateRequiredLabels m) (fsm.ToShoot m) (fsm.ShootClient_Create m)
    (fsm.AuditLogMandatory m) (fsm.converterConfig m) (fsm.GardenerRequeueDuration m).


(** The seed check lets the run through: it is not enforced, or the lookup
    has answered that a seed is available. *)
Definition seedCheckPasses (m : fsm.fsm) (s : fsm.systemState) : Prop :=
  let shoot := fsm.rShoot (fsm.instance s) in
  fsm.rsEnforceSeedLocation shoot <> Some true \/
  exists regionsWithSeeds,
    fsm.seedForRegionAvailable m (fsm.rsProviderType shoot) (fsm.rsRegion shoot)
      = (true, regionsWithSeeds, None).

(** The audit log data does not stop the run: it was read, or it is not
    mandatory. *)
Definition auditLogPasses (m : fsm.fsm) (s : fsm.systemState) : Prop :=
  let shoot := fsm.rShoot (fsm.instance s) in
  snd (fsm.GetAuditLogData m (fsm.rsProviderType shoot) (fsm.rsRegion shoot)) = None \/
  fsm.AuditLogMandatory m = false.

(** The options [sFnCreateShoot] hands to [convertCreate]. *)
Definition createOpts (m : fsm.fsm) (s : fsm.systemState) : fsm.CreateOpts :=
  let shoot := fsm.rShoot (fsm.instance s) in
  let path := fsm.WindowMapPath (fsm.converterConfig m) in
  fsm.mkCreateOpts (fsm.converterConfig m)
    (fst (fsm.GetAuditLogData m (fsm.rsProviderType shoot) (fsm.rsRegion shoot)))
    (if String.eqb (fsm.rsPurpose shoot) "production" && negb (String.eqb path EmptyString)
     then fst (fsm.GetMaintenanceWindow m path (fsm.rsRegion shoot))
     else None).

(** ** The GardenerCluster controller *)

(** The name of the secret a call writes, if it writes one. *)
Definition writtenKey (c : controller.Call) : option (string * string) :=
  match c with
  | controller.CallCreate s | controller.CallUpdate s | controller.CallDelete s =>
      Some (controller.secretKey s)
  | _ => None
  end.

(** [c'] is [c] up to its status and the forced-rotation annotation. *)
Definition sameCluster (c c' : controller.GardenerCluster) : Prop :=
  controller.cName c' = controller.cName c /\
  controller.cNamespace c' = controller.cNamespace c /\
  controller.cLabels c' = controller.cLabels c /\
  controller.cShootName c' = controller.cShootName c /\
  controller.cSecret c' = controller.cSecret c /\
  (controller.cAnnotations c' = controller.cAnnotations c \/
   controller.cAnnotations c'
   = delete controller.forceKubeconfigRotationAnnotation (controller.cAnnotations c)).

(** The same GardenerClusters are stored, each one up to its status and
    the forced-rotation annotation. *)
Definition clustersKept (m m' : gmap (string * string) controller.GardenerCluster) : Prop :=
  forall k,
    match m !! k, m' !! k with
    | Some c, Some c' => sameCluster c c'
    | None, None => True
    | _, _ => False
    end.

(** The calls of a reconcile that handles a stored GardenerCluster, and
    the calls of one that cleans up after a GardenerCluster that is gone. *)
Definition handlingCall (c : controller.Call) : Prop :=
  match c with
  | controller.CallDelete _ => False
  | _ => True
  end.

Definition cleanupCall (c : controller.Call) : Prop :=
  match c with
  | controller.CallGet _ _ | controller.CallList _ _ | controller.CallDelete _ => True
  | _ => False
  end.

(** The footprint of a computation: from every world it issues calls that
    all satisfy [P] and of which at most [n] write a secret, it leaves every
    secret that no call writes as it was, and, when the GardenerClusters are
    stored under their own names, it keeps them so and keeps each one up to
    its status and the forced-rotation annotation. *)
Definition footprint {A : Type} (P : controller.Call -> Prop) (n : nat)
    (c : controller.M A) : Prop :=
  forall w,
    exists calls,
      controller.wTrace (snd (c w)) = controller.wTrace w ++ calls /\
      Forall P calls /\
      (length (omap writtenKey calls) <= n)%nat /\
      (forall k, k ∉ omap writtenKey calls ->
                 controller.wSecrets (snd (c w)) !! k = controller.wSecrets w !! k) /\
      (map_Forall (fun k c => controller.clusterKey c = k) (controller.wClusters w) ->
       map_Forall (fun k c => controller.clusterKey c = k) (controller.wClusters (snd (c w))) /\
       clustersKept (controller.wClusters w) (controller.wClusters (snd (c w)))).

(** ** More sample objects *)

(** The Runtime of [exampleRuntime] with the seed location not enforced. *)
Definition relaxedRuntime : fsm.Runtime :=
  {| fsm.rName := "runtime-1";
     fsm.rLabels := ∅;
     fsm.rShoot :=
       {| fsm.rsName := "shoot-1";
          fsm.rsPurpose := "production";
          fsm.rsRegion := "eu-west-1";
          fsm.rsEnforceSeedLocation := Some false;
          fsm.rsProviderType := "aws" |};
     fsm.rStatus := {| fsm.rState := fsm.StateNone; fsm.rConditions := [] |} |}.

Definition relaxedSystemState : fsm.systemState :=
  {| fsm.instance := relaxedRuntime; fsm.stopCounter := 4; fsm.created := [] |}.

Definition exampleSeedError : error := OtherError "seed lookup timed out".
Definition exampleAuditLogError : error := OtherError "no audit log tenant for the region".
Definition exampleLabelError : error := OtherError "missing required label".
Definition exampleCreateError : error := OtherError "quota exceeded".

(** A seed lookup that fails, and one that never answers the same way as
    the one of [exampleFsm]. *)
Definition failingSeedLookup (providerType region : string)
    : bool * list string * option error :=
  (false, [], Some exampleSeedError).

(** An audit log source that fails. *)
Definition failingAuditLogData (providerType region : string)
    : auditlogs.AuditLogData * option error :=
  (auditlogs.mkAuditLogData EmptyString EmptyString EmptyString, Some exampleAuditLogError).

(** The machine of [exampleFsm] with audit logs that are not mandatory and
    cannot be read. *)
Definition optionalAuditFsm : fsm.fsm :=
  {| fsm.seedForRegionAvailable := fsm.seedForRegionAvailable exampleFsm;
     fsm.GetAuditLogData := failingAuditLogData;
     fsm.GetMaintenanceWindow := fsm.GetMaintenanceWindow exampleFsm;
     fsm.ValidateRequiredLabels := fsm.ValidateRequiredLabels exampleFsm;
     fsm.ToShoot := fsm.ToShoot exampleFsm;
     fsm.ShootClient_Create := fsm.ShootClient_Create exampleFsm;
     fsm.AuditLogMandatory := false;
     fsm.converterConfig := fsm.converterConfig exampleFsm;
     fsm.GardenerRequeueDuration := fsm.GardenerRequeueDuration exampleFsm |}.

(** The machine of [exampleFsm] with a Runtime whose labels are not valid. *)
Definition unlabelledFsm : fsm.fsm :=
  {| fsm.seedForRegionAvailable := fsm.seedForRegionAvailable exampleFsm;
     fsm.GetAuditLogData := fsm.GetAuditLogData exampleFsm;
     fsm.GetMaintenanceWindow := fsm.GetMaintenanceWindow exampleFsm;
     fsm.ValidateRequiredLabels := fun _ => Some exampleLabelError;
     fsm.ToShoot := fsm.ToShoot exampleFsm;
     fsm.ShootClient_Create := fsm.ShootClient_Create exampleFsm;
     fsm.AuditLogMandatory := fsm.AuditLogMandatory exampleFsm;
     fsm.converterConfig := fsm.converterConfig exampleFsm;
     fsm.GardenerRequeueDuration := fsm.GardenerRequeueDuration exampleFsm |}.

(** The machine of [exampleFsm] with a backend that refuses the Shoot. *)
Definition refusingFsm : fsm.fsm :=
  {| fsm.seedForRegionAvailable := fsm.seedForRegionAvailable exampleFsm;
     fsm.GetAuditLogData := fsm.GetAuditLogData exampleFsm;
     fsm.GetMaintenanceWindow := fsm.GetMaintenanceWindow exampleFsm;
     fsm.ValidateRequiredLabels := fsm.ValidateRequiredLabels exampleFsm;
     fsm.ToShoot := fsm.ToShoot exampleFsm;
     fsm.ShootClient_Create := fun _ => Some exampleCreateError;
     fsm.AuditLogMandatory := fsm.AuditLogMandatory exampleFsm;
     fsm.converterConfig := fsm.converterConfig exampleFsm;
     fsm.GardenerRequeueDuration := fsm.GardenerRequeueDuration exampleFsm |}.


Definition exampleApiError : error := OtherError "connection refused".

(** The environment of [exampleEnv 0] with the call number [index] of the
    trace failing with [err]. *)
Definition faultyEnv (index : nat) (err : error) : controller.Env :=
  {| controller.eFault := fun n => if Nat.eqb n index then Some err else None;
     controller.eClock := controller.eClock (exampleEnv 0) |}.

(** A GardenerCluster without the shoot-name label. *)
Definition unlabelledCluster : controller.GardenerCluster :=
  {| controller.cName := "cluster-1";
     controller.cNamespace := "kcp-system";
     controller.cLabels := ∅;
     controller.cAnnotations := ∅;
     controller.cShootName := "shoot-1";
     controller.cSecret :=
       {| controller.refName := "kubeconfig-cluster-1";
          controller.refNamespace := "kcp-system";
          controller.refKey := "config" |};
     controller.cStatus := controller.mkStatus controller.StateNone [] |}.

(** A secret that has the name the GardenerCluster asks for and no label. *)
Definition foreignSecret : controller.Secret :=
  {| controller.sName := "kubeconfig-cluster-1";
     controller.sNamespace := "kcp-system";
     controller.sLabels := ∅;
     controller.sAnnotations := ∅;
     controller.sData := {[ "token" := String.list_byte_of_string "t0" ]};
     controller.sStringData := ∅ |}.

(** A Shoot that came with two auditlog extensions. *)
Definition secondStaleExtension : Extension :=
  {| Type_ := "shoot-auditlog-service";
     ProviderConfig := None;
     Disabled := Some true |}.

Definition otherAuditLogData : auditlogs.AuditLogData :=
  {| auditlogs.TenantID := "00000000-0000-0000-0000-000000000000";
     auditlogs.ServiceURL := "https://auditlog.example.org:3001";
     auditlogs.SecretName := "auditlog-secret-2" |}.

(** * Properties *)

(** ** The auditlog extension *)

Section AuditlogExtension.

Import auditlogs.
Context `{JSON}.

Implicit Types (s : Shoot) (d : AuditLogData).

Lemma IndexFunc_bounds {A : Type} (l : list A) (f : A -> bool) :
  -1 <= IndexFunc l f < Z.of_nat (length l).
Proof.
  induction l as [|x l IH]; simpl; [lia|].
  destruct (f x); [lia|].
  destruct (Z.eqb_spec (IndexFunc l f) (-1)); lia.
Qed.

Lemma IndexFunc_absent {A : Type} (l : list A) (f : A -> bool) :
  Forall (fun y => f y = false) l -> IndexFunc l f = -1.
Proof.
  induction 1 as [|x l Hx _ IH]; simpl; [done|].
  by rewrite Hx, IH.
Qed.

Lemma IndexFunc_app_found {A : Type} (l1 l2 : list A) (x : A) (f : A -> bool) :
  Forall (fun y => f y = false) l1 -> f x = true ->
  IndexFunc (l1 ++ x :: l2) f = Z.of_nat (length l1).
Proof.
  intros Hl1 Hx. induction Hl1 as [|y l1 Hy _ IH]; simpl.
  - by rewrite Hx.
  - rewrite Hy, IH.
    destruct (Z.eqb_spec (Z.of_nat (length l1)) (-1)); lia.
Qed.

Lemma IndexFunc_inv {A : Type} (l : list A) (f : A -> bool) :
  (IndexFunc l f = -1 /\ Forall (fun y => f y = false) l) \/
  (exists l1 x l2, l = l1 ++ x :: l2 /\ Forall (fun y => f y = false) l1 /\
                   f x = true /\ IndexFunc l f = Z.of_nat (length l1)).
Proof.
  induction l as [|x l IH]; simpl.
  - left. split; [done | constructor].
  - destruct (f x) eqn:Hx.
    + right. exists [], x, l. repeat split; [constructor | done].
    + destruct IH as [[Hi Hall] | (l1 & y & l2 & -> & Hall & Hy & Hi)].
      * left. rewrite Hi. split; [done | by constructor].
      * right. exists (x :: l1), y, l2. rewrite Hi.
        repeat split; [by constructor | done |].
        destruct (Z.eqb_spec (Z.of_nat (length l1)) (-1)); simpl length; lia.
Qed.

Lemma isAuditlog_true e : isAuditlog e = true <-> Type_ e = auditlogExtensionType.
Proof. apply String.eqb_eq. Qed.

Lemma isAuditlog_false e : isAuditlog e = false <-> Type_ e <> auditlogExtensionType.
Proof. apply String.eqb_neq. Qed.

Lemma oSetExtension_encoded d s raw :
  json_Encode (auditlogConfig d) = inr raw ->
  oSetExtension d s =
    (setExtensions s
       (if IndexFunc (Extensions (Spec s)) isAuditlog =? -1
        then Extensions (Spec s) ++ [auditlogExtension raw]
        else <[Z.to_nat (IndexFunc (Extensions (Spec s)) isAuditlog) :=
                 auditlogExtension raw]> (Extensions (Spec s))),
     None).
Proof.
  intros Henc. unfold oSetExtension. rewrite Henc. fold isAuditlog.
  fold (auditlogExtension raw). by destruct (_ =? -1).
Qed.

Lemma oSetExtension_encode_error d s err :
  json_Encode (auditlogConfig d) = inl err ->
  oSetExtension d s = (s, Some err).
Proof. intros Henc. unfold oSetExtension. by rewrite Henc. Qed.

Lemma setExtensions_Extensions s l : Extensions (Spec (setExtensions s l)) = l.
Proof. done. Qed.

Lemma setExtensions_twice s l l' :
  setExtensions (setExtensions s l) l' = setExtensions s l'.
Proof. done. Qed.

(** C7: let [raw] be the JSON encoding of the auditlog configuration of
    the data [d]: kind AuditlogConfig, API version
    service.auditlog.extensions.gardener.cloud/v1alpha1, type standard, the
    tenant id and the service URL of [d], and the secret reference name
    auditlog-credentials.  Then [oSetExtension] returns no error
    and changes nothing of the Shoot but its extension list.  If no entry of
    type shoot-auditlog-service is in the list, exactly one is appended: the
    list grows by one and its old entries stay.  If [i] is the index of the
    first such entry, the entry at [i] is replaced, the length is kept and
    every other index keeps its entry.  In both cases the entry written
    has the auditlog type, carries [raw] as its provider config and leaves
    the disabled flag unset. *)
Theorem oSetExtension_upserts d s raw :
  json_Encode
    {| cfgTypeMeta :=
         {| Kind := "AuditlogConfig";
            APIVersion := "service.auditlog.extensions.gardener.cloud/v1alpha1" |};
       cfgType := "standard";
       cfgTenantID := TenantID d;
       cfgServiceURL := ServiceURL d;
       cfgSecretReferenceName := "auditlog-credentials" |} = inr raw ->
  let extension :=
    {| Type_ := auditlogExtensionType;
       ProviderConfig := Some {| Raw := raw |};
       Disabled := None |} in
  let old := Extensions (Spec s) in
  let s' := fst (oSetExtension d s) in
  let new := Extensions (Spec s') in
  snd (oSetExtension d s) = None /\
  s' = setExtensions s new /\
  ((forall e, e ∈ old -> Type_ e <> auditlogExtensionType) ->
     new = old ++ [extension] /\ length new = S (length old)) /\
  (forall i e,
     old !! i = Some e -> Type_ e = auditlogExtensionType ->
     (forall j e', (j < i)%nat -> old !! j = Some e' -> Type_ e' <> auditlogExtensionType) ->
     new = <[i := extension]> old /\ length new = length old /\
     new !! i = Some extension /\
     forall j, j <> i -> new !! j = old !! j).
Proof.
  intros Henc extension old s' new. subst s' new.
  change (json_Encode (auditlogConfig d) = inr raw) in Henc.
  rewrite (oSetExtension_encoded d s raw Henc). simpl fst; simpl snd.
  rewrite setExtensions_Extensions. fold (auditlogExtension raw) in extension.
  split; [done|]. split; [done|]. split.
  - intros Hnone.
    rewrite IndexFunc_absent.
    + simpl. split; [done|]. rewrite length_app. subst old. simpl. lia.
    + apply Forall_forall. intros e He. apply isAuditlog_false. by apply Hnone.
  - intros i e Hi He Hbefore.
    assert (Hsplit : old = take i old ++ e :: drop (S i) old)
      by (symmetry; by apply take_drop_middle).
    assert (Hlen : (i < length old)%nat) by (by eapply lookup_lt_Some).
    assert (Hidx : IndexFunc old isAuditlog = Z.of_nat i).
    { rewrite Hsplit at 1. rewrite IndexFunc_app_found.
      - rewrite length_take. f_equal. lia.
      - apply Forall_forall. intros y Hy. apply isAuditlog_false.
        apply list_elem_of_lookup in Hy as [j Hj].
        assert (j < i)%nat.
        { apply lookup_lt_Some in Hj. rewrite length_take in Hj. lia. }
        apply (Hbefore j); [done|]. by rewrite lookup_take_lt in Hj.
      - by apply isAuditlog_true. }
    fold old. rewrite Hidx.
    destruct (Z.eqb_spec (Z.of_nat i) (-1)); [lia|].
    rewrite Nat2Z.id. split; [done|]. split; [by rewrite length_insert|].
    split; [by apply list_lookup_insert_eq|].
    intros j Hj. by apply list_lookup_insert_ne.
Qed.



End AuditlogExtension.

(** ** The create-shoot state function *)

Section CreateShoot.

Import fsm.

(** C6: with EnforceSeedLocation set to true and a seed lookup that
    succeeds and reports no seed for the region, [sFnCreateShoot] stops
    without requeueing, has incremented the stop counter by exactly one, has
    handed nothing to the backend's create call, and leaves on the Runtime the
    False condition with reason SeedNotFound as its only condition of type
    RuntimeProvisioned. *)
Theorem sFnCreateShoot_seed_not_found (m : fsm) (s : systemState)
    (regionsWithSeeds : list string) :
  rsEnforceSeedLocation (rShoot (instance s)) = Some true ->
  seedForRegionAvailable m (rsProviderType (rShoot (instance s)))
    (rsRegion (rShoot (instance s))) = (false, regionsWithSeeds, None) ->
  let condition :=
    mkCondition ConditionTypeRuntimeProvisioned "False" ConditionReasonSeedNotFound
      (seedNotFoundMessage (rsRegion (rShoot (instance s))) regionsWithSeeds) in
  let s' := snd (sFnCreateShoot m s) in
  fst (sFnCreateShoot m s) = Stop /\
  stopCounter s' = S (stopCounter s) /\
  created s' = created s /\
  condition ∈ rConditions (rStatus (instance s')) /\
  (forall c, c ∈ rConditions (rStatus (instance s')) ->
             condType c = ConditionTypeRuntimeProvisioned -> c = condition) /\
  rShoot (instance s') = rShoot (instance s).
Proof.
  intros Henforce Hseed condition s'. subst s'.
  unfold sFnCreateShoot. rewrite Henforce, Hseed. simpl.
  repeat split.
  - apply elem_of_app. right. by apply list_elem_of_singleton.
  - intros c Hc Htype. apply elem_of_app in Hc as [Hc|Hc].
    + apply list_elem_of_filter in Hc as [Hne _]. done.
    + by apply list_elem_of_singleton in Hc.
Qed.

End CreateShoot.

(** ** binary64 arithmetic

    Every operation the rotation policy performs on normal numbers returns
    the exact result rounded once: a normal number within the unit roundoff
    of it. *)

Section Binary64.

Import controller.

Lemma pow2_pos e : (0 < pow2 e)%Q.
Proof. apply Qpower_0_lt. reflexivity. Qed.

Lemma pow2_add a b : (pow2 (a + b) == pow2 a * pow2 b)%Q.
Proof. apply Qpower_plus. discriminate. Qed.

Lemma pow2_1 : (pow2 1 == 2)%Q.
Proof. reflexivity. Qed.

Lemma pow2_succ a : (pow2 (a + 1) == 2 * pow2 a)%Q.
Proof. rewrite pow2_add, pow2_1. ring. Qed.

Lemma pow2_nonneg_Z (n : Z) : 0 <= n -> (pow2 n == inject_Z (2 ^ n))%Q.
Proof.
  intros Hn. pattern n. apply natlike_ind; [reflexivity | | exact Hn].
  intros k Hk IH. unfold Z.succ. rewrite pow2_succ, IH, Z.pow_add_r by lia.
  rewrite inject_Z_mult. change (inject_Z (2 ^ 1)) with 2%Q. ring.
Qed.

Lemma inject_Z_xO p : (inject_Z (Zpos p~0) == 2 * inject_Z (Zpos p))%Q.
Proof. change (Zpos p~0) with (2 * Zpos p). rewrite inject_Z_mult. reflexivity. Qed.

Lemma inject_Z_xI p : (inject_Z (Zpos p~1) == 2 * inject_Z (Zpos p) + 1)%Q.
Proof.
  change (Zpos p~1) with (2 * Zpos p + 1). rewrite inject_Z_plus, inject_Z_mult. reflexivity.
Qed.

Lemma shr_1_located mrs x :
  locatedRecord mrs x -> locatedRecord (shr_1 mrs) (x * (1 # 2)).
Proof.
  destruct mrs as [m r s]. unfold locatedRecord. simpl. intros [Hm Hx].
  destruct m as [|p|p]; [| |lia].
  - destruct r, s; simpl in *; split; try lia; change (inject_Z 0) with 0%Q in *; lra.
  - destruct p as [p|p|]; destruct r, s; simpl in *; split; try lia;
      rewrite ?inject_Z_xO, ?inject_Z_xI in Hx;
      change (inject_Z 1) with 1%Q in *; change (inject_Z 0) with 0%Q in *; lra.
Qed.

Lemma iter_pos_invariant {A : Type} (f : A -> A) (I : Z -> A -> Prop) :
  (forall k a, I k a -> I (k + 1) (f a)) ->
  forall p k a, I k a -> I (k + Zpos p) (SpecFloat.iter_pos f p a).
Proof.
  intros Hstep. induction p as [p IH|p IH|]; intros k a Ha; simpl.
  - replace (k + Zpos p~1) with (k + 1 + Zpos p + Zpos p) by lia.
    apply IH, IH, Hstep, Ha.
  - replace (k + Zpos p~0) with (k + Zpos p + Zpos p) by lia.
    apply IH, IH, Ha.
  - apply Hstep, Ha.
Qed.

Lemma pow2_opp_succ k : (pow2 (- (k + 1)) == pow2 (- k) * (1 # 2))%Q.
Proof.
  replace (- (k + 1)) with (- k + - 1) by lia. rewrite pow2_add. reflexivity.
Qed.

Lemma shr_located mrs e n x :
  0 <= n -> locatedRecord mrs x ->
  exists mrs', shr mrs e n = (mrs', e + n) /\ locatedRecord mrs' (x * pow2 (- n)).
Proof.
  intros Hn Hx. destruct n as [|p|p]; [| |lia].
  - exists mrs. split; [simpl; f_equal; lia|].
    destruct Hx as [Hm Hx]. split; [exact Hm|].
    assert (Heq : (x * pow2 (- 0) == x)%Q) by (change (pow2 (- 0)) with 1%Q; ring).
    destruct (loc_of_shr_record mrs) as [|[]]; simpl in *; rewrite Heq; exact Hx.
  - exists (SpecFloat.iter_pos shr_1 p mrs). split; [reflexivity|].
    apply (iter_pos_invariant shr_1 (fun k a => locatedRecord a (x * pow2 (- k))) ) with (k := 0).
    + intros k a [Hm Ha]. pose proof (shr_1_located a _ (conj Hm Ha)) as [Hm' Ha'].
      split; [exact Hm'|].
      assert (Heq : (x * pow2 (- (k + 1)) == x * pow2 (- k) * (1 # 2))%Q)
        by (rewrite pow2_opp_succ; ring).
      destruct (loc_of_shr_record (shr_1 a)) as [|[]]; simpl in *; rewrite Heq; exact Ha'.
    + destruct Hx as [Hm Hx]. split; [exact Hm|].
      assert (Heq : (x * pow2 (- 0) == x)%Q) by (change (pow2 (- 0)) with 1%Q; ring).
      destruct (loc_of_shr_record mrs) as [|[]]; simpl in *; rewrite Heq; exact Hx.
Qed.

Lemma located_bounds m l x : located m l x -> (inject_Z m <= x < inject_Z m + 1)%Q.
Proof. destruct l as [|[]]; simpl; lra. Qed.

Lemma round_nearest_even_located m l x :
  located m l x ->
  (round_nearest_even m l = m \/ round_nearest_even m l = m + 1) /\
  (inject_Z (round_nearest_even m l) - (1 # 2) <= x
   <= inject_Z (round_nearest_even m l) + (1 # 2))%Q.
Proof.
  destruct l as [|[]]; simpl; intros Hx.
  - split; [by left | lra].
  - destruct (Z.even m); (split; [auto|]); rewrite ?inject_Z_plus;
      change (inject_Z 1) with 1%Q; lra.
  - split; [by left | lra].
  - split; [by right|]. rewrite inject_Z_plus. change (inject_Z 1) with 1%Q. lra.
Qed.

Lemma digits2_pos_bounds p :
  2 ^ (Zpos (digits2_pos p) - 1) <= Zpos p < 2 ^ Zpos (digits2_pos p).
Proof.
  induction p as [p IH|p IH|]; simpl digits2_pos.
  - rewrite Pos2Z.inj_succ. replace (Z.succ (Zpos (digits2_pos p)) - 1)
      with (Z.succ (Zpos (digits2_pos p) - 1)) by lia.
    rewrite !Z.pow_succ_r by lia. lia.
  - rewrite Pos2Z.inj_succ. replace (Z.succ (Zpos (digits2_pos p)) - 1)
      with (Z.succ (Zpos (digits2_pos p) - 1)) by lia.
    rewrite !Z.pow_succ_r by lia. lia.
  - simpl. lia.
Qed.

Lemma digits2_pos_unique p d :
  2 ^ (d - 1) <= Zpos p < 2 ^ d -> Zpos (digits2_pos p) = d.
Proof.
  intros [Hlo Hhi]. pose proof (digits2_pos_bounds p) as [Hlo' Hhi'].
  assert (0 < d).
  { destruct (Z.lt_ge_cases 0 d) as [|Hd]; [done|].
    destruct (Z.eq_dec d 0) as [->|]; [simpl in Hhi; lia|].
    rewrite Z.pow_neg_r in Hhi by lia. lia. }
  assert (Zpos (digits2_pos p) - 1 < d).
  { apply (Z.pow_lt_mono_r_iff 2); lia. }
  assert (d - 1 < Zpos (digits2_pos p)).
  { apply (Z.pow_lt_mono_r_iff 2); lia. }
  lia.
Qed.

Lemma value_pos m e : (0 < value m e)%Q.
Proof.
  unfold value. apply Qmult_lt_0_compat; [|apply pow2_pos].
  change 0%Q with (inject_Z 0). rewrite <- Zlt_Qlt. lia.
Qed.

Lemma fexp_normal d e :
  - 1000 <= d + e -> fexp prec64 emax64 (d + e) - e = d - prec64.
Proof. unfold fexp, emin, prec64, emax64. lia. Qed.

Lemma binary_round_aux_correct (s : bool) (p : positive) (ex : Z) (l : location) (x : Q) :
  prec64 <= Zpos (digits2_pos p) ->
  - 1000 <= ex -> Zpos (digits2_pos p) + ex <= 1000 ->
  located (Zpos p) l x ->
  exists m' e',
    binary_round_aux prec64 emax64 s (Zpos p) ex l = S754_finite s m' e' /\
    normal m' /\
    Zpos (digits2_pos p) + ex - prec64 <= e' <= Zpos (digits2_pos p) + ex - prec64 + 1 /\
    ((1 - u64) * (x * pow2 ex) <= value m' e' <= (1 + u64) * (x * pow2 ex))%Q.
Proof.
  set (d := Zpos (digits2_pos p)). intros Hd Hlo Hhi Hx.
  unfold binary_round_aux, shr_fexp. simpl Zdigits2. fold d.
  rewrite fexp_normal by (unfold prec64 in *; lia).
  destruct (shr_located (shr_record_of_loc (Zpos p) l) ex (d - prec64) x)
    as (mrs1 & -> & Hm1nonneg & Hloc1); [lia | |].
  { split; [destruct l as [|[]]; simpl; lia|].
    replace (loc_of_shr_record (shr_record_of_loc (Zpos p) l)) with l
      by (by destruct l as [|[]]).
    replace (shr_m (shr_record_of_loc (Zpos p) l)) with (Zpos p)
      by (by destruct l as [|[]]).
    exact Hx. }
  set (m1 := shr_m mrs1) in *. set (l1 := loc_of_shr_record mrs1) in *.
  set (x1 := (x * pow2 (- (d - prec64)))%Q) in *.
  set (e1 := ex + (d - prec64)).
  (* the scaled value has 53 digits *)
  pose proof (digits2_pos_bounds p) as [Hplo Hphi]. fold d in Hplo, Hphi.
  pose proof (located_bounds _ _ _ Hx) as [Hxlo Hxhi].
  assert (Hx1 : (inject_Z (2 ^ 52) <= x1 /\ x1 < inject_Z (2 ^ 53))%Q).
  { assert (Hscale : forall k, (pow2 k * pow2 (- (d - prec64)) == pow2 (k - d + 53))%Q).
    { intros k. rewrite <- pow2_add. unfold prec64. f_equiv. lia. }
    assert (Hpd1 : (inject_Z (2 ^ (d - 1)) <= x)%Q).
    { eapply Qle_trans; [|exact Hxlo]. rewrite <- Zle_Qle. exact Hplo. }
    assert (Hpd : (x < inject_Z (2 ^ d))%Q).
    { eapply Qlt_le_trans; [exact Hxhi|].
      change 1%Q with (inject_Z 1). rewrite <- inject_Z_plus, <- Zle_Qle. lia. }
    rewrite <- !pow2_nonneg_Z in Hpd1, Hpd |- * by (unfold prec64 in *; lia).
    pose proof (pow2_pos (- (d - prec64))) as Hpos.
    split.
    - assert (Heq : (pow2 52 == pow2 (d - 1) * pow2 (- (d - prec64)))%Q).
      { rewrite Hscale. f_equiv. lia. }
      rewrite Heq. unfold x1. nra.
    - assert (Heq : (pow2 53 == pow2 d * pow2 (- (d - prec64)))%Q).
      { rewrite Hscale. f_equiv. lia. }
      rewrite Heq. unfold x1. nra. }
  pose proof (located_bounds _ _ _ Hloc1) as [Hm1lo Hm1hi].
  assert (Hm1 : 2 ^ 52 <= m1 < 2 ^ 53).
  { split.
    - assert (inject_Z (2 ^ 52) < inject_Z (m1 + 1))%Q as Hlt
        by (rewrite inject_Z_plus; change (inject_Z 1) with 1%Q; lra).
      rewrite <- Zlt_Qlt in Hlt. lia.
    - assert (inject_Z m1 < inject_Z (2 ^ 53))%Q as Hlt by lra.
      by rewrite <- Zlt_Qlt in Hlt. }
  destruct (round_nearest_even_located _ _ _ Hloc1) as [Hmr Hnear].
  set (mr := round_nearest_even m1 l1) in *.
  assert (Hvalue : (x * pow2 ex == x1 * pow2 e1)%Q).
  { unfold x1, e1. rewrite <- Qmult_assoc, <- pow2_add.
    replace (- (d - prec64) + (ex + (d - prec64))) with ex by lia. reflexivity. }
  assert (Hhalf : ((1 # 2) <= u64 * x1)%Q).
  { change (inject_Z (2 ^ 52)) with (2 ^ 52 # 1)%Q in Hx1. unfold u64.
    assert ((1 # 2) == (1 # 9007199254740992) * (2 ^ 52 # 1))%Q as -> by reflexivity.
    apply Qmult_le_l; [reflexivity | tauto]. }
  assert (Hrel : ((1 - u64) * x1 <= inject_Z mr <= (1 + u64) * x1)%Q) by lra.
  assert (Hmrpos : 2 ^ 52 <= mr <= 2 ^ 53) by lia.
  destruct mr as [|q|q] eqn:Hq; [lia| |lia].
  assert (Hfinal : forall m' e', value m' e' == value q e1 ->
            ((1 - u64) * (x * pow2 ex) <= value m' e' <= (1 + u64) * (x * pow2 ex))%Q).
  { intros m' e' ->. rewrite Hvalue. unfold value.
    pose proof (pow2_pos e1). nra. }
  destruct (Z.eq_dec (Zpos q) (2 ^ 53)) as [Hcarry|Hnocarry].
  - assert (q = 9007199254740992%positive) as ->
      by (apply Pos2Z.inj; rewrite Hcarry; reflexivity).
    exists (4503599627370496)%positive, (e1 + 1).
    unfold shr_fexp, Zdigits2.
    change (Z.pos (digits2_pos 9007199254740992)) with 54.
    rewrite fexp_normal by (unfold e1, prec64 in *; lia).
    replace (54 - prec64) with 1 by reflexivity. simpl.
    destruct (Z.leb_spec (e1 + 1) (emax64 - prec64)) as [_|Hbad];
      [|unfold e1, emax64, prec64 in *; lia].
    split; [reflexivity|]. split; [unfold normal; simpl; lia|].
    split; [unfold e1; lia|].
    apply Hfinal. unfold value. rewrite pow2_succ.
    change (inject_Z 4503599627370496) with (4503599627370496 # 1)%Q.
    change (inject_Z 9007199254740992) with (9007199254740992 # 1)%Q. ring.
  - exists q, e1.
    unfold shr_fexp, Zdigits2.
    rewrite (digits2_pos_unique q 53) by (simpl; lia).
    rewrite fexp_normal by (unfold e1, prec64 in *; lia).
    replace (53 - prec64) with 0 by reflexivity. simpl.
    destruct (Z.leb_spec e1 (emax64 - prec64)) as [_|Hbad];
      [|unfold e1, emax64, prec64 in *; lia].
    split; [reflexivity|]. split; [unfold normal; lia|].
    split; [unfold e1; lia|].
    by apply Hfinal.
Qed.

Lemma pow2_mono a b : a <= b -> (pow2 a <= pow2 b)%Q.
Proof.
  intros Hab. replace b with (a + (b - a)) by lia. rewrite pow2_add.
  rewrite (pow2_nonneg_Z (b - a)) by lia.
  assert (1 <= inject_Z (2 ^ (b - a)))%Q as H1.
  { change 1%Q with (inject_Z 1). rewrite <- Zle_Qle.
    pose proof (Z.pow_pos_nonneg 2 (b - a)). lia. }
  pose proof (pow2_pos a). nra.
Qed.

Lemma iter_xO_value (p k : positive) :
  Zpos (Pos.iter xO p k) = Zpos p * 2 ^ Zpos k.
Proof.
  induction k as [|k IH] using Pos.peano_ind.
  - simpl. lia.
  - rewrite Pos.iter_succ, Pos2Z.inj_succ, Z.pow_succ_r by lia.
    rewrite Pos2Z.inj_xO, IH. lia.
Qed.

(** [shl_align] keeps the value and never raises the exponent. *)
Lemma shl_align_value (m : positive) (e e' : Z) :
  let r := shl_align m e e' in
  (value (fst r) (snd r) == value m e)%Q /\
  snd r = Z.min e e' /\
  Zpos (fst r) = Zpos m * 2 ^ (e - Z.min e e').
Proof.
  unfold shl_align. destruct (e' - e) as [|k|k] eqn:Hk; simpl.
  - split; [reflexivity|]. split; [lia|]. replace (e - Z.min e e') with 0 by lia. lia.
  - split; [reflexivity|]. split; [lia|]. replace (e - Z.min e e') with 0 by lia. lia.
  - assert (He : e = e' + Zpos k) by lia.
    split; [|split; [lia|]].
    + unfold value. rewrite iter_xO_value, inject_Z_mult, He, pow2_add.
      rewrite (pow2_nonneg_Z (Zpos k)) by lia. ring.
    + rewrite iter_xO_value. f_equal. f_equal. lia.
Qed.

Lemma digits2_pos_le (p : positive) (k : Z) :
  Zpos p < 2 ^ k -> Zpos (digits2_pos p) <= k.
Proof.
  intros Hp. pose proof (digits2_pos_bounds p) as [Hlo _].
  destruct (Z.le_gt_cases (Zpos (digits2_pos p)) k) as [|Hgt]; [done|].
  assert (2 ^ k <= 2 ^ (Zpos (digits2_pos p) - 1)).
  { apply Z.pow_le_mono_r; lia. }
  lia.
Qed.

Lemma digits2_pos_ge (p : positive) (k : Z) :
  2 ^ k <= Zpos p -> k + 1 <= Zpos (digits2_pos p).
Proof.
  intros Hp. pose proof (digits2_pos_bounds p) as [_ Hhi].
  destruct (Z.le_gt_cases (k + 1) (Zpos (digits2_pos p))) as [|Hgt]; [done|].
  assert (2 ^ Zpos (digits2_pos p) <= 2 ^ k).
  { apply Z.pow_le_mono_r; lia. }
  lia.
Qed.

Lemma binary_round_correct (s : bool) (p : positive) (e : Z) :
  - 900 <= e -> Zpos (digits2_pos p) + e <= 900 ->
  exists m' e',
    binary_round prec64 emax64 s p e = S754_finite s m' e' /\
    normal m' /\
    Zpos (digits2_pos p) + e - prec64 <= e' <= Zpos (digits2_pos p) + e - prec64 + 1 /\
    ((1 - u64) * value p e <= value m' e' <= (1 + u64) * value p e)%Q.
Proof.
  intros Hlo Hhi. unfold binary_round.
  set (d := Zpos (digits2_pos p)) in *.
  assert (Hfexp : fexp prec64 emax64 (d + e) = d + e - prec64).
  { unfold fexp, emin, prec64, emax64. pose proof (Pos2Z.is_pos (digits2_pos p)). lia. }
  rewrite Hfexp.
  pose proof (shl_align_value p e (d + e - prec64)) as (Hval & Hexp & Hm).
  destruct (shl_align p e (d + e - prec64)) as [mz ez]. simpl in Hval, Hexp, Hm.
  pose proof (digits2_pos_bounds p) as [Hplo Hphi]. fold d in Hplo, Hphi.
  pose proof (Pos2Z.is_pos (digits2_pos p)) as Hdpos. fold d in Hdpos.
  assert (Hdz : Zpos (digits2_pos mz) + ez = d + e /\ prec64 <= Zpos (digits2_pos mz)).
  { destruct (Z.le_gt_cases prec64 d) as [Hbig|Hsmall].
    - assert (ez = e) by lia. subst ez.
      replace (e - Z.min e (d + e - prec64)) with 0 in Hm by lia.
      assert (mz = p) by lia. subst mz. fold d. lia.
    - assert (ez = d + e - prec64) by lia. subst ez.
      replace (e - Z.min e (d + e - prec64)) with (prec64 - d) in Hm by lia.
      assert (Zpos (digits2_pos mz) = prec64).
      { apply digits2_pos_unique. rewrite Hm. unfold prec64 in *.
        replace (2 ^ (53 - 1)) with (2 ^ (d - 1) * 2 ^ (53 - d))
          by (rewrite <- Z.pow_add_r by lia; f_equal; lia).
        replace (2 ^ 53) with (2 ^ d * 2 ^ (53 - d))
          by (rewrite <- Z.pow_add_r by lia; f_equal; lia).
        pose proof (Z.pow_pos_nonneg 2 (53 - d)). nia. }
      lia. }
  destruct Hdz as [Hdz Hdig].
  destruct (binary_round_aux_correct s mz ez loc_Exact (inject_Z (Zpos mz)))
    as (m' & e' & Heq & Hnorm & He' & Hv);
    [lia | unfold prec64 in *; lia | lia | reflexivity |].
  exists m', e'. split; [exact Heq|]. split; [exact Hnorm|]. split; [lia|].
  fold (value mz ez) in Hv. by rewrite Hval in Hv.
Qed.

Lemma normal_digits m : normal m -> Zpos (digits2_pos m) = 53.
Proof. intros Hm. apply digits2_pos_unique. exact Hm. Qed.

Lemma SFmul_correct (m1 m2 : positive) (e1 e2 : Z) :
  normal m1 -> normal m2 -> - 400 <= e1 <= 400 -> - 400 <= e2 <= 400 ->
  exists m' e',
    SFmul prec64 emax64 (S754_finite false m1 e1) (S754_finite false m2 e2)
      = S754_finite false m' e' /\
    normal m' /\
    e1 + e2 + 52 <= e' <= e1 + e2 + 54 /\
    ((1 - u64) * (value m1 e1 * value m2 e2) <= value m' e'
     <= (1 + u64) * (value m1 e1 * value m2 e2))%Q.
Proof.
  intros H1 H2 He1 He2. unfold SFmul. simpl xorb.
  assert (Hprod : 2 ^ 104 <= Zpos (m1 * m2) < 2 ^ 106).
  { unfold normal in *. rewrite Pos2Z.inj_mul.
    change (2 ^ 104) with (2 ^ 52 * 2 ^ 52). change (2 ^ 106) with (2 ^ 53 * 2 ^ 53).
    nia. }
  assert (Hdig : 105 <= Zpos (digits2_pos (m1 * m2)) <= 106).
  { split; [apply (digits2_pos_ge _ 104); lia | apply digits2_pos_le; lia]. }
  destruct (binary_round_aux_correct false (m1 * m2) (e1 + e2) loc_Exact
              (inject_Z (Zpos (m1 * m2))))
    as (m' & e' & Heq & Hnorm & He' & Hv);
    [unfold prec64; lia | lia | lia | reflexivity |].
  exists m', e'. split; [exact Heq|]. split; [exact Hnorm|].
  split; [unfold prec64 in *; lia|].
  assert (Hval : (inject_Z (Zpos (m1 * m2)) * pow2 (e1 + e2)
                  == value m1 e1 * value m2 e2)%Q).
  { unfold value. rewrite Pos2Z.inj_mul, inject_Z_mult, pow2_add. ring. }
  by rewrite Hval in Hv.
Qed.

Lemma new_location_located (m2 q r : Z) :
  0 < m2 -> 0 <= r < m2 ->
  located q (new_location m2 r) (inject_Z (q * m2 + r) / inject_Z m2).
Proof.
  intros Hm2 Hr.
  assert (HM : (0 < inject_Z m2)%Q) by (change 0%Q with (inject_Z 0); by rewrite <- Zlt_Qlt).
  assert (Heq : (inject_Z (q * m2 + r) / inject_Z m2
                 == inject_Z q + inject_Z r / inject_Z m2)%Q).
  { rewrite inject_Z_plus, inject_Z_mult. field. lra. }
  set (y := (inject_Z r / inject_Z m2)%Q) in *.
  assert (Hy : (y * inject_Z m2 == inject_Z r)%Q) by (unfold y; field; lra).
  assert (HR0 : (0 <= inject_Z r)%Q) by (change 0%Q with (inject_Z 0); rewrite <- Zle_Qle; lia).
  assert (Hlt : forall a b : Z, a < b -> (inject_Z a < inject_Z b)%Q)
    by (intros; by rewrite <- Zlt_Qlt).
  assert (H2r : (inject_Z (2 * r) == 2 * inject_Z r)%Q) by (rewrite inject_Z_mult; reflexivity).
  unfold new_location, new_location_even, new_location_odd.
  destruct (Z.even m2) eqn:Heven.
  - destruct (Z.eqb_spec r 0) as [->|Hr0]; simpl.
    + rewrite Heq. unfold y. change (inject_Z 0) with 0%Q. field. lra.
    + destruct (Z.compare_spec (2 * r) m2) as [Hc|Hc|Hc]; simpl; rewrite Heq.
      * assert (inject_Z m2 == 2 * inject_Z r)%Q by (rewrite <- Hc, H2r; reflexivity).
        nra.
      * apply Hlt in Hc. rewrite H2r in Hc.
        assert (0 < inject_Z r)%Q by (change 0%Q with (inject_Z 0); apply Hlt; lia).
        split; nra.
      * apply Hlt in Hc. rewrite H2r in Hc.
        assert (inject_Z r < inject_Z m2)%Q by (apply Hlt; lia).
        split; nra.
  - destruct (Z.eqb_spec r 0) as [->|Hr0]; simpl.
    + rewrite Heq. unfold y. change (inject_Z 0) with 0%Q. field. lra.
    + assert (Hodd : 2 * r <> m2).
      { intros <-. rewrite Z.even_mul in Heven. discriminate. }
      assert (0 < inject_Z r)%Q by (change 0%Q with (inject_Z 0); apply Hlt; lia).
      assert (inject_Z r < inject_Z m2)%Q by (apply Hlt; lia).
      destruct (Z.compare_spec (2 * r + 1) m2) as [Hc|Hc|Hc]; simpl; rewrite Heq.
      * assert (2 * r < m2) as Hc' by lia. apply Hlt in Hc'. rewrite H2r in Hc'.
        split; nra.
      * assert (2 * r < m2) as Hc' by lia. apply Hlt in Hc'. rewrite H2r in Hc'.
        split; nra.
      * assert (m2 < 2 * r) as Hc' by lia. apply Hlt in Hc'. rewrite H2r in Hc'.
        split; nra.
Qed.

Lemma div_rescale (A B P1 P2 P53 : Q) :
  (0 < B -> 0 < P2 -> 0 < P53 ->
   A * P53 / B * (P1 * (/ P2 * / P53)) == A * P1 / (B * P2))%Q.
Proof. intros. field. repeat split; lra. Qed.

Lemma SFdiv_correct (m1 m2 : positive) (e1 e2 : Z) :
  normal m1 -> normal m2 -> - 400 <= e1 <= 400 -> - 400 <= e2 <= 400 ->
  exists m' e',
    SFdiv prec64 emax64 (S754_finite false m1 e1) (S754_finite false m2 e2)
      = S754_finite false m' e' /\
    normal m' /\
    e1 - e2 - 53 <= e' <= e1 - e2 - 51 /\
    ((1 - u64) * (value m1 e1 / value m2 e2) <= value m' e'
     <= (1 + u64) * (value m1 e1 / value m2 e2))%Q.
Proof.
  intros H1 H2 He1 He2. unfold SFdiv, SFdiv_core_binary. simpl xorb.
  unfold Zdigits2. rewrite (normal_digits m1 H1), (normal_digits m2 H2).
  replace (Z.min (fexp prec64 emax64 (53 + e1 - (53 + e2))) (e1 - e2))
    with (e1 - e2 - 53) by (unfold fexp, emin, prec64, emax64; lia).
  replace (e1 - e2 - (e1 - e2 - 53)) with 53 by lia.
  rewrite Z.shiftl_mul_pow2 by lia.
  pose proof (Z_div_mod (Zpos m1 * 2 ^ 53) (Zpos m2) eq_refl) as Hdiv.
  destruct (Z.div_eucl (Zpos m1 * 2 ^ 53) (Zpos m2)) as [q r].
  destruct Hdiv as [Hqr Hr].
  assert (Hq : 2 ^ 52 <= q < 2 ^ 54).
  { unfold normal in *.
    change (2 ^ 54) with (2 * 2 ^ 53). change (2 ^ 53) with (2 * 2 ^ 52) in *.
    split; nia. }
  destruct q as [|q|q]; [lia| |lia].
  assert (Hdig : 53 <= Zpos (digits2_pos q) <= 54).
  { split; [apply (digits2_pos_ge _ 52); lia | apply digits2_pos_le; lia]. }
  pose proof (new_location_located (Zpos m2) (Zpos q) r eq_refl Hr) as Hloc.
  destruct (binary_round_aux_correct false q (e1 - e2 - 53) (new_location (Zpos m2) r)
              (inject_Z (Zpos q * Zpos m2 + r) / inject_Z (Zpos m2)))
    as (m' & e' & Heq & Hnorm & He' & Hv);
    [unfold prec64; lia | lia | lia | exact Hloc |].
  exists m', e'. split; [exact Heq|]. split; [exact Hnorm|].
  split; [unfold prec64 in *; lia|].
  assert (Hval : (inject_Z (Zpos q * Zpos m2 + r) / inject_Z (Zpos m2) * pow2 (e1 - e2 - 53)
                  == value m1 e1 / value m2 e2)%Q).
  { replace (Zpos q * Zpos m2 + r) with (Zpos m1 * 2 ^ 53) by lia.
    unfold value. rewrite inject_Z_mult.
    replace (e1 - e2 - 53) with (e1 + (- e2 + - 53)) by lia.
    rewrite !pow2_add.
    assert (Hinv : forall k, (pow2 (- k) == / pow2 k)%Q) by (intros; apply Qpower_opp).
    rewrite !Hinv. rewrite <- (pow2_nonneg_Z 53) by lia.
    pose proof (pow2_pos e2). pose proof (pow2_pos 53).
    assert (0 < inject_Z (Zpos m2))%Q
      by (change 0%Q with (inject_Z 0); rewrite <- Zlt_Qlt; lia).
    by apply div_rescale. }
  by rewrite Hval in Hv.
Qed.

Lemma SFadd_correct (m1 m2 : positive) (e1 e2 : Z) :
  normal m1 -> normal m2 -> - 400 <= e1 <= 400 -> - 400 <= e2 <= 400 ->
  exists m' e',
    SFadd prec64 emax64 (S754_finite false m1 e1) (S754_finite false m2 e2)
      = S754_finite false m' e' /\
    normal m' /\
    Z.min e1 e2 <= e' <= Z.max e1 e2 + 2 /\
    ((1 - u64) * (value m1 e1 + value m2 e2) <= value m' e'
     <= (1 + u64) * (value m1 e1 + value m2 e2))%Q.
Proof.
  intros H1 H2 He1 He2. unfold SFadd. simpl cond_Zopp.
  set (ez := Z.min e1 e2).
  pose proof (shl_align_value m1 e1 ez) as (Hv1 & Hx1 & Hm1).
  pose proof (shl_align_value m2 e2 ez) as (Hv2 & Hx2 & Hm2).
  destruct (shl_align m1 e1 ez) as [a ea]. destruct (shl_align m2 e2 ez) as [b eb].
  simpl in *.
  assert (Hmin1 : Z.min e1 ez = ez) by (unfold ez; lia).
  assert (Hmin2 : Z.min e2 ez = ez) by (unfold ez; lia).
  rewrite Hmin1 in Hx1, Hm1. rewrite Hmin2 in Hx2, Hm2. subst ea eb.
  change (Zpos a + Zpos b) with (Zpos (a + b)). unfold binary_normalize.
  assert (Hsum : 2 ^ 52 <= Zpos (a + b) < 2 ^ (54 + Z.max e1 e2 - ez)).
  { rewrite Pos2Z.inj_add, Hm1, Hm2. unfold normal in *.
    pose proof (Z.pow_pos_nonneg 2 (e1 - ez)). pose proof (Z.pow_pos_nonneg 2 (e2 - ez)).
    assert (2 ^ (e1 - ez) <= 2 ^ (Z.max e1 e2 - ez))
      by (apply Z.pow_le_mono_r; unfold ez; lia).
    assert (2 ^ (e2 - ez) <= 2 ^ (Z.max e1 e2 - ez))
      by (apply Z.pow_le_mono_r; unfold ez; lia).
    replace (54 + Z.max e1 e2 - ez) with (Z.max e1 e2 - ez + 54) by lia.
    rewrite Z.pow_add_r by (unfold ez; lia).
    change (2 ^ 54) with (2 * 2 ^ 53). unfold ez in *. split; nia. }
  assert (Hdig : 53 <= Zpos (digits2_pos (a + b)) <= 54 + Z.max e1 e2 - ez).
  { split; [apply (digits2_pos_ge _ 52); lia | apply digits2_pos_le; lia]. }
  destruct (binary_round_correct false (a + b) ez)
    as (m' & e' & Heq & Hnorm & He' & Hv); [unfold ez; lia | unfold ez in *; lia |].
  exists m', e'. split; [exact Heq|]. split; [exact Hnorm|].
  split; [unfold prec64, ez in *; lia|].
  assert (Hval : (value (a + b) ez == value m1 e1 + value m2 e2)%Q).
  { rewrite <- Hv1, <- Hv2. unfold value. rewrite Pos2Z.inj_add, inject_Z_plus.
    generalize (pow2 ez). intros P. ring. }
  by rewrite Hval in Hv.
Qed.

Lemma value_lt_exponent (m1 m2 : positive) (e1 e2 : Z) :
  normal m1 -> normal m2 -> e1 < e2 -> (value m1 e1 < value m2 e2)%Q.
Proof.
  unfold normal, value. intros H1 H2 He.
  assert (inject_Z (Zpos m1) < inject_Z (2 ^ 53))%Q by (rewrite <- Zlt_Qlt; lia).
  assert (inject_Z (2 ^ 52) <= inject_Z (Zpos m2))%Q by (rewrite <- Zle_Qle; lia).
  assert (Hstep : (2 * pow2 e1 <= pow2 e2)%Q).
  { rewrite <- pow2_succ. apply pow2_mono. lia. }
  change (inject_Z (2 ^ 53)) with (2 * inject_Z (2 ^ 52))%Q in *.
  assert (0 < inject_Z (2 ^ 52))%Q by reflexivity.
  pose proof (pow2_pos e1). pose proof (pow2_pos e2). nra.
Qed.

Lemma SFleb_correct (m1 m2 : positive) (e1 e2 : Z) :
  normal m1 -> normal m2 ->
  SFleb (S754_finite false m1 e1) (S754_finite false m2 e2) = true
  <-> (value m1 e1 <= value m2 e2)%Q.
Proof.
  intros H1 H2. unfold SFleb, SFcompare.
  destruct (Z.compare_spec e1 e2) as [->|He|He].
  - rewrite Pos.compare_cont_spec. simpl Pos.switch_Eq.
    unfold value. pose proof (pow2_pos e2) as Hpos.
    destruct (Pos.compare_spec m1 m2) as [->|Hm|Hm].
    + split; [intros _; lra | done].
    + split; [intros _|done].
      assert (inject_Z (Zpos m1) < inject_Z (Zpos m2))%Q by (rewrite <- Zlt_Qlt; lia). nra.
    + split; [done|]. intros Hle.
      assert (inject_Z (Zpos m2) < inject_Z (Zpos m1))%Q by (rewrite <- Zlt_Qlt; lia). nra.
  - split; [intros _|done]. apply Qlt_le_weak. by apply value_lt_exponent.
  - split; [done|]. intros Hle. pose proof (value_lt_exponent m2 m1 e2 e1 H2 H1 He). lra.
Qed.

Lemma float64_of_int_correct (z : Z) :
  0 < z < 2 ^ 63 ->
  exists m e,
    float64_of_int z = S754_finite false m e /\ normal m /\ - 52 <= e <= 11 /\
    ((1 - u64) * inject_Z z <= value m e <= (1 + u64) * inject_Z z)%Q.
Proof.
  intros Hz. destruct z as [|p|p]; [lia| |lia]. unfold float64_of_int, binary_normalize.
  assert (Hdig : 1 <= Zpos (digits2_pos p) <= 63).
  { split; [pose proof (Pos2Z.is_pos (digits2_pos p)); lia | apply digits2_pos_le; lia]. }
  destruct (binary_round_correct false p 0) as (m & e & Heq & Hnorm & He & Hv); [lia..|].
  exists m, e. split; [exact Heq|]. split; [exact Hnorm|].
  split; [unfold prec64 in *; lia|].
  assert (Hval : (value p 0 == inject_Z (Zpos p))%Q).
  { unfold value. change (pow2 0) with 1%Q. ring. }
  by rewrite Hval in Hv.
Qed.

Lemma c64_eq : float64_of_int (60 * 1000000000) = S754_finite false 7864320000000000 (-17).
Proof. reflexivity. Qed.

Lemma c64_value : (value 7864320000000000 (-17) == 60000000000)%Q.
Proof. reflexivity. Qed.

Lemma c64_normal : normal 7864320000000000.
Proof. unfold normal. simpl. lia. Qed.

Lemma ratio_normal : normal 8556839292003942.
Proof. unfold normal. simpl. lia. Qed.

Lemma ratio_value : (value 8556839292003942 (-53) == 8556839292003942 # 9007199254740992)%Q.
Proof. reflexivity. Qed.

(** [Minutes] of a positive duration: a normal float within three roundings
    of the exact quotient. *)
Lemma Minutes_correct (d : Z) :
  0 < d < 2 ^ 63 ->
  exists m e,
    Minutes d = S754_finite false m e /\ normal m /\ - 200 <= e <= 200 /\
    ((1 - u64) * (1 - u64) * (1 - u64) * inject_Z d
       <= 60000000000 * value m e
       <= (1 + u64) * (1 + u64) * (1 + u64) * inject_Z d)%Q.
Proof.
  intros Hd. unfold Minutes, float64_add, float64_div.
  assert (Hsplit : d = Minute * Z.quot d Minute + Z.rem d Minute) by apply Z.quot_rem'.
  assert (Hrem : 0 <= Z.rem d Minute < Minute) by (apply Z.rem_bound_pos; unfold Minute, Second, Nanosecond; lia).
  assert (Hquot : 0 <= Z.quot d Minute) by (apply Z.quot_pos; unfold Minute, Second, Nanosecond; lia).
  set (q := Z.quot d Minute) in *. set (r := Z.rem d Minute) in *.
  assert (HD : (inject_Z d == 60000000000 * inject_Z q + inject_Z r)%Q).
  { rewrite Hsplit, inject_Z_plus, inject_Z_mult. reflexivity. }
  assert (HQ : (0 <= inject_Z q)%Q) by (change 0%Q with (inject_Z 0); by rewrite <- Zle_Qle).
  assert (HR : (0 <= inject_Z r)%Q)
    by (change 0%Q with (inject_Z 0); rewrite <- Zle_Qle; lia).
  rewrite c64_eq.
  destruct (Z.eq_dec r 0) as [Hr0|Hr0]; [|destruct (Z.eq_dec q 0) as [Hq0|Hq0]].
  - (* whole minutes *)
    rewrite Hr0. change (float64_of_int 0) with (S754_zero false). simpl SFdiv.
    destruct (float64_of_int_correct q) as (m & e & -> & Hnorm & He & Hv); [unfold Minute, Second, Nanosecond in *; lia|].
    exists m, e. simpl. split; [reflexivity|]. split; [exact Hnorm|]. split; [lia|].
    rewrite HD, Hr0. change (inject_Z 0) with 0%Q. unfold u64 in *. lra.
  - (* less than a minute *)
    rewrite Hq0. change (float64_of_int 0) with (S754_zero false).
    destruct (float64_of_int_correct r) as (mr & er & -> & Hnr & Her & Hvr); [unfold Minute, Second, Nanosecond in *; lia|].
    destruct (SFdiv_correct mr 7864320000000000 er (-17) Hnr c64_normal)
      as (m & e & -> & Hnorm & He & Hv); [lia..|].
    exists m, e. simpl. split; [reflexivity|]. split; [exact Hnorm|]. split; [lia|].
    rewrite c64_value in Hv. rewrite HD, Hq0. change (inject_Z 0) with 0%Q.
    unfold Qdiv in Hv. change (/ 60000000000)%Q with (1 # 60000000000)%Q in Hv.
    unfold u64 in *. lra.
  - destruct (float64_of_int_correct q) as (mq & eq & -> & Hnq & Heq & Hvq); [unfold Minute, Second, Nanosecond in *; lia|].
    destruct (float64_of_int_correct r) as (mr & er & -> & Hnr & Her & Hvr); [unfold Minute, Second, Nanosecond in *; lia|].
    destruct (SFdiv_correct mr 7864320000000000 er (-17) Hnr c64_normal)
      as (mt & et & -> & Hnt & Het & Hvt); [lia..|].
    destruct (SFadd_correct mq mt eq et Hnq Hnt) as (m & e & -> & Hnorm & He & Hv); [lia..|].
    exists m, e. split; [reflexivity|]. split; [exact Hnorm|]. split; [lia|].
    rewrite c64_value in Hvt. rewrite HD.
    unfold Qdiv in Hvt. change (/ 60000000000)%Q with (1 # 60000000000)%Q in Hvt.
    unfold u64 in *. lra.
Qed.

Lemma thresholdReached_value (period elapsed : Z) :
  0 < period < 2 ^ 63 -> 0 < elapsed < 2 ^ 63 ->
  exists (P E : Q),
    (thresholdReached period elapsed = true <-> (P <= E)%Q) /\
    ((1 - u64) * (1 - u64) * (1 - u64) * (1 - u64) * (8556839292003942 # 9007199254740992)
       * inject_Z period <= 60000000000 * P
     <= (1 + u64) * (1 + u64) * (1 + u64) * (1 + u64) * (8556839292003942 # 9007199254740992)
          * inject_Z period)%Q /\
    ((1 - u64) * (1 - u64) * (1 - u64) * inject_Z elapsed <= 60000000000 * E
     <= (1 + u64) * (1 + u64) * (1 + u64) * inject_Z elapsed)%Q.
Proof.
  intros Hp He. unfold thresholdReached, float64_ge, float64_mul.
  destruct (Minutes_correct period Hp) as (mp & ep & -> & Hnp & Hep & Hvp).
  destruct (Minutes_correct elapsed He) as (me & ee & -> & Hne & Hee & Hve).
  destruct (SFmul_correct 8556839292003942 mp (-53) ep ratio_normal Hnp)
    as (m & e & Hmul & Hnorm & Hexp & Hv); [lia..|].
  unfold rotationPeriodRatio. rewrite Hmul.
  exists (value m e), (value me ee).
  split; [by apply SFleb_correct|]. split; [|exact Hve].
  rewrite ratio_value in Hv. unfold u64 in *. lra.
Qed.

(** The float comparison agrees with the exact one outside a band of one
    part in 10^15 around the threshold. *)
Lemma thresholdReached_above (period elapsed : Z) :
  0 < period < 2 ^ 63 -> 0 < elapsed < 2 ^ 63 ->
  95 * (10 ^ 15 + 1) * period <= 100 * 10 ^ 15 * elapsed ->
  thresholdReached period elapsed = true.
Proof.
  intros Hp He Hband.
  destruct (thresholdReached_value period elapsed Hp He) as (P & E & -> & HP & HE).
  rewrite Zle_Qle in Hband. rewrite !inject_Z_mult in Hband.
  change (inject_Z 95) with 95%Q in Hband. change (inject_Z 100) with 100%Q in Hband.
  change (inject_Z (10 ^ 15 + 1)) with 1000000000000001%Q in Hband.
  change (inject_Z (10 ^ 15)) with 1000000000000000%Q in Hband.
  assert (0 < inject_Z period)%Q by (change 0%Q with (inject_Z 0); rewrite <- Zlt_Qlt; lia).
  unfold u64 in *. lra.
Qed.

Lemma thresholdReached_below (period elapsed : Z) :
  0 < period < 2 ^ 63 -> 0 < elapsed < 2 ^ 63 ->
  100 * 10 ^ 15 * elapsed <= 95 * (10 ^ 15 - 1) * period ->
  thresholdReached period elapsed = false.
Proof.
  intros Hp He Hband. apply not_true_is_false.
  destruct (thresholdReached_value period elapsed Hp He) as (P & E & -> & HP & HE).
  rewrite Zle_Qle in Hband. rewrite !inject_Z_mult in Hband.
  change (inject_Z 95) with 95%Q in Hband. change (inject_Z 100) with 100%Q in Hband.
  change (inject_Z (10 ^ 15 - 1)) with 999999999999999%Q in Hband.
  change (inject_Z (10 ^ 15)) with 1000000000000000%Q in Hband.
  assert (0 < inject_Z period)%Q by (change 0%Q with (inject_Z 0); rewrite <- Zlt_Qlt; lia).
  unfold u64 in *. lra.
Qed.

Lemma thresholdReached_zero (period : Z) :
  0 < period < 2 ^ 63 -> thresholdReached period 0 = false.
Proof.
  intros Hp. unfold thresholdReached, float64_ge, float64_mul.
  destruct (Minutes_correct period Hp) as (mp & ep & -> & Hnp & Hep & Hvp).
  destruct (SFmul_correct 8556839292003942 mp (-53) ep ratio_normal Hnp)
    as (m & e & Hmul & _); [lia..|].
  unfold rotationPeriodRatio. rewrite Hmul. reflexivity.
Qed.

End Binary64.

(** ** The GardenerCluster controller *)

Section RotationPolicy.

Import controller.

Context (env : Env) `{TimeLayout}.

Lemma Sub_nonneg (now t : Time) :
  0 <= now - t -> Sub now t = Z.min (now - t) maxDuration.
Proof.
  intros Hpos. unfold Sub, minDuration, maxDuration in *.
  destruct (Z.ltb_spec (now - t) (- 2 ^ 63)) as [Hlt|_]; [lia|].
  destruct (Z.ltb_spec (2 ^ 63 - 1) (now - t)); lia.
Qed.

Lemma thresholdReached_Sub_above (period : Duration) (now t : Time) :
  0 < period <= maxDuration -> 0 <= now - t ->
  95 * (10 ^ 15 + 1) * period <= 100 * 10 ^ 15 * (now - t) ->
  thresholdReached period (Sub now t) = true.
Proof.
  intros Hperiod Hpos Hband. rewrite (Sub_nonneg _ _ Hpos).
  unfold maxDuration in *.
  apply thresholdReached_above; lia.
Qed.

Lemma thresholdReached_Sub_below (period : Duration) (now t : Time) :
  0 < period <= maxDuration -> 0 <= now - t ->
  100 * 10 ^ 15 * (now - t) <= 95 * (10 ^ 15 - 1) * period ->
  thresholdReached period (Sub now t) = false.
Proof.
  intros Hperiod Hpos Hband. rewrite (Sub_nonneg _ _ Hpos).
  unfold maxDuration in *.
  rewrite Z.min_l by lia.
  destruct (Z.eq_dec (now - t) 0) as [->|Hne].
  - apply thresholdReached_zero. lia.
  - apply thresholdReached_below; lia.
Qed.

Lemma secretRotationTimePassed_run (secret : option Secret) (period : Duration) (w : World) :
  secretRotationTimePassed env secret period w =
    match secret with
    | None => (true, w)
    | Some s =>
        match sAnnotations s !! lastKubeconfigSyncAnnotation with
        | None => (true, w)
        | Some v =>
            match parseRFC3339 v with
            | None => (true, w)
            | Some t =>
                (thresholdReached period (Sub (eClock env (wTicks w)) t),
                 mkWorld (wSecrets w) (wClusters w) (wTrace w) (S (wTicks w)))
            end
        end
    end.
Proof.
  unfold secretRotationTimePassed.
  destruct secret as [s|]; [|done].
  destruct (sAnnotations s !! lastKubeconfigSyncAnnotation) as [v|]; [|done].
  by destruct (parseRFC3339 v).
Qed.

Lemma secretRotationForced_is_Some (cluster : GardenerCluster) :
  secretRotationForced cluster = true <->
  is_Some (cAnnotations cluster !! forceKubeconfigRotationAnnotation).
Proof.
  unfold secretRotationForced.
  destruct (cAnnotations cluster !! forceKubeconfigRotationAnnotation).
  - split; [by eauto | done].
  - split; [done | by intros [? ?]].
Qed.

(** C1, as the code has it: the rotation-due decision.  [now] is what the
    clock shows when the decision reads it, and [thresholdReached] is the
    comparison the code makes in binary64: the minutes the secret has been
    valid for against the product of 0.95 and the minutes of the rotation
    period.  The decision is
    true exactly when the access object carries the forced-rotation
    annotation, or there is no secret, or the secret has no last-sync
    annotation, or that annotation does not parse as RFC 3339, or the
    comparison holds.  For a positive period and a recorded instant that is
    not in the future, the comparison holds whenever the elapsed time is at
    least 0.95 of the period by a relative margin of 1e-15, and fails
    whenever it is below 0.95 of the period by that margin.  In particular,
    without the forced-rotation annotation the decision is false when the
    elapsed time is 9/10 of the period and true when it is 96/100 of the
    period; with the forced-rotation annotation it is true whatever the
    secret holds. *)
Theorem secretNeedsToBeRotated_iff (cluster : GardenerCluster) (secret : option Secret)
    (period : Duration) (w : World) :
  minDuration <= period <= maxDuration ->
  let now := eClock env (wTicks w) in
  let due := fst (secretNeedsToBeRotated env cluster secret period w) in
  let forced := is_Some (cAnnotations cluster !! forceKubeconfigRotationAnnotation) in
  let lastSync (s : Secret) := sAnnotations s !! lastKubeconfigSyncAnnotation in
  (due = true <->
     forced
     \/ secret = None
     \/ (exists s, secret = Some s /\ lastSync s = None)
     \/ (exists s v, secret = Some s /\ lastSync s = Some v /\ parseRFC3339 v = None)
     \/ (exists s v t, secret = Some s /\ lastSync s = Some v /\ parseRFC3339 v = Some t /\
                        thresholdReached period (Sub now t) = true))
  /\ (forall s v t,
        secret = Some s -> lastSync s = Some v -> parseRFC3339 v = Some t ->
        ~ forced -> 0 < period -> 0 <= now - t ->
        (95 * (10 ^ 15 + 1) * period <= 100 * 10 ^ 15 * (now - t) -> due = true) /\
        (100 * 10 ^ 15 * (now - t) <= 95 * (10 ^ 15 - 1) * period -> due = false) /\
        (10 * (now - t) = 9 * period -> due = false) /\
        (100 * (now - t) = 96 * period -> due = true))
  /\ (forced -> due = true).
Proof.
  intros Hperiod now due forced lastSync.
  assert (Hdue : due = true <->
     forced
     \/ secret = None
     \/ (exists s, secret = Some s /\ lastSync s = None)
     \/ (exists s v, secret = Some s /\ lastSync s = Some v /\ parseRFC3339 v = None)
     \/ (exists s v t, secret = Some s /\ lastSync s = Some v /\ parseRFC3339 v = Some t /\
                        thresholdReached period (Sub now t) = true)).
  { subst due forced lastSync. unfold secretNeedsToBeRotated, bind, ret.
    rewrite secretRotationTimePassed_run.
    rewrite <- secretRotationForced_is_Some.
    destruct secret as [s|]; simpl; [|split; [by auto | done]].
    destruct (sAnnotations s !! lastKubeconfigSyncAnnotation) as [v|] eqn:Hv; simpl;
      [|split; [by eauto 10 | done]].
    destruct (parseRFC3339 v) as [t|] eqn:Ht; simpl; [|split; [by eauto 10 | done]].
    rewrite orb_true_iff.
    split.
    - intros [Hle|Hf]; [|by auto]. right; right; right; right. by exists s, v, t.
    - intros [Hf|[Hn|[(s' & Hs & Hn)|[(s' & v' & Hs & Hv' & Hn)|(s' & v' & t' & Hs & Hv' & Ht' & Hle)]]]].
      + by right.
      + done.
      + injection Hs as <-. congruence.
      + injection Hs as <-. congruence.
      + injection Hs as <-. left. fold now. congruence. }
  assert (Hbelow : forall s v t,
    secret = Some s -> lastSync s = Some v -> parseRFC3339 v = Some t -> ~ forced ->
    thresholdReached period (Sub now t) = false -> due = false).
  { intros s v t Hs Hv Ht Hnf Hfalse. apply not_true_is_false. rewrite Hdue.
    intros [Hf|[Hn|[(s' & Hs' & Hn)|[(s' & v' & Hs' & Hv' & Hn)|(s' & v' & t' & Hs' & Hv' & Ht' & Hle)]]]];
      [done | congruence | congruence | congruence |].
    assert (t' = t) by congruence. subst t'. congruence. }
  assert (Habove : forall s v t,
    secret = Some s -> lastSync s = Some v -> parseRFC3339 v = Some t ->
    thresholdReached period (Sub now t) = true -> due = true).
  { intros s v t Hs Hv Ht Htrue. apply Hdue. right; right; right; right.
    by exists s, v, t. }
  split; [exact Hdue|]. split.
  - intros s v t Hs Hv Ht Hnf Hpos Helapsed.
    assert (Hrange : 0 < period <= maxDuration) by lia.
    repeat split; intros Hcase.
    + apply (Habove s v t); [done..|]. by apply thresholdReached_Sub_above.
    + apply (Hbelow s v t); [done..|]. by apply thresholdReached_Sub_below.
    + apply (Hbelow s v t); [done..|]. apply thresholdReached_Sub_below; [done..|lia].
    + apply (Habove s v t); [done..|]. apply thresholdReached_Sub_above; [done..|lia].
  - intros Hf. apply Hdue. by left.
Qed.

End RotationPolicy.

Section Reconciler.

Import controller.

Context (env : Env) (ctl : GardenerClusterController) `{TimeLayout} `{ConditionMethods}.

Implicit Types (w : World) (cluster : GardenerCluster) (s : Secret).

(** Worlds are compared field by field once the trace is flattened. *)
Ltac flatten_worlds :=
  unfold traced, setSecrets, setClusters, whenHandled in *; simpl in *;
  rewrite <- ?app_assoc; simpl.

Lemma getSecret_run shootName w :
  getSecret env shootName w =
    (match eFault env (length (wTrace w)) with
     | Some err => (None, Some err)
     | None => lookupResult shootName (matchingSecrets w shootNameLabel shootName)
     end,
     traced w (CallList shootNameLabel shootName)).
Proof.
  unfold getSecret, client_List, bind, ret, call.
  destruct (eFault env (length (wTrace w))); [done|].
  change (matchingSecrets (traced w _) shootNameLabel shootName)
    with (matchingSecrets w shootNameLabel shootName).
  by destruct (matchingSecrets w shootNameLabel shootName) as [|? [|? ?]].
Qed.

(** C9: the credential is fetched right after the lookup, before anything
    is decided.  Whenever the lookup has not ended in an error other than
    not-found and the fetch fails, [handleKubeconfig] returns that error with
    the status ksZero, has put the FailedToGetKubeconfig error condition on
    the access object, and has issued the lookup and the fetch only: the
    clock has not been read and no secret has been written.  Nothing is
    assumed about the forced-rotation annotation or the age of the secret. *)
Theorem handleKubeconfig_fetch_fails cluster (lastSyncTime : Time) w (err : error) :
  unlessNotFound (snd (fst (getSecret env (cShootName cluster) w))) = None ->
  snd (Fetch ctl (cShootName cluster)) = Some err ->
  handleKubeconfig env ctl cluster lastSyncTime w =
    ((UpdateConditionForErrorState cluster ConditionTypeKubeconfigManagement
        ConditionReasonFailedToGetKubeconfig err, ksZero, Some err),
     mkWorld (wSecrets w) (wClusters w)
       (wTrace w ++ [CallList shootNameLabel (cShootName cluster);
                     CallFetch (cShootName cluster)])
       (wTicks w)).
Proof.
  intros Hlookup Hfetch. unfold handleKubeconfig, bind.
  destruct (getSecret env (cShootName cluster) w) as [found w1] eqn:Hget.
  simpl in Hlookup. rewrite Hlookup.
  rewrite getSecret_run in Hget. injection Hget as _ <-.
  unfold KubeconfigProvider_Fetch. rewrite Hfetch. unfold ret, traced. simpl.
  by rewrite <- app_assoc.
Qed.

Lemma stored_secret w label value s :
  wellKeyed w -> s ∈ matchingSecrets w label value ->
  wSecrets w !! secretKey s = Some s.
Proof.
  intros [Hkeys _] Hin. unfold matchingSecrets in Hin.
  apply list_elem_of_In, filter_In in Hin as [Hin _].
  apply list_elem_of_In, list_elem_of_fmap in Hin as [[k s'] [-> Hin]].
  apply elem_of_map_to_list in Hin. simpl.
  by rewrite (Hkeys k s' Hin).
Qed.

Lemma stored_cluster w k cluster :
  wellKeyed w -> wClusters w !! k = Some cluster ->
  wClusters w !! (cNamespace cluster, cName cluster) = Some cluster.
Proof.
  intros [_ Hkeys] Hk. specialize (Hkeys k cluster Hk).
  unfold clusterKey in Hkeys. by rewrite Hkeys.
Qed.

(** C10: the forced-rotation annotation with no secret to strip.  The API
    server answers every call, the GardenerCluster of the request is stored
    with the annotation, the lookup finds no secret and the fetch succeeds.
    Then [handleKubeconfig] returns ksRotated without an error after the
    lookup and the fetch alone, and [Reconcile] goes on to read the
    GardenerCluster again and to store it without the annotation: the
    GardenerCluster stored under the request's name afterwards has no
    forced-rotation annotation and every other annotation as before; no
    secret is written. *)
Theorem Reconcile_forced_without_secret (req : Request) cluster w :
  (forall n, eFault env n = None) ->
  wellKeyed w ->
  wClusters w !! (reqNamespace req, reqName req) = Some cluster ->
  is_Some (cAnnotations cluster !! forceKubeconfigRotationAnnotation) ->
  matchingSecrets w shootNameLabel (cShootName cluster) = [] ->
  snd (Fetch ctl (cShootName cluster)) = None ->
  let lastSyncTime := eClock env (wTicks w) in
  let w0 := whenHandled req w in
  let w' := snd (Reconcile env ctl req w) in
  handleKubeconfig env ctl cluster lastSyncTime w0 =
    ((cluster, ksRotated, None),
     mkWorld (wSecrets w) (wClusters w)
       (wTrace w0 ++ [CallList shootNameLabel (cShootName cluster);
                      CallFetch (cShootName cluster)])
       (wTicks w0)) /\
  fst (Reconcile env ctl req w) = (resultWithRequeue ctl, None) /\
  wSecrets w' = wSecrets w /\
  wClusters w' =
    <[(reqNamespace req, reqName req) := withoutForceRotation cluster]> (wClusters w) /\
  cAnnotations (withoutForceRotation cluster) !! forceKubeconfigRotationAnnotation = None /\
  (exists stored,
     wClusters w' !! (reqNamespace req, reqName req) = Some stored /\
     cAnnotations stored !! forceKubeconfigRotationAnnotation = None /\
     forall k, k <> forceKubeconfigRotationAnnotation ->
               cAnnotations stored !! k = cAnnotations cluster !! k) /\
  wTrace w' =
    wTrace w ++ [CallGet (reqNamespace req) (reqName req);
                 CallList shootNameLabel (cShootName cluster);
                 CallFetch (cShootName cluster);
                 CallGet (cNamespace cluster) (cName cluster);
                 CallUpdateCluster (withoutForceRotation cluster)].
Proof.
  intros Hcalm Hkeys Hstored Hforced Hnone Hfetch lastSyncTime w0 w'.
  apply secretRotationForced_is_Some in Hforced.
  assert (Hkey : (cNamespace cluster, cName cluster) = (reqNamespace req, reqName req)).
  { destruct Hkeys as [_ Hk]. apply (Hk _ _ Hstored). }
  assert (Hhandle : handleKubeconfig env ctl cluster lastSyncTime w0 =
    ((cluster, ksRotated, None),
     mkWorld (wSecrets w) (wClusters w)
       (wTrace w0 ++ [CallList shootNameLabel (cShootName cluster);
                      CallFetch (cShootName cluster)])
       (wTicks w0))).
  { unfold handleKubeconfig, bind. rewrite getSecret_run, Hcalm.
    change (matchingSecrets w0 shootNameLabel (cShootName cluster))
      with (matchingSecrets w shootNameLabel (cShootName cluster)).
    rewrite Hnone. simpl. unfold KubeconfigProvider_Fetch. rewrite Hfetch, Hforced.
    simpl. unfold ret. by flatten_worlds. }
  split; [exact Hhandle|].
  subst w'. cbv beta iota zeta delta [Reconcile bind ret client_Get call Now].
  rewrite Hcalm. simpl. rewrite Hstored. unfold traced. simpl.
  change (mkWorld _ _ _ _) with w0. fold lastSyncTime. rewrite Hhandle. simpl.
  cbv beta iota zeta delta
    [removeForceRotationAnnotation bind ret client_Get client_UpdateCluster call].
  rewrite Hforced, Hcalm. simpl. injection Hkey as Hns Hname.
  rewrite Hns, Hname, Hstored, Hcalm. simpl.
  unfold clusterKey. simpl. rewrite Hns, Hname, Hstored. simpl.
  split; [done|]. split; [done|]. split; [done|].
  split; [by apply lookup_delete_eq|]. split.
  { exists (withoutForceRotation cluster).
    split; [by apply lookup_insert_eq|]. split; [by apply lookup_delete_eq|].
    by intros k Hk; apply lookup_delete_ne. }
  by flatten_worlds.
Qed.

(** C4: the forced rotation of an existing secret.  The API server answers
    every call, the GardenerCluster of the request is stored with the
    forced-rotation annotation, the lookup finds the one secret [s] and the
    fetch succeeds.  Then [handleKubeconfig] returns ksRotated without an
    error; the secret stays stored under its name, with its kubeconfig entry
    and its last-sync annotation deleted and its name, namespace, labels,
    string data and every other entry as they were; and the GardenerCluster is
    stored again without the forced-rotation annotation. *)
Theorem Reconcile_forced_rotation (req : Request) cluster s w :
  (forall n, eFault env n = None) ->
  wellKeyed w ->
  wClusters w !! (reqNamespace req, reqName req) = Some cluster ->
  is_Some (cAnnotations cluster !! forceKubeconfigRotationAnnotation) ->
  matchingSecrets w shootNameLabel (cShootName cluster) = [s] ->
  snd (Fetch ctl (cShootName cluster)) = None ->
  let lastSyncTime := eClock env (wTicks w) in
  let w0 := whenHandled req w in
  let w' := snd (Reconcile env ctl req w) in
  let s' :=
    mkSecret (sName s) (sNamespace s) (sLabels s)
      (delete lastKubeconfigSyncAnnotation (sAnnotations s))
      (delete (refKey (cSecret cluster)) (sData s))
      (sStringData s) in
  fst (handleKubeconfig env ctl cluster lastSyncTime w0) = (cluster, ksRotated, None) /\
  fst (Reconcile env ctl req w) = (resultWithRequeue ctl, None) /\
  wSecrets w' = <[secretKey s := s']> (wSecrets w) /\
  wSecrets w' !! secretKey s = Some s' /\
  sData s' !! refKey (cSecret cluster) = None /\
  sAnnotations s' !! lastKubeconfigSyncAnnotation = None /\
  (forall k, k <> refKey (cSecret cluster) -> sData s' !! k = sData s !! k) /\
  (forall k, k <> lastKubeconfigSyncAnnotation ->
             sAnnotations s' !! k = sAnnotations s !! k) /\
  wClusters w' =
    <[(reqNamespace req, reqName req) := withoutForceRotation cluster]> (wClusters w) /\
  cAnnotations (withoutForceRotation cluster) !! forceKubeconfigRotationAnnotation = None /\
  wTrace w' =
    wTrace w ++ [CallGet (reqNamespace req) (reqName req);
                 CallList shootNameLabel (cShootName cluster);
                 CallFetch (cShootName cluster);
                 CallUpdate s';
                 CallGet (cNamespace cluster) (cName cluster);
                 CallUpdateCluster (withoutForceRotation cluster)].
Proof.
  intros Hcalm Hkeys Hstored Hforced Hone Hfetch lastSyncTime w0 w' s'.
  apply secretRotationForced_is_Some in Hforced.
  assert (Hkey : (cNamespace cluster, cName cluster) = (reqNamespace req, reqName req)).
  { destruct Hkeys as [_ Hk]. apply (Hk _ _ Hstored). }
  assert (Hs : wSecrets w !! secretKey s = Some s).
  { apply (stored_secret w shootNameLabel (cShootName cluster)); [done|].
    rewrite Hone. by apply list_elem_of_singleton. }
  assert (Hhandle : handleKubeconfig env ctl cluster lastSyncTime w0 =
    ((cluster, ksRotated, None),
     mkWorld (<[secretKey s := s']> (wSecrets w)) (wClusters w)
       (wTrace w0 ++ [CallList shootNameLabel (cShootName cluster);
                      CallFetch (cShootName cluster); CallUpdate s'])
       (wTicks w0))).
  { unfold handleKubeconfig, bind. rewrite getSecret_run, Hcalm.
    change (matchingSecrets w0 shootNameLabel (cShootName cluster))
      with (matchingSecrets w shootNameLabel (cShootName cluster)).
    rewrite Hone. simpl. unfold KubeconfigProvider_Fetch. rewrite Hfetch, Hforced.
    cbv beta iota zeta delta [removeKubeconfig client_Update bind ret call].
    rewrite Hcalm. simpl. fold s'.
    change (secretKey (withoutKubeconfig cluster s)) with (secretKey s).
    rewrite Hs. by flatten_worlds. }
  split; [by rewrite Hhandle|].
  subst w'. cbv beta iota zeta delta [Reconcile bind ret client_Get call Now].
  rewrite Hcalm. simpl. rewrite Hstored. unfold traced. simpl.
  change (mkWorld _ _ _ _) with w0. fold lastSyncTime. rewrite Hhandle. simpl.
  cbv beta iota zeta delta
    [removeForceRotationAnnotation bind ret client_Get client_UpdateCluster call].
  rewrite Hforced, Hcalm. simpl. injection Hkey as Hns Hname.
  rewrite Hns, Hname, Hstored, Hcalm. simpl.
  unfold clusterKey. simpl. rewrite Hns, Hname, Hstored. simpl.
  split; [done|]. split; [done|]. split; [by apply lookup_insert_eq|].
  split; [by apply lookup_delete_eq|]. split; [by apply lookup_delete_eq|].
  split; [by intros k Hk; apply lookup_delete_ne|].
  split; [by intros k Hk; apply lookup_delete_ne|].
  split; [done|]. split; [by apply lookup_delete_eq|].
  by flatten_worlds.
Qed.

Lemma secretNeedsToBeRotated_run cluster (secret : option Secret) (period : Duration) w1 w2 :
  wTicks w1 = wTicks w2 ->
  fst (secretNeedsToBeRotated env cluster secret period w1) = false ->
  secretNeedsToBeRotated env cluster secret period w2 =
    (false, mkWorld (wSecrets w2) (wClusters w2) (wTrace w2) (S (wTicks w2))).
Proof.
  unfold secretNeedsToBeRotated, bind, ret. rewrite !secretRotationTimePassed_run.
  intros Hticks. destruct secret as [s|]; [|done].
  destruct (sAnnotations s !! lastKubeconfigSyncAnnotation) as [v|]; [|done].
  destruct (parseRFC3339 v) as [t|]; [|done].
  simpl. rewrite Hticks. by intros ->.
Qed.

(** C5, as the code has it: the API server answers every call, the
    GardenerCluster of the request is stored without the forced-rotation
    annotation, the lookup finds the one secret [s], the fetch succeeds and
    the rotation is not due.  Then [handleKubeconfig] returns ksZero without
    an error and [Reconcile] asks to be requeued after the whole rotation
    period; the calls issued are the read of the GardenerCluster, the lookup
    and the fetch, so no secret is created, updated or deleted, no status
    update is sent, and the stored secrets and GardenerClusters are as they
    were. *)
Theorem Reconcile_rotation_not_due (req : Request) cluster s w :
  (forall n, eFault env n = None) ->
  wClusters w !! (reqNamespace req, reqName req) = Some cluster ->
  cAnnotations cluster !! forceKubeconfigRotationAnnotation = None ->
  matchingSecrets w shootNameLabel (cShootName cluster) = [s] ->
  snd (Fetch ctl (cShootName cluster)) = None ->
  fst (secretNeedsToBeRotated env cluster (Some s) (rotationPeriod ctl)
         (whenHandled req w)) = false ->
  let lastSyncTime := eClock env (wTicks w) in
  let w' := snd (Reconcile env ctl req w) in
  fst (handleKubeconfig env ctl cluster lastSyncTime (whenHandled req w))
    = (cluster, ksZero, None) /\
  fst (Reconcile env ctl req w)
    = ({| Requeue := true; RequeueAfter := rotationPeriod ctl |}, None) /\
  wSecrets w' = wSecrets w /\
  wClusters w' = wClusters w /\
  wTrace w' =
    wTrace w ++ [CallGet (reqNamespace req) (reqName req);
                 CallList shootNameLabel (cShootName cluster);
                 CallFetch (cShootName cluster)].
Proof.
  intros Hcalm Hstored Hnotforced Hone Hfetch Hnotdue lastSyncTime w'.
  assert (Hforced : secretRotationForced cluster = false).
  { unfold secretRotationForced. by rewrite Hnotforced. }
  set (w0 := whenHandled req w) in *.
  assert (Hhandle : handleKubeconfig env ctl cluster lastSyncTime w0 =
    ((cluster, ksZero, None),
     mkWorld (wSecrets w) (wClusters w)
       (wTrace w0 ++ [CallList shootNameLabel (cShootName cluster);
                      CallFetch (cShootName cluster)])
       (S (wTicks w0)))).
  { unfold handleKubeconfig, bind. rewrite getSecret_run, Hcalm.
    change (matchingSecrets w0 shootNameLabel (cShootName cluster))
      with (matchingSecrets w shootNameLabel (cShootName cluster)).
    rewrite Hone. simpl. unfold KubeconfigProvider_Fetch. rewrite Hfetch, Hforced.
    rewrite (secretNeedsToBeRotated_run cluster (Some s) _ w0
               (traced (traced w0 _) _) eq_refl Hnotdue).
    simpl. unfold ret. by flatten_worlds. }
  split; [by rewrite Hhandle|].
  subst w'. cbv beta iota zeta delta [Reconcile bind ret client_Get call Now].
  rewrite Hcalm. simpl. rewrite Hstored. unfold traced. simpl.
  change (mkWorld _ _ _ _) with w0. fold lastSyncTime. rewrite Hhandle. simpl.
  repeat split. by flatten_worlds.
Qed.

(** C3, as the code has it: [Reconcile] for an access object that is gone.
    The API server answers every call and stores no GardenerCluster under the
    name of the request.  The secrets are looked up by the cluster-name
    label.  With exactly one match that secret is deleted and no error is
    returned.  With any other number of matches, zero included, the error
    about the unexpected number of secrets is returned, nothing is deleted
    and no call but the read and the lookup is issued.  No requeue is asked
    for in either case. *)
Theorem Reconcile_access_object_gone (req : Request) w :
  (forall n, eFault env n = None) ->
  wellKeyed w ->
  wClusters w !! (reqNamespace req, reqName req) = None ->
  let found := matchingSecrets w clusterCRNameLabel (reqName req) in
  let r := Reconcile env ctl req w in
  let w' := snd r in
  fst (fst r) = resultWithoutRequeue /\
  wClusters w' = wClusters w /\
  (forall s, found = [s] ->
     snd (fst r) = None /\
     wSecrets w' = delete (secretKey s) (wSecrets w) /\
     wSecrets w' !! secretKey s = None /\
     wTrace w' =
       wTrace w ++ [CallGet (reqNamespace req) (reqName req);
                    CallList clusterCRNameLabel (reqName req);
                    CallDelete s]) /\
  (length found <> 1%nat ->
     snd (fst r) =
       Some (OtherError ("unexpected numer of secrets found for cluster CR `"
                           +:+ reqName req +:+ "`")) /\
     wSecrets w' = wSecrets w /\
     wTrace w' =
       wTrace w ++ [CallGet (reqNamespace req) (reqName req);
                    CallList clusterCRNameLabel (reqName req)]).
Proof.
  intros Hcalm Hkeys Hgone found r w'. subst r w'.
  cbv beta iota zeta delta
    [Reconcile deleteKubeconfigSecret bind ret client_Get client_List call].
  rewrite Hcalm. simpl. rewrite Hgone. simpl. rewrite Hcalm. simpl.
  change (matchingSecrets _ clusterCRNameLabel (reqName req)) with found.
  destruct found as [|s [|s2 rest]] eqn:Hfound; simpl.
  - split; [done|]. split; [done|]. split; [done|].
    intros _. repeat split. by flatten_worlds.
  - assert (Hs : wSecrets w !! secretKey s = Some s).
    { apply (stored_secret w clusterCRNameLabel (reqName req)); [done|].
      fold found. rewrite Hfound. by apply list_elem_of_singleton. }
    cbv beta iota zeta delta [client_Delete bind ret call].
    rewrite Hcalm. simpl. rewrite Hs. simpl.
    split; [done|]. split; [done|]. split; [|done].
    intros s0 [= <-]. split; [done|]. split; [done|].
    split; [by apply lookup_delete_eq|]. by flatten_worlds.
  - split; [done|]. split; [done|]. split; [done|].
    intros _. repeat split. by flatten_worlds.
Qed.

Lemma client_Update_effect s w :
  wTrace (snd (client_Update env s w)) = wTrace w ++ [CallUpdate s].
Proof.
  cbv beta iota zeta delta [client_Update bind ret call].
  destruct (eFault env (length (wTrace w))); [done|]. simpl.
  by destruct (wSecrets w !! secretKey s).
Qed.

Lemma client_Create_effect s w :
  wTrace (snd (client_Create env s w)) = wTrace w ++ [CallCreate s].
Proof.
  cbv beta iota zeta delta [client_Create bind ret call].
  destruct (eFault env (length (wTrace w))); [done|]. simpl.
  by destruct (wSecrets w !! secretKey s).
Qed.

Lemma secretNeedsToBeRotated_trace cluster (secret : option Secret) (period : Duration) w :
  wTrace (snd (secretNeedsToBeRotated env cluster secret period w)) = wTrace w.
Proof.
  unfold secretNeedsToBeRotated, bind, ret. rewrite secretRotationTimePassed_run.
  destruct secret as [s|]; [|done].
  destruct (sAnnotations s !! lastKubeconfigSyncAnnotation) as [v|]; [|done].
  by destruct (parseRFC3339 v).
Qed.

Lemma secretNeedsToBeRotated_ticks cluster (secret : option Secret) (period : Duration)
    w1 w2 :
  wTicks w1 = wTicks w2 ->
  fst (secretNeedsToBeRotated env cluster secret period w1)
    = fst (secretNeedsToBeRotated env cluster secret period w2).
Proof.
  intros Hticks. unfold secretNeedsToBeRotated, bind, ret.
  rewrite !secretRotationTimePassed_run.
  destruct secret as [s|]; [|done].
  destruct (sAnnotations s !! lastKubeconfigSyncAnnotation) as [v|]; [|done].
  destruct (parseRFC3339 v) as [t|]; [|done].
  simpl. by rewrite Hticks.
Qed.

(** The calls [handleKubeconfig] issues and the status it returns, once
    the lookup has been answered with [existingSecret]: either it stops after
    the fetch, or it writes once, and then the write is an update of the
    existing secret or, when there is none and the rotation is not forced,
    the creation of the new one. *)
Lemma handleKubeconfig_calls cluster (lastSyncTime : Time) w (existingSecret : option Secret) :
  eFault env (length (wTrace w)) = None ->
  lookupResult (cShootName cluster)
    (matchingSecrets w shootNameLabel (cShootName cluster)) = (existingSecret, None)
  \/ (existingSecret = None /\
      lookupResult (cShootName cluster)
        (matchingSecrets w shootNameLabel (cShootName cluster))
        = (None, Some (NewNotFound EmptyString))) ->
  let shoot := cShootName cluster in
  let kubeconfig := fst (Fetch ctl shoot) in
  let r := handleKubeconfig env ctl cluster lastSyncTime w in
  let status := snd (fst (fst r)) in
  let prefix := wTrace w ++ [CallList shootNameLabel shoot; CallFetch shoot] in
  (wTrace (snd r) = prefix /\ (status = ksZero \/ status = ksRotated /\ existingSecret = None))
  \/ (exists s, existingSecret = Some s /\ status <> ksCreated /\
        (wTrace (snd r) = prefix ++ [CallUpdate (withoutKubeconfig cluster s)]
         \/ wTrace (snd r)
              = prefix ++ [CallUpdate (withKubeconfig kubeconfig cluster s lastSyncTime)]))
  \/ (existingSecret = None /\ status = ksCreated /\
      wTrace (snd r) = prefix ++ [CallCreate (newSecret cluster kubeconfig lastSyncTime)]).
Proof.
  intros Hcalm Hlookup shoot kubeconfig r status prefix.
  subst r status kubeconfig shoot.
  unfold handleKubeconfig, bind. rewrite getSecret_run, Hcalm.
  assert (Hproceed :
    exists e, lookupResult (cShootName cluster)
                (matchingSecrets w shootNameLabel (cShootName cluster))
                = (existingSecret, e) /\ unlessNotFound e = None).
  { destruct Hlookup as [Hl|[-> Hl]]; rewrite Hl; eauto. }
  destruct Hproceed as (e & -> & He). simpl. rewrite He.
  unfold KubeconfigProvider_Fetch.
  set (w2 := traced (traced w (CallList shootNameLabel (cShootName cluster)))
               (CallFetch (cShootName cluster))).
  assert (Hw2 : wTrace w2 = prefix) by (subst w2 prefix; by flatten_worlds).
  destruct (Fetch ctl (cShootName cluster)) as [kube [err|]] eqn:Hfetch; simpl.
  { left. unfold ret. simpl. auto. }
  destruct (secretRotationForced cluster) eqn:Hforced.
  - destruct existingSecret as [s|]; simpl.
    + right; left. exists s. split; [done|].
      pose proof (client_Update_effect (withoutKubeconfig cluster s) w2) as Ht.
      destruct (client_Update env (withoutKubeconfig cluster s) w2) as [[?|] w3];
        simpl in *; (split; [done|]); left; by rewrite Ht, Hw2.
    + left. unfold ret. simpl. auto.
  - pose proof (secretNeedsToBeRotated_trace cluster existingSecret (rotationPeriod ctl) w2)
      as Ht.
    destruct (secretNeedsToBeRotated env cluster existingSecret (rotationPeriod ctl) w2)
      as [[|] w3]; simpl in *.
    + destruct existingSecret as [s|].
      * right; left. exists s. split; [done|].
        unfold updateExistingSecret, bind.
        pose proof (client_Update_effect (withKubeconfig kube cluster s lastSyncTime) w3)
          as Ht'.
        destruct (client_Update env (withKubeconfig kube cluster s lastSyncTime) w3)
          as [[?|] w4]; simpl in *; (split; [done|]); right; by rewrite Ht', Ht, Hw2.
      * right; right. unfold createNewSecret, bind.
        pose proof (client_Create_effect (newSecret cluster kube lastSyncTime) w3) as Ht'.
        destruct (client_Create env (newSecret cluster kube lastSyncTime) w3)
          as [[?|] w4]; simpl in *; (split; [done|]); (split; [done|]);
          by rewrite Ht', Ht, Hw2.
    + left. unfold ret. simpl. split; [congruence | by left].
Qed.

(** C2: what the lookup decides in [handleKubeconfig], the API server having
    answered it.  [calls] are the calls this invocation issues.

    No match: the invocation goes on to the fetch with no existing secret; it
    never updates or deletes a secret, and when the fetch succeeds and the
    rotation is not forced it returns ksCreated, having issued the creation
    of the new secret.

    One match [s]: the invocation goes on to the fetch with [s]; it never
    creates or deletes a secret and updates no secret but [s], and when the
    fetch succeeds, the rotation is not forced and it is due, it returns
    ksModified, having issued the update of [s] with the fetched kubeconfig.

    Two matches or more: the invocation returns the error about the
    unexpected number of secrets with the status ksZero and the
    FailedToGetSecret condition; the lookup is its only call and the stored
    secrets are as they were. *)
Theorem handleKubeconfig_lookup cluster (lastSyncTime : Time) w :
  eFault env (length (wTrace w)) = None ->
  let shoot := cShootName cluster in
  let found := matchingSecrets w shootNameLabel shoot in
  let kubeconfig := fst (Fetch ctl shoot) in
  let r := handleKubeconfig env ctl cluster lastSyncTime w in
  let status := snd (fst (fst r)) in
  let calls := drop (length (wTrace w)) (wTrace (snd r)) in
  wTrace (snd r) = wTrace w ++ calls /\
  (found = [] ->
     take 2 calls = [CallList shootNameLabel shoot; CallFetch shoot] /\
     Forall (fun c => isUpdate c = false /\ isDelete c = false) calls /\
     (snd (Fetch ctl shoot) = None -> secretRotationForced cluster = false ->
        status = ksCreated /\
        calls = [CallList shootNameLabel shoot; CallFetch shoot;
                 CallCreate (newSecret cluster kubeconfig lastSyncTime)])) /\
  (forall s, found = [s] ->
     take 2 calls = [CallList shootNameLabel shoot; CallFetch shoot] /\
     Forall (fun c => isCreate c = false /\ isDelete c = false /\
                      forall s', c = CallUpdate s' -> secretKey s' = secretKey s) calls /\
     (snd (Fetch ctl shoot) = None -> secretRotationForced cluster = false ->
      fst (secretNeedsToBeRotated env cluster (Some s) (rotationPeriod ctl) w) = true ->
        status = ksModified /\
        calls = [CallList shootNameLabel shoot; CallFetch shoot;
                 CallUpdate (withKubeconfig kubeconfig cluster s lastSyncTime)])) /\
  ((2 <= length found)%nat ->
     let err := OtherError ("unexpected numer of secrets found for shoot `"
                              +:+ shoot +:+ "`") in
     fst r = (UpdateConditionForErrorState cluster ConditionTypeKubeconfigManagement
                ConditionReasonFailedToGetSecret err, ksZero, Some err) /\
     calls = [CallList shootNameLabel shoot] /\
     wSecrets (snd r) = wSecrets w).
Proof.
  intros Hcalm shoot found kubeconfig r status calls.
  assert (Hmany : (2 <= length found)%nat ->
     let err := OtherError ("unexpected numer of secrets found for shoot `"
                              +:+ shoot +:+ "`") in
     r = ((UpdateConditionForErrorState cluster ConditionTypeKubeconfigManagement
             ConditionReasonFailedToGetSecret err, ksZero, Some err),
          traced w (CallList shootNameLabel shoot))).
  { intros Hlen. subst r. unfold handleKubeconfig, bind.
    rewrite getSecret_run, Hcalm. fold shoot. fold found.
    destruct found as [|s1 [|s2 rest]]; simpl in Hlen; [lia | lia | done]. }
  assert (Hfew : (length found <= 1)%nat ->
     exists existingSecret rest,
       found = option_list existingSecret /\
       wTrace (snd r) =
         wTrace w ++ [CallList shootNameLabel shoot; CallFetch shoot] ++ rest /\
       (rest = [] \/
        (exists s, existingSecret = Some s /\
           (rest = [CallUpdate (withoutKubeconfig cluster s)] \/
            rest = [CallUpdate (withKubeconfig kubeconfig cluster s lastSyncTime)])) \/
        (existingSecret = None /\
           rest = [CallCreate (newSecret cluster kubeconfig lastSyncTime)]))).
  { intros Hlen.
    assert (Hshape : exists existingSecret, found = option_list existingSecret).
    { destruct found as [|s1 [|s2 rest]]; simpl in Hlen;
        [by exists None | by exists (Some s1) | lia]. }
    destruct Hshape as [existingSecret Hfound]. exists existingSecret.
    destruct (handleKubeconfig_calls cluster lastSyncTime w existingSecret Hcalm)
      as [[Ht _] | [(s & Hs & _ & Ht) | (Hs & _ & Ht)]].
    - fold shoot. fold found. rewrite Hfound.
      destruct existingSecret; simpl; auto.
    - exists []. fold r in Ht. rewrite Ht. auto.
    - fold r kubeconfig shoot in Ht. destruct Ht as [Ht|Ht]; eexists;
        (split; [done|]); rewrite Ht, <- app_assoc; (split; [done|]);
        right; left; exists s; auto.
    - fold r kubeconfig shoot in Ht. eexists.
      split; [done|]. rewrite Ht, <- app_assoc. split; [done|]. auto. }
  assert (Htrace : wTrace (snd r) = wTrace w ++ calls).
  { subst calls. destruct (decide (length found <= 1)%nat) as [Hlen|Hlen].
    - destruct (Hfew Hlen) as (? & rest & _ & -> & _). by rewrite drop_app_length.
    - rewrite Hmany by lia. simpl. by rewrite drop_app_length. }
  split; [exact Htrace|].
  split; [|split].
  - intros Hnone.
    destruct Hfew as (existingSecret & rest & Hshape & Ht & Hrest);
      [rewrite Hnone; simpl; lia|].
    assert (existingSecret = None) as ->.
    { rewrite Hnone in Hshape. by destruct existingSecret. }
    assert (Hcalls : calls = [CallList shootNameLabel shoot; CallFetch shoot] ++ rest).
    { subst calls. by rewrite Ht, drop_app_length. }
    split; [by rewrite Hcalls|]. split.
    + rewrite Hcalls.
      destruct Hrest as [->|[(s & [=] & _)|[_ ->]]]; by repeat constructor.
    + intros Hfetch Hforced. subst status calls r.
      unfold handleKubeconfig, bind. rewrite getSecret_run, Hcalm.
      fold shoot. fold found. rewrite Hnone. simpl.
      unfold KubeconfigProvider_Fetch. fold shoot. rewrite Hfetch, Hforced.
      cbv beta iota zeta delta
        [secretNeedsToBeRotated secretRotationTimePassed createNewSecret bind ret].
      simpl. fold kubeconfig.
      pose proof (client_Create_effect (newSecret cluster kubeconfig lastSyncTime)
                    (traced (traced w (CallList shootNameLabel shoot)) (CallFetch shoot)))
        as Hc.
      destruct (client_Create env _ _) as [[?|] w3]; simpl in *;
        (split; [done|]); rewrite Hc; flatten_worlds; by rewrite drop_app_length.
  - intros s Hone.
    destruct Hfew as (existingSecret & rest & Hshape & Ht & Hrest);
      [rewrite Hone; simpl; lia|].
    assert (existingSecret = Some s) as ->.
    { rewrite Hone in Hshape. destruct existingSecret; simpl in Hshape; congruence. }
    assert (Hcalls : calls = [CallList shootNameLabel shoot; CallFetch shoot] ++ rest).
    { subst calls. by rewrite Ht, drop_app_length. }
    split; [by rewrite Hcalls|]. split.
    + rewrite Hcalls.
      destruct Hrest as [->|[(s0 & [= <-] & [->| ->])|[[=] _]]];
        repeat constructor; by intros s' [= <-].
    + intros Hfetch Hforced Hdue. subst status calls r.
      unfold handleKubeconfig, bind. rewrite getSecret_run, Hcalm.
      fold shoot. fold found. rewrite Hone. simpl.
      unfold KubeconfigProvider_Fetch. fold shoot. rewrite Hfetch, Hforced.
      set (w2 := traced (traced w (CallList shootNameLabel shoot)) (CallFetch shoot)).
      pose proof (secretNeedsToBeRotated_trace cluster (Some s) (rotationPeriod ctl) w2)
        as Hn.
      rewrite (secretNeedsToBeRotated_ticks cluster (Some s) (rotationPeriod ctl) w w2)
        in Hdue by done.
      destruct (secretNeedsToBeRotated env cluster (Some s) (rotationPeriod ctl) w2)
        as [needs w3]. simpl in Hdue, Hn. subst needs. simpl.
      unfold updateExistingSecret, bind. fold kubeconfig.
      pose proof (client_Update_effect
                    (withKubeconfig kubeconfig cluster s lastSyncTime) w3) as Hu.
      destruct (client_Update env _ w3) as [[?|] w4]; simpl in *;
        (split; [done|]); rewrite Hu, Hn; subst w2; flatten_worlds;
        by rewrite drop_app_length.
  - intros Hlen err. subst calls. rewrite (Hmany Hlen). simpl.
    split; [done|]. split; [by rewrite drop_app_length | done].
Qed.

End Reconciler.

(** * The properties on the examples *)

Section Examples.

Import controller.

Lemma exampleWorld_wellKeyed (clusters : list GardenerCluster) (secrets : list Secret) :
  wellKeyed (exampleWorld clusters secrets).
Proof.
  split; intros k x Hk; apply elem_of_list_to_map_2, list_elem_of_fmap in Hk;
    by destruct Hk as [? [[= -> ->] _]].
Qed.

(** The upsert on two Shoots: one without an auditlog extension, one with a
    stale one between two others.  The entry written carries the sample
    data's tenant id and service URL among the fixed fields. *)
Lemma oSetExtension_upserts_witness :
  let raw :=
    String.list_byte_of_string
      ("{" +:+ jsonField "kind" "AuditlogConfig"
         +:+ "," +:+ jsonField "apiVersion"
                       "service.auditlog.extensions.gardener.cloud/v1alpha1"
         +:+ "," +:+ jsonField "type" "standard"
         +:+ "," +:+ jsonField "tenantID" "79c64792-9c1e-4c1b-9941-ef7560dd3eae"
         +:+ "," +:+ jsonField "serviceURL" "https://auditlog.example.com:3001"
         +:+ "," +:+ jsonField "secretReferenceName" "auditlog-credentials"
         +:+ "}" +:+ String (Ascii.ascii_of_nat 10) EmptyString) in
  let extension :=
    {| Type_ := "shoot-auditlog-service";
       ProviderConfig := Some {| Raw := raw |};
       Disabled := None |} in
  fst (@auditlogs.oSetExtension exampleJSON exampleAuditLogData
         (exampleShootWith [dnsExtension; certExtension]))
    = exampleShootWith [dnsExtension; certExtension; extension] /\
  fst (@auditlogs.oSetExtension exampleJSON exampleAuditLogData
         (exampleShootWith [dnsExtension; staleAuditlogExtension; certExtension]))
    = exampleShootWith [dnsExtension; extension; certExtension].
Proof.
  intros raw extension.
  assert (Henc : @auditlogs.json_Encode exampleJSON
            {| auditlogs.cfgTypeMeta :=
                 {| auditlogs.Kind := "AuditlogConfig";
                    auditlogs.APIVersion :=
                      "service.auditlog.extensions.gardener.cloud/v1alpha1" |};
               auditlogs.cfgType := "standard";
               auditlogs.cfgTenantID := auditlogs.TenantID exampleAuditLogData;
               auditlogs.cfgServiceURL := auditlogs.ServiceURL exampleAuditLogData;
               auditlogs.cfgSecretReferenceName := "auditlog-credentials" |} = inr raw)
    by (vm_compute; reflexivity).
  split.
  - destruct (@oSetExtension_upserts exampleJSON exampleAuditLogData
                (exampleShootWith [dnsExtension; certExtension]) raw Henc)
      as (_ & Hrest & Happend & _).
    rewrite Hrest. destruct Happend as [-> _]; [|reflexivity].
    intros e He. apply list_elem_of_In in He.
    destruct He as [<-|[<-|[]]]; discriminate.
  - destruct (@oSetExtension_upserts exampleJSON exampleAuditLogData
                (exampleShootWith [dnsExtension; staleAuditlogExtension; certExtension])
                raw Henc)
      as (_ & Hrest & _ & Hreplace).
    rewrite Hrest.
    destruct (Hreplace 1%nat staleAuditlogExtension eq_refl eq_refl) as [-> _];
      [|reflexivity].
    intros j e' Hj He'. destruct j as [|j]; [|lia].
    injection He' as <-. discriminate.
Defined.

(** The seed lookup of [exampleFsm] finds seeds in eu-central-1 only, the
    Runtime asks for eu-west-1. *)
Lemma sFnCreateShoot_seed_not_found_witness :
  fst (fsm.sFnCreateShoot exampleFsm exampleSystemState) = fsm.Stop /\
  fsm.stopCounter (snd (fsm.sFnCreateShoot exampleFsm exampleSystemState)) = 5%nat /\
  fsm.created (snd (fsm.sFnCreateShoot exampleFsm exampleSystemState)) = [] /\
  fsm.rConditions (fsm.rStatus (fsm.instance
      (snd (fsm.sFnCreateShoot exampleFsm exampleSystemState)))) =
    [fsm.mkCondition fsm.ConditionTypeRuntimeProvisioned "False"
       fsm.ConditionReasonSeedNotFound
       "Cannot find available seed for the region eu-west-1. The followig regions have seeds ready: [eu-central-1]."].
Proof.
  destruct (sFnCreateShoot_seed_not_found exampleFsm exampleSystemState
              ["eu-central-1"] eq_refl eq_refl)
    as (Hstop & Hcounter & Hcreated & _).
  split; [exact Hstop|]. split; [exact Hcounter|]. split; [exact Hcreated|].
  reflexivity.
Defined.

(** The secret was synced at 2024-01-01T00:00:00Z and the period is ten
    minutes: not due after nine minutes, due after nine minutes and 36
    seconds, and due at once under the forced-rotation annotation. *)
Lemma secretNeedsToBeRotated_iff_witness :
  let w := exampleWorld [] [] in
  fst (@secretNeedsToBeRotated (exampleEnv (9 * Minute)) exampleLayout
         (exampleCluster ∅) (Some exampleStoredSecret) exampleTenMinutes w) = false /\
  fst (@secretNeedsToBeRotated (exampleEnv (576 * Second)) exampleLayout
         (exampleCluster ∅) (Some exampleStoredSecret) exampleTenMinutes w) = true /\
  fst (@secretNeedsToBeRotated (exampleEnv 0) exampleLayout
         (exampleCluster forcedAnnotations) (Some exampleStoredSecret)
         exampleTenMinutes w) = true.
Proof.
  assert (Hperiod : minDuration <= exampleTenMinutes <= maxDuration)
    by (split; discriminate).
  assert (Hplain : ~ is_Some ((∅ : gmap string string) !! forceKubeconfigRotationAnnotation))
    by (intros [x Hx]; discriminate Hx).
  intros w. split; [|split].
  - destruct (@secretNeedsToBeRotated_iff (exampleEnv (9 * Minute)) exampleLayout
                (exampleCluster ∅) (Some exampleStoredSecret) exampleTenMinutes w Hperiod)
      as (_ & Hpoints & _).
    destruct (Hpoints exampleStoredSecret "2024-01-01T00:00:00Z" (1704067200 * Second))
      as (_ & _ & Hnine & _);
      [reflexivity | reflexivity | reflexivity | exact Hplain | reflexivity
      | vm_compute; discriminate |].
    apply Hnine. reflexivity.
  - destruct (@secretNeedsToBeRotated_iff (exampleEnv (576 * Second)) exampleLayout
                (exampleCluster ∅) (Some exampleStoredSecret) exampleTenMinutes w Hperiod)
      as (_ & Hpoints & _).
    destruct (Hpoints exampleStoredSecret "2024-01-01T00:00:00Z" (1704067200 * Second))
      as (_ & _ & _ & Hlate);
      [reflexivity | reflexivity | reflexivity | exact Hplain | reflexivity
      | vm_compute; discriminate |].
    apply Hlate. reflexivity.
  - destruct (@secretNeedsToBeRotated_iff (exampleEnv 0) exampleLayout
                (exampleCluster forcedAnnotations) (Some exampleStoredSecret)
                exampleTenMinutes w Hperiod)
      as (_ & _ & Hforced).
    apply Hforced. exists "true". reflexivity.
Defined.

Lemma exampleCalm (elapsed : Duration) (n : nat) : eFault (exampleEnv elapsed) n = None.
Proof. reflexivity. Qed.

(** The fetch fails for a GardenerCluster without the forced-rotation
    annotation whose secret was synced a minute ago. *)
Lemma handleKubeconfig_fetch_fails_witness :
  let w := exampleWorld [exampleCluster ∅] [exampleStoredSecret] in
  let r := @handleKubeconfig (exampleEnv Minute)
             (failingController exampleTenMinutes exampleFetchError)
             exampleLayout exampleConditions (exampleCluster ∅) 0 w in
  snd (fst r) = Some exampleFetchError /\
  snd (fst (fst r)) = ksZero /\
  stConditions (cStatus (fst (fst (fst r)))) =
    [mkCondition ConditionTypeKubeconfigManagement ConditionFalse
       ConditionReasonFailedToGetKubeconfig "gardener is not reachable"] /\
  wTrace (snd r) = [CallList shootNameLabel "shoot-1"; CallFetch "shoot-1"] /\
  wTicks (snd r) = 0%nat /\
  wSecrets (snd r) = wSecrets w.
Proof.
  intros w r. subst r.
  rewrite (@handleKubeconfig_fetch_fails (exampleEnv Minute)
             (failingController exampleTenMinutes exampleFetchError)
             exampleLayout exampleConditions (exampleCluster ∅) 0 w exampleFetchError
             eq_refl eq_refl).
  repeat split.
Defined.

(** The forced-rotation annotation on a GardenerCluster that has no secret. *)
Lemma Reconcile_forced_without_secret_witness :
  let w := exampleWorld [exampleCluster forcedAnnotations] [] in
  let r := @Reconcile (exampleEnv 0) (exampleController exampleTenMinutes)
             exampleLayout exampleConditions exampleRequest w in
  fst r = ({| Requeue := true; RequeueAfter := exampleTenMinutes |}, None) /\
  wSecrets (snd r) = ∅ /\
  wClusters (snd r) = {[ ("kcp-system", "cluster-1") := exampleCluster ∅ ]}.
Proof.
  intros w r.
  assert (Hforced : is_Some (cAnnotations (exampleCluster forcedAnnotations)
                               !! forceKubeconfigRotationAnnotation))
    by (exists "true"; reflexivity).
  destruct (@Reconcile_forced_without_secret (exampleEnv 0)
              (exampleController exampleTenMinutes) exampleLayout exampleConditions
              exampleRequest (exampleCluster forcedAnnotations) w
              (exampleCalm 0) (exampleWorld_wellKeyed _ _) eq_refl Hforced eq_refl eq_refl)
    as (_ & Hresult & Hsecrets & Hclusters & _).
  split; [exact Hresult|]. split; [exact Hsecrets|].
  fold r in Hclusters. rewrite Hclusters. reflexivity.
Defined.

(** The forced-rotation annotation on a GardenerCluster whose secret holds a
    kubeconfig. *)
Lemma Reconcile_forced_rotation_witness :
  let w := exampleWorld [exampleCluster forcedAnnotations] [exampleStoredSecret] in
  let r := @Reconcile (exampleEnv 0) (exampleController exampleTenMinutes)
             exampleLayout exampleConditions exampleRequest w in
  fst r = ({| Requeue := true; RequeueAfter := exampleTenMinutes |}, None) /\
  wSecrets (snd r) !! ("kcp-system", "kubeconfig-cluster-1") =
    Some (mkSecret "kubeconfig-cluster-1" "kcp-system" (sLabels exampleStoredSecret)
            ∅ ∅ ∅) /\
  wClusters (snd r) !! ("kcp-system", "cluster-1") = Some (exampleCluster ∅).
Proof.
  intros w r.
  assert (Hforced : is_Some (cAnnotations (exampleCluster forcedAnnotations)
                               !! forceKubeconfigRotationAnnotation))
    by (exists "true"; reflexivity).
  destruct (@Reconcile_forced_rotation (exampleEnv 0)
              (exampleController exampleTenMinutes) exampleLayout exampleConditions
              exampleRequest (exampleCluster forcedAnnotations) exampleStoredSecret w
              (exampleCalm 0) (exampleWorld_wellKeyed _ _) eq_refl Hforced eq_refl eq_refl)
    as (_ & Hresult & _ & Hsecret & _ & _ & _ & _ & Hclusters & _).
  split; [exact Hresult|]. split; [exact Hsecret|].
  fold r in Hclusters. rewrite Hclusters. reflexivity.
Defined.

(** One minute into a period of ten. *)
Lemma Reconcile_rotation_not_due_witness :
  let w := exampleWorld [exampleCluster ∅] [exampleStoredSecret] in
  let r := @Reconcile (exampleEnv Minute) (exampleController exampleTenMinutes)
             exampleLayout exampleConditions exampleRequest w in
  fst r = ({| Requeue := true; RequeueAfter := exampleTenMinutes |}, None) /\
  wSecrets (snd r) = wSecrets w /\
  wClusters (snd r) = wClusters w /\
  wTrace (snd r) =
    [CallGet "kcp-system" "cluster-1"; CallList shootNameLabel "shoot-1";
     CallFetch "shoot-1"].
Proof.
  intros w r.
  destruct (@Reconcile_rotation_not_due (exampleEnv Minute)
              (exampleController exampleTenMinutes) exampleLayout exampleConditions
              exampleRequest (exampleCluster ∅) exampleStoredSecret w
              (exampleCalm Minute) eq_refl eq_refl eq_refl eq_refl eq_refl)
    as (_ & Hresult & Hsecrets & Hclusters & Htrace).
  repeat split; assumption.
Defined.

(** The GardenerCluster is gone: its one secret is deleted; with no secret
    left the error is returned. *)
Lemma Reconcile_access_object_gone_witness :
  let one := @Reconcile (exampleEnv 0) (exampleController exampleTenMinutes)
               exampleLayout exampleConditions exampleRequest
               (exampleWorld [] [exampleStoredSecret]) in
  let none := @Reconcile (exampleEnv 0) (exampleController exampleTenMinutes)
                exampleLayout exampleConditions exampleRequest (exampleWorld [] []) in
  (snd (fst one) = None /\ wSecrets (snd one) = ∅) /\
  snd (fst none) =
    Some (OtherError "unexpected numer of secrets found for cluster CR `cluster-1`").
Proof.
  intros one none. split.
  - destruct (@Reconcile_access_object_gone (exampleEnv 0)
                (exampleController exampleTenMinutes) exampleLayout exampleConditions
                exampleRequest (exampleWorld [] [exampleStoredSecret])
                (exampleCalm 0) (exampleWorld_wellKeyed _ _) eq_refl)
      as (_ & _ & Hone & _).
    destruct (Hone exampleStoredSecret eq_refl) as (Herr & Hsecrets & _).
    split; [exact Herr|]. fold one in Hsecrets. rewrite Hsecrets. reflexivity.
  - destruct (@Reconcile_access_object_gone (exampleEnv 0)
                (exampleController exampleTenMinutes) exampleLayout exampleConditions
                exampleRequest (exampleWorld [] [])
                (exampleCalm 0) (exampleWorld_wellKeyed _ _) eq_refl)
      as (_ & _ & _ & Hother).
    destruct Hother as (Herr & _); [discriminate|]. exact Herr.
Defined.

(** The lookup with no secret, with one secret whose ten minutes are over,
    and with two secrets. *)
Lemma handleKubeconfig_lookup_witness :
  let handle w :=
    @handleKubeconfig (exampleEnv exampleTenMinutes) (exampleController exampleTenMinutes)
      exampleLayout exampleConditions (exampleCluster ∅) 0 w in
  let none := handle (exampleWorld [exampleCluster ∅] []) in
  let one := handle (exampleWorld [exampleCluster ∅] [exampleStoredSecret]) in
  let two := handle (exampleWorld [exampleCluster ∅]
                       [exampleStoredSecret; exampleSecondSecret]) in
  (snd (fst (fst none)) = ksCreated /\
   wTrace (snd none) =
     [CallList shootNameLabel "shoot-1"; CallFetch "shoot-1";
      CallCreate (@newSecret exampleLayout (exampleCluster ∅) "kubeconfig-1" 0)]) /\
  (snd (fst (fst one)) = ksModified /\
   wTrace (snd one) =
     [CallList shootNameLabel "shoot-1"; CallFetch "shoot-1";
      CallUpdate (@withKubeconfig exampleLayout "kubeconfig-1" (exampleCluster ∅)
                    exampleStoredSecret 0)]) /\
  (snd (fst two) =
     Some (OtherError "unexpected numer of secrets found for shoot `shoot-1`") /\
   wTrace (snd two) = [CallList shootNameLabel "shoot-1"] /\
   wSecrets (snd two) =
     wSecrets (exampleWorld [exampleCluster ∅] [exampleStoredSecret; exampleSecondSecret])).
Proof.
  intros handle none one two. split; [|split].
  - destruct (@handleKubeconfig_lookup (exampleEnv exampleTenMinutes)
                (exampleController exampleTenMinutes) exampleLayout exampleConditions
                (exampleCluster ∅) 0 (exampleWorld [exampleCluster ∅] []) eq_refl)
      as (Htrace & Hnone & _ & _).
    destruct (Hnone eq_refl) as (_ & _ & Hcreate).
    destruct (Hcreate eq_refl eq_refl) as [Hstatus Hcalls].
    split; [exact Hstatus|]. rewrite Hcalls in Htrace. exact Htrace.
  - destruct (@handleKubeconfig_lookup (exampleEnv exampleTenMinutes)
                (exampleController exampleTenMinutes) exampleLayout exampleConditions
                (exampleCluster ∅) 0 (exampleWorld [exampleCluster ∅] [exampleStoredSecret])
                eq_refl)
      as (Htrace & _ & Hone & _).
    destruct (Hone exampleStoredSecret eq_refl) as (_ & _ & Hupdate).
    destruct (Hupdate eq_refl eq_refl eq_refl) as [Hstatus Hcalls].
    split; [exact Hstatus|]. rewrite Hcalls in Htrace. exact Htrace.
  - destruct (@handleKubeconfig_lookup (exampleEnv exampleTenMinutes)
                (exampleController exampleTenMinutes) exampleLayout exampleConditions
                (exampleCluster ∅) 0
                (exampleWorld [exampleCluster ∅] [exampleStoredSecret; exampleSecondSecret])
                eq_refl)
      as (Htrace & _ & _ & Htwo).
    destruct Htwo as (Hresult & Hcalls & Hsecrets).
    + vm_compute. exact (le_n 2).
    + split; [exact (f_equal snd Hresult)|]. split; [|exact Hsecrets].
      rewrite Hcalls in Htrace. exact Htrace.
Defined.

(** C1 as the spec states it fails at the threshold, in both directions.
    With a period of 365 days and a secret synced one nanosecond less than
    0.95 of the period ago, the minutes of the elapsed time and the product of
    0.95 and the minutes of the period both round to 499320, and the decision
    is true although the elapsed time is below 0.95 of the period.  With a
    period of 460 ns and a secret synced 437 ns ago, which is 0.95 of the
    period, the decision is false. *)
Lemma secretNeedsToBeRotated_threshold_counterexample :
  let w := exampleWorld [] [] in
  let year := 365 * 24 * 60 * Minute in
  let elapsed := 29959199999999999 in
  cAnnotations (exampleCluster ∅) !! forceKubeconfigRotationAnnotation = None /\
  sAnnotations exampleStoredSecret !! lastKubeconfigSyncAnnotation
    = Some "2024-01-01T00:00:00Z" /\
  @parseRFC3339 exampleLayout "2024-01-01T00:00:00Z" = Some (1704067200 * Second) /\
  (eClock (exampleEnv elapsed) (wTicks w) - 1704067200 * Second = elapsed /\
   100 * elapsed < 95 * year /\
   Minutes elapsed = float64_of_int 499320 /\
   float64_mul rotationPeriodRatio (Minutes year) = float64_of_int 499320 /\
   fst (@secretNeedsToBeRotated (exampleEnv elapsed) exampleLayout (exampleCluster ∅)
          (Some exampleStoredSecret) year w) = true) /\
  (eClock (exampleEnv 437) (wTicks w) - 1704067200 * Second = 437 /\
   95 * 460 <= 100 * 437 /\
   fst (@secretNeedsToBeRotated (exampleEnv 437) exampleLayout (exampleCluster ∅)
          (Some exampleStoredSecret) 460 w) = false).
Proof. vm_compute. repeat split. discriminate. Qed.

(** C3 as the spec states it fails when the access object is gone and no
    secret carries its name: the lookup matches nothing and [Reconcile]
    returns an error. *)
Lemma Reconcile_gone_without_secret_counterexample :
  let w := exampleWorld [] [] in
  let r := @Reconcile (exampleEnv 0) (exampleController exampleTenMinutes)
             exampleLayout exampleConditions exampleRequest w in
  wClusters w !! ("kcp-system", "cluster-1") = None /\
  matchingSecrets w clusterCRNameLabel "cluster-1" = [] /\
  snd (fst r) =
    Some (OtherError "unexpected numer of secrets found for cluster CR `cluster-1`") /\
  snd (fst r) <> None.
Proof. vm_compute. repeat split. discriminate. Qed.

(** C5 as the spec states it fails on the requeue delay: one minute into a
    period of ten, with the threshold at nine and a half minutes, [Reconcile]
    asks to be requeued after the ten minutes of the period, not after the
    time that remains until the threshold. *)
Lemma Reconcile_requeue_after_counterexample :
  let env := exampleEnv Minute in
  let w := exampleWorld [exampleCluster ∅] [exampleStoredSecret] in
  let r := @Reconcile env (exampleController exampleTenMinutes)
             exampleLayout exampleConditions exampleRequest w in
  let elapsed := eClock env 1 - 1704067200 * Second in
  let remaining := 95 * exampleTenMinutes / 100 - elapsed in
  fst (@secretNeedsToBeRotated env exampleLayout (exampleCluster ∅)
         (Some exampleStoredSecret) exampleTenMinutes (whenHandled exampleRequest w))
    = false /\
  fst r = ({| Requeue := true; RequeueAfter := 600 * Second |}, None) /\
  remaining = 509999 * 1000000 /\
  RequeueAfter (fst (fst r)) <> remaining.
Proof. vm_compute. repeat split. discriminate. Qed.

(** C4 as the spec states it fails when the credential fetch fails.  The
    access object is stored with the forced-rotation annotation and the
    lookup finds its secret, yet [handleKubeconfig] returns ksZero with the
    error of the fetch, before it looks at the annotation: the secret
    keeps its kubeconfig entry and its last-sync annotation, and after
    [Reconcile] the GardenerCluster is still stored with the annotation. *)
Lemma Reconcile_forced_rotation_fetch_fails_counterexample :
  let env := exampleEnv 0 in
  let ctl := failingController exampleTenMinutes exampleFetchError in
  let cluster := exampleCluster forcedAnnotations in
  let w := exampleWorld [cluster] [exampleStoredSecret] in
  let h := @handleKubeconfig env ctl exampleLayout exampleConditions cluster
             (eClock env 0) (whenHandled exampleRequest w) in
  let r := @Reconcile env ctl exampleLayout exampleConditions exampleRequest w in
  wClusters w !! ("kcp-system", "cluster-1") = Some cluster /\
  cAnnotations cluster !! forceKubeconfigRotationAnnotation = Some "true" /\
  matchingSecrets w shootNameLabel "shoot-1" = [exampleStoredSecret] /\
  snd (fst (fst h)) = ksZero /\
  snd (fst h) = Some exampleFetchError /\
  wSecrets (snd h) !! ("kcp-system", "kubeconfig-cluster-1") = Some exampleStoredSecret /\
  wSecrets (snd r) !! ("kcp-system", "kubeconfig-cluster-1") = Some exampleStoredSecret /\
  List.filter isUpdate (wTrace (snd r)) = [] /\
  sData exampleStoredSecret !! "config"
    = Some (String.list_byte_of_string "kubeconfig-0") /\
  sAnnotations exampleStoredSecret !! lastKubeconfigSyncAnnotation
    = Some "2024-01-01T00:00:00Z" /\
  wClusters (snd r) !! ("kcp-system", "cluster-1")
    ≫= (fun stored => cAnnotations stored !! forceKubeconfigRotationAnnotation)
    = Some "true" /\
  snd (fst r) = Some exampleFetchError /\
  snd (fst (fst h)) <> ksRotated.
Proof.
  intros env ctl cluster w h r.
  repeat match goal with |- _ /\ _ => split end;
    try (vm_compute; reflexivity).
  vm_compute; discriminate.
Qed.

(** C10 as the spec states it fails when the credential fetch fails.  The
    access object is stored with the forced-rotation annotation and the
    lookup finds no secret, yet [handleKubeconfig] returns ksZero with the
    error of the fetch, and [Reconcile] returns that error without reading
    the GardenerCluster again: it is still stored with the annotation. *)
Lemma Reconcile_forced_without_secret_fetch_fails_counterexample :
  let env := exampleEnv 0 in
  let ctl := failingController exampleTenMinutes exampleFetchError in
  let cluster := exampleCluster forcedAnnotations in
  let w := exampleWorld [cluster] [] in
  let h := @handleKubeconfig env ctl exampleLayout exampleConditions cluster
             (eClock env 0) (whenHandled exampleRequest w) in
  let r := @Reconcile env ctl exampleLayout exampleConditions exampleRequest w in
  wClusters w !! ("kcp-system", "cluster-1") = Some cluster /\
  cAnnotations cluster !! forceKubeconfigRotationAnnotation = Some "true" /\
  matchingSecrets w shootNameLabel "shoot-1" = [] /\
  snd (fst (fst h)) = ksZero /\
  snd (fst h) = Some exampleFetchError /\
  snd (fst r) = Some exampleFetchError /\
  List.filter (fun c => match c with CallUpdateCluster _ => true | _ => false end)
    (wTrace (snd r)) = [] /\
  wClusters (snd r) !! ("kcp-system", "cluster-1")
    ≫= (fun stored => cAnnotations stored !! forceKubeconfigRotationAnnotation)
    = Some "true" /\
  snd (fst (fst h)) <> ksRotated.
Proof.
  intros env ctl cluster w h r.
  repeat match goal with |- _ /\ _ => split end;
    try (vm_compute; reflexivity).
  vm_compute; discriminate.
Qed.


End Examples.

(** * Further properties of the three packages *)

(** ** The auditlog extension: what an upsert leaves in the list *)

Section AuditlogExtensionList.

Import auditlogs.
Context `{JSON}.

Implicit Types (s : Shoot) (d : AuditLogData).

(** The two shapes of an upsert: the list had no entry of the auditlog type
    and got one at its end, or its first such entry was exchanged. *)
Lemma oSetExtension_shape d s raw :
  json_Encode (auditlogConfig d) = inr raw ->
  let old := Extensions (Spec s) in
  let new := Extensions (Spec (fst (oSetExtension d s))) in
  (Forall (fun e => isAuditlog e = false) old /\ new = old ++ [auditlogExtension raw]) \/
  (exists l1 x l2,
     old = l1 ++ x :: l2 /\ Forall (fun e => isAuditlog e = false) l1 /\
     isAuditlog x = true /\ new = l1 ++ auditlogExtension raw :: l2).
Proof.
  intros Henc old new. subst new.
  rewrite (oSetExtension_encoded d s raw Henc). simpl fst.
  rewrite setExtensions_Extensions. fold old.
  destruct (IndexFunc_inv old isAuditlog)
    as [[Hi Hall] | (l1 & x & l2 & Hold & Hall & Hx & Hi)].
  - left. by rewrite Hi.
  - right. exists l1, x, l2. rewrite Hi.
    destruct (Z.eqb_spec (Z.of_nat (length l1)) (-1)); [lia|].
    rewrite Nat2Z.id, Hold.
    replace (length l1) with (length l1 + 0)%nat at 1 by lia.
    by rewrite insert_app_r.
Qed.

Lemma insert_middle {A : Type} (l1 l2 : list A) (x y : A) :
  <[length l1 := y]> (l1 ++ x :: l2) = l1 ++ y :: l2.
Proof.
  replace (length l1) with (length l1 + 0)%nat at 1 by lia.
  by rewrite insert_app_r.
Qed.

Lemma filter_none {A : Type} (f : A -> bool) (l : list A) :
  Forall (fun y => f y = false) l -> List.filter f l = [].
Proof. induction 1 as [|x l Hx _ IH]; simpl; [done|]. by rewrite Hx. Qed.

(** X1: the last upsert wins.  When the configuration for [d2] can be
    encoded, applying [oSetExtension] for [d2] to the Shoot that an
    application for [d1] has left gives what the application for [d2] gives
    on the original Shoot: nothing of the first application is left,
    whether it had appended an entry, exchanged one or failed. *)
Theorem oSetExtension_last_write_wins d1 d2 s raw2 :
  json_Encode (auditlogConfig d2) = inr raw2 ->
  oSetExtension d2 (fst (oSetExtension d1 s)) = oSetExtension d2 s.
Proof.
  intros Henc2.
  destruct (json_Encode (auditlogConfig d1)) as [err1|raw1] eqn:Henc1.
  { by rewrite (oSetExtension_encode_error d1 s err1 Henc1). }
  assert (Hext : forall raw, isAuditlog (auditlogExtension raw) = true) by done.
  pose proof (oSetExtension_shape d1 s raw1 Henc1) as Hshape. simpl in Hshape.
  rewrite !(oSetExtension_encoded d2 _ raw2 Henc2).
  rewrite (oSetExtension_encoded d1 s raw1 Henc1) in *. simpl fst in *.
  rewrite setExtensions_Extensions in *. rewrite setExtensions_twice.
  f_equal. f_equal.
  destruct Hshape as [[Hall ->] | (l1 & x & l2 & Hold & Hall & Hx & ->)].
  - rewrite (IndexFunc_absent _ _ Hall). simpl.
    rewrite (IndexFunc_app_found _ [] _ isAuditlog Hall (Hext raw1)).
    destruct (Z.eqb_spec (Z.of_nat (length (Extensions (Spec s)))) (-1)); [lia|].
    rewrite Nat2Z.id.
    replace (length (Extensions (Spec s)))
      with (length (Extensions (Spec s)) + 0)%nat at 1 by lia.
    by rewrite insert_app_r.
  - rewrite Hold.
    rewrite (IndexFunc_app_found l1 l2 _ isAuditlog Hall (Hext raw1)).
    rewrite (IndexFunc_app_found l1 l2 _ isAuditlog Hall Hx).
    destruct (Z.eqb_spec (Z.of_nat (length l1)) (-1)); [lia|].
    rewrite Nat2Z.id.
    by rewrite !insert_middle.
Qed.

(** X2: an upsert neither multiplies nor removes entries.  With the
    configuration encoded, the result holds as many entries of the auditlog
    type as the Shoot had, and one if it had none; a Shoot that came with
    several keeps them all, the first exchanged and the later ones as they
    were.  The entries of every other type are the same, in the same
    order. *)
Theorem oSetExtension_entries d s raw :
  json_Encode (auditlogConfig d) = inr raw ->
  let old := Extensions (Spec s) in
  let new := Extensions (Spec (fst (oSetExtension d s))) in
  length (List.filter isAuditlog new) = Nat.max 1 (length (List.filter isAuditlog old)) /\
  List.filter (fun e => negb (isAuditlog e)) new
    = List.filter (fun e => negb (isAuditlog e)) old /\
  (forall l1 x l2,
     old = l1 ++ x :: l2 -> isAuditlog x = true ->
     Forall (fun e => isAuditlog e = false) l1 ->
     new = l1 ++ auditlogExtension raw :: l2).
Proof.
  intros Henc old new.
  assert (Hext : isAuditlog (auditlogExtension raw) = true) by done.
  destruct (oSetExtension_shape d s raw Henc)
    as [[Hall Hnew] | (l1 & x & l2 & Hold & Hall & Hx & Hnew)];
    fold old in Hall; fold new in Hnew; try fold old in Hold.
  - rewrite Hnew. change (Extensions (Spec s)) with old.
    rewrite !List.filter_app, (filter_none _ _ Hall).
    cbn [List.filter]. rewrite Hext. cbn [negb].
    split; [reflexivity|]. split; [by rewrite app_nil_r|].
    intros l1 x l2 Hold Hx _. rewrite Hold in Hall.
    apply Forall_app in Hall as [_ Hall]. apply Forall_cons in Hall as [Hx' _].
    congruence.
  - rewrite Hnew, Hold, !List.filter_app. cbn [List.filter].
    rewrite Hx, Hext. cbn [negb].
    rewrite !length_app. cbn [length]. split; [lia|]. split; [done|].
    intros l1' x' l2' Hold' Hx' Hall'.
    assert (Hlen : length l1' = length l1).
    { assert (Hi : IndexFunc old isAuditlog = Z.of_nat (length l1))
        by (rewrite Hold; by apply IndexFunc_app_found).
      assert (Hi' : IndexFunc old isAuditlog = Z.of_nat (length l1'))
        by (rewrite Hold, Hold'; by apply IndexFunc_app_found).
      lia. }
    apply app_inj_1 in Hold' as [-> Heq]; [|done].
    by injection Heq as _ ->.
Qed.

(** X3: the entry a reader finds first is the fresh one.  With the
    configuration encoded, the first entry of the auditlog type in the
    resulting list, the one [slices.IndexFunc] finds, is the entry written,
    with the encoded configuration: a stale entry never comes before it. *)
Theorem oSetExtension_first_entry d s raw :
  json_Encode (auditlogConfig d) = inr raw ->
  let new := Extensions (Spec (fst (oSetExtension d s))) in
  exists i : nat,
    IndexFunc new isAuditlog = Z.of_nat i /\
    new !! i = Some (auditlogExtension raw) /\
    (forall j e, (j < i)%nat -> new !! j = Some e -> Type_ e <> auditlogExtensionType).
Proof.
  intros Henc new.
  assert (Hext : isAuditlog (auditlogExtension raw) = true) by done.
  assert (Hfirst : forall l1 l2, Forall (fun e => isAuditlog e = false) l1 ->
    new = l1 ++ auditlogExtension raw :: l2 ->
    exists i : nat,
      IndexFunc new isAuditlog = Z.of_nat i /\
      new !! i = Some (auditlogExtension raw) /\
      (forall j e, (j < i)%nat -> new !! j = Some e -> Type_ e <> auditlogExtensionType)).
  { intros l1 l2 Hall ->. exists (length l1).
    split; [by apply IndexFunc_app_found|].
    split; [by apply list_lookup_middle|].
    intros j e Hj Hlook. rewrite lookup_app_l in Hlook by done.
    apply isAuditlog_false.
    rewrite Forall_forall in Hall. apply Hall.
    by apply list_elem_of_lookup_2 in Hlook. }
  destruct (oSetExtension_shape d s raw Henc)
    as [[Hall Hnew] | (l1 & x & l2 & Hold & Hall & Hx & Hnew)].
  - by apply (Hfirst _ [] Hall).
  - by apply (Hfirst l1 l2 Hall).
Qed.

End AuditlogExtensionList.

(** ** The create-shoot state function: every way through it *)

Section CreateShootBranches.

Import fsm.

Implicit Types (m : fsm) (s : systemState).

(** Past the seed check and the audit log data, the run is the conversion
    followed by the backend's create call. *)
Lemma sFnCreateShoot_past_checks m s :
  seedCheckPasses m s -> auditLogPasses m s ->
  sFnCreateShoot m s =
    match convertCreate m (instance s) (createOpts m s) with
    | (_, Some _) =>
        updateStatePendingWithErrorAndStop ConditionTypeRuntimeProvisioned
          ConditionReasonConversionError "Runtime conversion error"
          (IncRuntimeFSMStopCounter s)
    | (shoot, None) =>
        let '(err, s1) := Create m shoot s in
        match err with
        | Some e =>
            updateStatusAndRequeueAfter (GardenerRequeueDuration m)
              (setInstance s1
                 (UpdateStatePending (instance s1) ConditionTypeRuntimeProvisioned
                    ConditionReasonGardenerError "False"
                    ("Gardener API create error: " +:+ errorString e)))
        | None =>
            updateStatusAndRequeueAfter (GardenerRequeueDuration m)
              (setInstance s1
                 (UpdateStatePending (instance s1) ConditionTypeRuntimeProvisioned
                    ConditionReasonShootCreationPending "Unknown" "Shoot is pending"))
        end
    end.
Proof.
  intros Hseed Haudit. unfold sFnCreateShoot, createOpts.
  assert (Hcheck :
    match rsEnforceSeedLocation (rShoot (instance s)) with
    | Some true =>
        let '(seedAvailable, regionsWithSeeds, err) :=
          seedForRegionAvailable m (rsProviderType (rShoot (instance s)))
            (rsRegion (rShoot (instance s))) in
        match err with
        | Some _ =>
            Some (updateStatusAndRequeueAfter (GardenerRequeueDuration m)
                    (setInstance s
                       (UpdateStatePending (instance s) ConditionTypeRuntimeProvisioned
                          ConditionReasonGardenerError "False"
                          ("Failed to verify whether seed is available for the region "
                             +:+ rsRegion (rShoot (instance s)) +:+ "."))))
        | None =>
            if negb seedAvailable then
              Some (updateStatePendingWithErrorAndStop ConditionTypeRuntimeProvisioned
                      ConditionReasonSeedNotFound
                      ("Cannot find available seed for the region "
                         +:+ rsRegion (rShoot (instance s))
                         +:+ ". The followig regions have seeds ready: "
                         +:+ sprintSlice regionsWithSeeds +:+ ".")
                      (IncRuntimeFSMStopCounter s))
            else None
        end
    | _ => None
    end = None).
  { destruct Hseed as [Hoff | [regions Hfound]].
    - by destruct (rsEnforceSeedLocation (rShoot (instance s))) as [[|]|].
    - rewrite Hfound. by destruct (rsEnforceSeedLocation (rShoot (instance s))) as [[|]|]. }
  cbv zeta. rewrite Hcheck.
  destruct (GetAuditLogData m (rsProviderType (rShoot (instance s)))
              (rsRegion (rShoot (instance s)))) as [data err] eqn:Hdata.
  assert (Hgo : isErr err && AuditLogMandatory m = false).
  { destruct Haudit as [Hread | Hoptional].
    - rewrite Hdata in Hread. simpl in Hread. by rewrite Hread.
    - rewrite Hoptional. apply andb_false_r. }
  by rewrite Hgo.
Qed.

(** X4: stops are counted, requeues are not.  Whatever the collaborators
    answer, a run of [sFnCreateShoot] either stops, and then it has
    incremented the stop counter by exactly one and handed nothing to the
    backend's create call, or it asks to be requeued after the machine's
    GardenerRequeueDuration, and then the counter is as it was and at most
    one Shoot has been handed to the create call.  The name, the labels and
    the Shoot description of the Runtime are never changed. *)
Theorem sFnCreateShoot_outcomes m s :
  let r := sFnCreateShoot m s in
  let s' := snd r in
  ((fst r = Stop /\ stopCounter s' = S (stopCounter s) /\ created s' = created s) \/
   (fst r = RequeueAfter (GardenerRequeueDuration m) /\ stopCounter s' = stopCounter s /\
    (created s' = created s \/ exists shoot, created s' = created s ++ [shoot]))) /\
  rName (instance s') = rName (instance s) /\
  rLabels (instance s') = rLabels (instance s) /\
  rShoot (instance s') = rShoot (instance s).
Proof.
  unfold sFnCreateShoot. cbv zeta.
  destruct (rsEnforceSeedLocation (rShoot (instance s))) as [[|]|];
    try destruct (seedForRegionAvailable m _ _) as [[[|] regions] [e|]];
    simpl; try (split; [|done]; by auto);
    destruct (GetAuditLogData m _ _) as [data [e|]];
    simpl; destruct (AuditLogMandatory m);
    simpl; try (split; [|done]; by auto);
    destruct (convertCreate m _ _) as [shoot [e'|]];
    simpl; try (split; [|done]; by auto);
    destruct (ShootClient_Create m shoot);
    simpl; (split; [|done]); right; eauto 10.
Qed.

(** X5: a seed check that is not enforced asks nobody.  When
    EnforceSeedLocation is unset or false, the run is the same whatever the
    seed lookup would answer, an error included. *)
Theorem sFnCreateShoot_seed_check_off m s
    (lookup : string -> string -> bool * list string * option error) :
  rsEnforceSeedLocation (rShoot (instance s)) <> Some true ->
  sFnCreateShoot (withSeedLookup m lookup) s = sFnCreateShoot m s.
Proof.
  intros Hoff. unfold sFnCreateShoot. cbv zeta.
  by destruct (rsEnforceSeedLocation (rShoot (instance s))) as [[|]|].
Qed.

(** X6: a seed lookup that fails is retried.  With EnforceSeedLocation set
    to true and a seed lookup that returns an error, [sFnCreateShoot] asks to
    be requeued after GardenerRequeueDuration, whatever else the lookup
    reports; it puts the False condition with reason GardenerError on the
    Runtime, leaves the stop counter alone and hands nothing to the create
    call. *)
Theorem sFnCreateShoot_seed_lookup_fails m s (seedAvailable : bool)
    (regionsWithSeeds : list string) (err : error) :
  rsEnforceSeedLocation (rShoot (instance s)) = Some true ->
  seedForRegionAvailable m (rsProviderType (rShoot (instance s)))
    (rsRegion (rShoot (instance s))) = (seedAvailable, regionsWithSeeds, Some err) ->
  let condition :=
    mkCondition ConditionTypeRuntimeProvisioned "False" ConditionReasonGardenerError
      ("Failed to verify whether seed is available for the region "
         +:+ rsRegion (rShoot (instance s)) +:+ ".") in
  let s' := snd (sFnCreateShoot m s) in
  fst (sFnCreateShoot m s) = RequeueAfter (GardenerRequeueDuration m) /\
  stopCounter s' = stopCounter s /\
  created s' = created s /\
  condition ∈ rConditions (rStatus (instance s')).
Proof.
  intros Henforce Hseed condition s'. subst s'.
  unfold sFnCreateShoot. rewrite Henforce, Hseed. simpl.
  repeat split. apply elem_of_app. right. by apply list_elem_of_singleton.
Qed.

(** X7: mandatory audit log data that cannot be read stops the run.  Past
    the seed check, when reading the audit log data fails and the
    configuration makes it mandatory, [sFnCreateShoot] stops with the False
    condition of reason AuditLogError, increments the stop counter by one
    and hands nothing to the create call; the converter is not reached. *)
Theorem sFnCreateShoot_audit_log_mandatory m s (data : auditlogs.AuditLogData)
    (err : error) :
  seedCheckPasses m s ->
  GetAuditLogData m (rsProviderType (rShoot (instance s))) (rsRegion (rShoot (instance s)))
    = (data, Some err) ->
  AuditLogMandatory m = true ->
  let condition :=
    mkCondition ConditionTypeRuntimeProvisioned "False" ConditionReasonAuditLogError
      msgFailedToConfigureAuditlogs in
  let s' := snd (sFnCreateShoot m s) in
  fst (sFnCreateShoot m s) = Stop /\
  stopCounter s' = S (stopCounter s) /\
  created s' = created s /\
  condition ∈ rConditions (rStatus (instance s')) /\
  (forall validate convert,
     sFnCreateShoot
       (mkFsm (seedForRegionAvailable m) (GetAuditLogData m) (GetMaintenanceWindow m)
          validate convert (ShootClient_Create m) (AuditLogMandatory m)
          (converterConfig m) (GardenerRequeueDuration m)) s
     = sFnCreateShoot m s).
Proof.
  intros Hseed Hdata Hmandatory condition s'. subst s'.
  assert (Hrun : forall validate convert,
    sFnCreateShoot
      (mkFsm (seedForRegionAvailable m) (GetAuditLogData m) (GetMaintenanceWindow m)
         validate convert (ShootClient_Create m) (AuditLogMandatory m)
         (converterConfig m) (GardenerRequeueDuration m)) s
    = updateStatePendingWithErrorAndStop ConditionTypeRuntimeProvisioned
        ConditionReasonAuditLogError msgFailedToConfigureAuditlogs
        (IncRuntimeFSMStopCounter s)).
  { intros validate convert. unfold sFnCreateShoot. cbv zeta. simpl.
    rewrite Hdata, Hmandatory. simpl.
    destruct Hseed as [Hoff | [regions Hfound]].
    - by destruct (rsEnforceSeedLocation (rShoot (instance s))) as [[|]|].
    - rewrite Hfound. by destruct (rsEnforceSeedLocation (rShoot (instance s))) as [[|]|]. }
  assert (Hm : sFnCreateShoot m s
    = updateStatePendingWithErrorAndStop ConditionTypeRuntimeProvisioned
        ConditionReasonAuditLogError msgFailedToConfigureAuditlogs
        (IncRuntimeFSMStopCounter s)).
  { rewrite <- (Hrun (ValidateRequiredLabels m) (ToShoot m)). by destruct m. }
  rewrite Hm. simpl. repeat split.
  - apply elem_of_app. right. by apply list_elem_of_singleton.
  - intros validate convert. by rewrite Hrun.
Qed.

(** X8: audit log data that is not mandatory never stops the run.  When
    AuditLogMandatory is false, an error of the audit log source is dropped:
    the run is the one of a machine whose source returns the same data
    without the error. *)
Theorem sFnCreateShoot_audit_log_optional m s :
  AuditLogMandatory m = false ->
  sFnCreateShoot
    (withAuditLogData m (fun providerType region =>
                           (fst (GetAuditLogData m providerType region), None))) s
  = sFnCreateShoot m s.
Proof.
  intros Hoptional. unfold sFnCreateShoot. cbv zeta. simpl. rewrite Hoptional.
  destruct (GetAuditLogData m _ _) as [data err]. simpl.
  by rewrite !andb_false_r.
Qed.


(** X10: a Runtime that cannot be converted stops the run.  Past the seed
    check and the audit log data, when the required labels are not valid or
    the converter returns an error, [sFnCreateShoot] stops with the False
    condition of reason ConversionError, increments the stop counter by one
    and hands nothing to the create call. *)
Theorem sFnCreateShoot_conversion_fails m s (err : error) :
  seedCheckPasses m s -> auditLogPasses m s ->
  ValidateRequiredLabels m (instance s) = Some err \/
  (ValidateRequiredLabels m (instance s) = None /\
   snd (ToShoot m (createOpts m s) (instance s)) = Some err) ->
  let condition :=
    mkCondition ConditionTypeRuntimeProvisioned "False" ConditionReasonConversionError
      "Runtime conversion error" in
  let s' := snd (sFnCreateShoot m s) in
  fst (sFnCreateShoot m s) = Stop /\
  stopCounter s' = S (stopCounter s) /\
  created s' = created s /\
  condition ∈ rConditions (rStatus (instance s')).
Proof.
  intros Hseed Haudit Hconv condition s'. subst s'.
  rewrite (sFnCreateShoot_past_checks m s Hseed Haudit).
  assert (Hfails : exists shoot e,
    convertCreate m (instance s) (createOpts m s) = (shoot, Some e)).
  { unfold convertCreate. destruct Hconv as [Hlabels | [Hlabels Hconvert]].
    - rewrite Hlabels. eauto.
    - rewrite Hlabels.
      destruct (ToShoot m (createOpts m s) (instance s)) as [shoot e].
      simpl in Hconvert. subst e. eauto. }
  destruct Hfails as (shoot & e & ->). simpl.
  repeat split. apply elem_of_app. right. by apply list_elem_of_singleton.
Qed.

(** X11: a converted Runtime is created once, and the run comes back.
    Past the seed check and the audit log data, with valid labels and a
    converter that returns the Shoot [shoot] for the options built from the
    audit log data and the maintenance window, [sFnCreateShoot] hands
    exactly [shoot] to the backend's create call, once, and asks to be
    requeued after GardenerRequeueDuration whether the call succeeds or not.
    The stop counter is not touched.  The condition left on the Runtime is
    the Unknown one of reason ShootCreationPending after a successful call,
    and the False one of reason GardenerError, carrying the error, after a
    failed one. *)
Theorem sFnCreateShoot_creates_shoot m s (shoot : Shoot) :
  seedCheckPasses m s -> auditLogPasses m s ->
  ValidateRequiredLabels m (instance s) = None ->
  ToShoot m (createOpts m s) (instance s) = (shoot, None) ->
  let condition :=
    match ShootClient_Create m shoot with
    | None =>
        mkCondition ConditionTypeRuntimeProvisioned "Unknown"
          ConditionReasonShootCreationPending "Shoot is pending"
    | Some e =>
        mkCondition ConditionTypeRuntimeProvisioned "False" ConditionReasonGardenerError
          ("Gardener API create error: " +:+ errorString e)
    end in
  let s' := snd (sFnCreateShoot m s) in
  fst (sFnCreateShoot m s) = RequeueAfter (GardenerRequeueDuration m) /\
  stopCounter s' = stopCounter s /\
  created s' = created s ++ [shoot] /\
  condition ∈ rConditions (rStatus (instance s')).
Proof.
  intros Hseed Haudit Hlabels Hconvert condition s'. subst s' condition.
  rewrite (sFnCreateShoot_past_checks m s Hseed Haudit).
  unfold convertCreate. rewrite Hlabels, Hconvert. unfold Create.
  destruct (ShootClient_Create m shoot) as [e|]; simpl;
    repeat split; apply elem_of_app; right; by apply list_elem_of_singleton.
Qed.

End CreateShootBranches.

(** ** The GardenerCluster controller: the other ways through Reconcile *)

Section ReconcilerPaths.

Import controller.

Context (env : Env) (ctl : GardenerClusterController) `{TimeLayout} `{ConditionMethods}.

Implicit Types (w : World) (cluster : GardenerCluster) (s : Secret).

Ltac flatten_worlds :=
  unfold traced, setSecrets, setClusters, whenHandled in *; simpl in *;
  rewrite <- ?app_assoc; simpl.

(** [Reconcile] up to the return of [handleKubeconfig]. *)
Ltac enter_handle Hget Hstored Hhandle :=
  cbv beta iota zeta delta [Reconcile bind ret client_Get call Now];
  rewrite Hget; simpl; rewrite Hstored; unfold traced; simpl;
  match type of Hhandle with
  | handleKubeconfig _ _ _ _ ?w0 = _ =>
      match goal with
      | |- context [handleKubeconfig _ _ _ _ (mkWorld ?a ?b ?c ?d)] =>
          change (mkWorld a b c d) with w0
      end
  end;
  rewrite Hhandle; simpl.

Lemma client_StatusUpdate_effect cluster w :
  wTrace (snd (client_StatusUpdate env cluster w)) = wTrace w ++ [CallStatusUpdate cluster] /\
  wSecrets (snd (client_StatusUpdate env cluster w)) = wSecrets w.
Proof.
  cbv beta iota zeta delta [client_StatusUpdate bind ret call].
  destruct (eFault env (length (wTrace w))); [done|]. simpl.
  by destruct (wClusters w !! clusterKey cluster).
Qed.

Ltac status_update_effect :=
  match goal with
  | |- context [client_StatusUpdate env ?c ?w1] =>
      destruct (client_StatusUpdate_effect c w1) as [-> ->]
  end.

(** What [Reconcile] does with an error of [handleKubeconfig]. *)
Lemma Reconcile_after_error (req : Request) cluster w cluster' status err w1 :
  eFault env (length (wTrace w)) = None ->
  wClusters w !! (reqNamespace req, reqName req) = Some cluster ->
  handleKubeconfig env ctl cluster (eClock env (wTicks w)) (whenHandled req w)
    = ((cluster', status, Some err), w1) ->
  Reconcile env ctl req w =
    ((resultWithoutRequeue, if IsNotFound err then None else Some err),
     snd (client_StatusUpdate env cluster' w1)).
Proof.
  intros Hget Hstored Hhandle.
  enter_handle Hget Hstored Hhandle.
  unfold persistStatusChange.
  by destruct (client_StatusUpdate env cluster' w1).
Qed.

(** What [Reconcile] does once [handleKubeconfig] has created or updated
    the secret. *)
Lemma Reconcile_after_write (req : Request) cluster w cluster' status w1 :
  eFault env (length (wTrace w)) = None ->
  wClusters w !! (reqNamespace req, reqName req) = Some cluster ->
  status = ksCreated \/ status = ksModified ->
  handleKubeconfig env ctl cluster (eClock env (wTicks w)) (whenHandled req w)
    = ((cluster', status, None), w1) ->
  Reconcile env ctl req w =
    ((resultWithoutRequeue, None), snd (client_StatusUpdate env cluster' w1)).
Proof.
  intros Hget Hstored Hstatus Hhandle.
  enter_handle Hget Hstored Hhandle.
  unfold persistStatusChange.
  destruct Hstatus as [-> | ->]; simpl;
    by destruct (client_StatusUpdate env cluster' w1).
Qed.

(** X12: a read that fails ends the invocation.  When the read of the
    GardenerCluster fails with an error other than not-found, [Reconcile]
    returns that error and asks for no requeue; the read is its only call:
    no secret is looked up, let alone deleted, and the kubeconfig is not
    fetched. *)
Theorem Reconcile_read_fails (req : Request) w (err : error) :
  eFault env (length (wTrace w)) = Some err ->
  IsNotFound err = false ->
  Reconcile env ctl req w =
    ((resultWithoutRequeue, Some err),
     mkWorld (wSecrets w) (wClusters w)
       (wTrace w ++ [CallGet (reqNamespace req) (reqName req)]) (wTicks w)).
Proof.
  intros Hfault Hother.
  cbv beta iota zeta delta [Reconcile bind ret client_Get call].
  rewrite Hfault. simpl. by rewrite Hother.
Qed.

(** X13: the cleanup reports what goes wrong.  The GardenerCluster is
    gone.  If the lookup of its secret fails, [Reconcile] returns the error
    of the lookup and issues no delete.  If the lookup finds the one secret
    [s] and the delete fails, [Reconcile] returns the error of the delete.
    In both cases the stored secrets are as they were and no requeue is asked
    for. *)
Theorem Reconcile_cleanup_fails (req : Request) w (err : error) :
  eFault env (length (wTrace w)) = None ->
  wClusters w !! (reqNamespace req, reqName req) = None ->
  let r := Reconcile env ctl req w in
  (eFault env (S (length (wTrace w))) = Some err ->
     r = ((resultWithoutRequeue, Some err),
          mkWorld (wSecrets w) (wClusters w)
            (wTrace w ++ [CallGet (reqNamespace req) (reqName req);
                          CallList clusterCRNameLabel (reqName req)])
            (wTicks w))) /\
  (forall s,
     eFault env (S (length (wTrace w))) = None ->
     matchingSecrets w clusterCRNameLabel (reqName req) = [s] ->
     eFault env (S (S (length (wTrace w)))) = Some err ->
     r = ((resultWithoutRequeue, Some err),
          mkWorld (wSecrets w) (wClusters w)
            (wTrace w ++ [CallGet (reqNamespace req) (reqName req);
                          CallList clusterCRNameLabel (reqName req);
                          CallDelete s])
            (wTicks w))).
Proof.
  intros Hget Hgone r. subst r.
  cbv beta iota zeta delta
    [Reconcile deleteKubeconfigSecret bind ret client_Get client_List client_Delete call].
  rewrite Hget. simpl. rewrite Hgone. simpl.
  rewrite length_app, Nat.add_1_r. split.
  - intros ->. simpl. by flatten_worlds.
  - intros s -> Hone Hdelete. simpl.
    change (matchingSecrets _ clusterCRNameLabel (reqName req))
      with (matchingSecrets w clusterCRNameLabel (reqName req)).
    rewrite Hone. simpl.
    rewrite !length_app, !Nat.add_1_r, Hdelete. simpl. by flatten_worlds.
Qed.

(** X14: a failed fetch is recorded, and a missing cluster is not an
    error.  The API server answers every call, the GardenerCluster is stored
    and the lookup is not ambiguous.  When the fetch of the kubeconfig fails,
    [Reconcile] sends a status update for the GardenerCluster carrying the
    FailedToGetKubeconfig condition and asks for no requeue.  It returns the
    error of the fetch, unless that error is a not-found one: then it returns
    no error at all.  No secret is written. *)
Theorem Reconcile_fetch_fails (req : Request) cluster w (err : error) :
  (forall n, eFault env n = None) ->
  wClusters w !! (reqNamespace req, reqName req) = Some cluster ->
  (length (matchingSecrets w shootNameLabel (cShootName cluster)) <= 1)%nat ->
  snd (Fetch ctl (cShootName cluster)) = Some err ->
  let cluster' :=
    UpdateConditionForErrorState cluster ConditionTypeKubeconfigManagement
      ConditionReasonFailedToGetKubeconfig err in
  let r := Reconcile env ctl req w in
  fst r = (resultWithoutRequeue, if IsNotFound err then None else Some err) /\
  wSecrets (snd r) = wSecrets w /\
  wTrace (snd r) =
    wTrace w ++ [CallGet (reqNamespace req) (reqName req);
                 CallList shootNameLabel (cShootName cluster);
                 CallFetch (cShootName cluster);
                 CallStatusUpdate cluster'].
Proof.
  intros Hcalm Hstored Hlookup Hfetch cluster' r. subst r.
  assert (Hhandle :
    handleKubeconfig env ctl cluster (eClock env (wTicks w)) (whenHandled req w) =
      ((cluster', ksZero, Some err),
       mkWorld (wSecrets w) (wClusters w)
         (wTrace (whenHandled req w)
            ++ [CallList shootNameLabel (cShootName cluster);
                CallFetch (cShootName cluster)])
         (wTicks (whenHandled req w)))).
  { unfold handleKubeconfig, bind. rewrite getSecret_run, Hcalm.
    change (matchingSecrets (whenHandled req w) shootNameLabel (cShootName cluster))
      with (matchingSecrets w shootNameLabel (cShootName cluster)).
    destruct (matchingSecrets w shootNameLabel (cShootName cluster)) as [|s [|s2 rest]];
      [| |simpl in Hlookup; lia];
      simpl; unfold KubeconfigProvider_Fetch; rewrite Hfetch; unfold ret;
      by flatten_worlds. }
  rewrite (Reconcile_after_error req cluster w _ _ _ _ (Hcalm _) Hstored Hhandle).
  cbn [fst snd]. status_update_effect.
  repeat split. by flatten_worlds.
Qed.

(** X15: a failed lookup is recorded, and nothing is fetched.  The
    GardenerCluster has been read.  When the lookup of the secret fails with
    an error other than not-found, [Reconcile] sends a status update for the
    GardenerCluster carrying the FailedToGetSecret condition, returns the
    error and asks for no requeue; the kubeconfig is not fetched and no
    secret is written. *)
Theorem Reconcile_lookup_fails (req : Request) cluster w (err : error) :
  eFault env (length (wTrace w)) = None ->
  wClusters w !! (reqNamespace req, reqName req) = Some cluster ->
  eFault env (S (length (wTrace w))) = Some err ->
  IsNotFound err = false ->
  let cluster' :=
    UpdateConditionForErrorState cluster ConditionTypeKubeconfigManagement
      ConditionReasonFailedToGetSecret err in
  let r := Reconcile env ctl req w in
  fst r = (resultWithoutRequeue, Some err) /\
  wSecrets (snd r) = wSecrets w /\
  wTrace (snd r) =
    wTrace w ++ [CallGet (reqNamespace req) (reqName req);
                 CallList shootNameLabel (cShootName cluster);
                 CallStatusUpdate cluster'].
Proof.
  intros Hget Hstored Hlist Hother cluster' r. subst r.
  assert (Hhandle :
    handleKubeconfig env ctl cluster (eClock env (wTicks w)) (whenHandled req w) =
      ((cluster', ksZero, Some err),
       traced (whenHandled req w) (CallList shootNameLabel (cShootName cluster)))).
  { unfold handleKubeconfig, bind. rewrite getSecret_run.
    replace (length (wTrace (whenHandled req w))) with (S (length (wTrace w)))
      by (simpl; rewrite length_app; simpl; lia).
    rewrite Hlist. simpl. by rewrite Hother. }
  rewrite (Reconcile_after_error req cluster w _ _ _ _ Hget Hstored Hhandle).
  rewrite Hother. cbn [fst snd]. status_update_effect.
  repeat split. by flatten_worlds.
Qed.

(** The lookup, the fetch and the decision of [handleKubeconfig] when the
    rotation is not forced and the secret has to be written. *)
Lemma handleKubeconfig_writes cluster (lastSyncTime : Time) w (existing : option Secret) :
  eFault env (length (wTrace w)) = None ->
  lookupResult (cShootName cluster)
    (matchingSecrets w shootNameLabel (cShootName cluster))
    = (existing, match existing with
                 | Some _ => None
                 | None => Some (NewNotFound EmptyString)
                 end) ->
  snd (Fetch ctl (cShootName cluster)) = None ->
  secretRotationForced cluster = false ->
  fst (secretNeedsToBeRotated env cluster existing (rotationPeriod ctl) w) = true ->
  exists ticks,
    let w1 :=
      mkWorld (wSecrets w) (wClusters w)
        (wTrace w ++ [CallList shootNameLabel (cShootName cluster);
                      CallFetch (cShootName cluster)])
        ticks in
    let kubeconfig := fst (Fetch ctl (cShootName cluster)) in
    handleKubeconfig env ctl cluster lastSyncTime w =
      match existing with
      | Some s =>
          let r := updateExistingSecret env kubeconfig cluster s lastSyncTime w1 in
          ((fst (fst r), ksModified, snd (fst r)), snd r)
      | None =>
          let r := createNewSecret env kubeconfig cluster lastSyncTime w1 in
          ((fst (fst r), ksCreated, snd (fst r)), snd r)
      end.
Proof.
  intros Hlist Hlookup Hfetch Hforced Hdue.
  unfold handleKubeconfig, bind. rewrite getSecret_run, Hlist, Hlookup.
  cbn [fst snd].
  assert (Hnot : unlessNotFound
            match existing with
            | Some _ => None
            | None => Some (NewNotFound EmptyString)
            end = None) by (by destruct existing).
  rewrite Hnot.
  unfold KubeconfigProvider_Fetch. rewrite Hfetch, Hforced.
  set (w2 := traced (traced w _) _).
  assert (Hdue2 : fst (secretNeedsToBeRotated env cluster existing (rotationPeriod ctl) w2)
                  = true).
  { rewrite <- Hdue. by apply secretNeedsToBeRotated_ticks. }
  pose proof (secretNeedsToBeRotated_trace env cluster existing (rotationPeriod ctl) w2)
    as Htrace.
  assert (Hstores :
    wSecrets (snd (secretNeedsToBeRotated env cluster existing (rotationPeriod ctl) w2))
      = wSecrets w /\
    wClusters (snd (secretNeedsToBeRotated env cluster existing (rotationPeriod ctl) w2))
      = wClusters w).
  { unfold secretNeedsToBeRotated, bind, ret. rewrite secretRotationTimePassed_run.
    destruct existing as [s|]; [|done].
    destruct (sAnnotations s !! lastKubeconfigSyncAnnotation) as [v|]; [|done].
    by destruct (parseRFC3339 v). }
  destruct (secretNeedsToBeRotated env cluster existing (rotationPeriod ctl) w2)
    as [needs w3].
  simpl in Hdue2, Htrace, Hstores. destruct Hstores as [Hsecrets Hclusters].
  subst needs. simpl.
  exists (wTicks w3).
  assert (Hw3 : w3 = mkWorld (wSecrets w) (wClusters w)
                       (wTrace w ++ [CallList shootNameLabel (cShootName cluster);
                                     CallFetch (cShootName cluster)])
                       (wTicks w3)).
  { destruct w3 as [a b c d]. simpl in *. subst a b c. subst w2.
    unfold traced. simpl. by rewrite <- app_assoc. }
  rewrite <- Hw3.
  destruct existing as [s|].
  - by destruct (updateExistingSecret env _ cluster s lastSyncTime w3) as [[c e] w4].
  - by destruct (createNewSecret env _ cluster lastSyncTime w3) as [[c e] w4].
Qed.

(** The creation of the secret, as one run. *)
Lemma Reconcile_create_run (req : Request) cluster w :
  (forall n, eFault env n = None) ->
  wClusters w !! (reqNamespace req, reqName req) = Some cluster ->
  cAnnotations cluster !! forceKubeconfigRotationAnnotation = None ->
  matchingSecrets w shootNameLabel (cShootName cluster) = [] ->
  snd (Fetch ctl (cShootName cluster)) = None ->
  let secret :=
    newSecret cluster (fst (Fetch ctl (cShootName cluster))) (eClock env (wTicks w)) in
  exists ticks,
    let w1 :=
      mkWorld (wSecrets w) (wClusters w)
        (wTrace w ++ [CallGet (reqNamespace req) (reqName req);
                      CallList shootNameLabel (cShootName cluster);
                      CallFetch (cShootName cluster);
                      CallCreate secret])
        ticks in
    Reconcile env ctl req w =
      match wSecrets w !! secretKey secret with
      | None =>
          ((resultWithoutRequeue, None),
           snd (client_StatusUpdate env
                  (UpdateConditionForReadyState cluster ConditionTypeKubeconfigManagement
                     ConditionReasonKubeconfigSecretCreated ConditionTrue)
                  (setSecrets w1 (<[secretKey secret := secret]> (wSecrets w)))))
      | Some _ =>
          ((resultWithoutRequeue, Some (NewAlreadyExists (sName secret))),
           snd (client_StatusUpdate env
                  (UpdateConditionForErrorState cluster ConditionTypeKubeconfigManagement
                     ConditionReasonFailedToCreateSecret
                     (NewAlreadyExists (sName secret)))
                  w1))
      end.
Proof.
  intros Hcalm Hstored Hnotforced Hnone Hfetch secret.
  assert (Hforced : secretRotationForced cluster = false).
  { unfold secretRotationForced. by rewrite Hnotforced. }
  destruct (handleKubeconfig_writes cluster (eClock env (wTicks w)) (whenHandled req w) None)
    as [ticks Hhandle]; [done| |done|done|done|].
  { change (matchingSecrets (whenHandled req w) shootNameLabel (cShootName cluster))
      with (matchingSecrets w shootNameLabel (cShootName cluster)).
    by rewrite Hnone. }
  exists ticks. cbv zeta in Hhandle.
  cbv beta iota zeta delta [createNewSecret client_Create bind ret call] in Hhandle.
  rewrite Hcalm in Hhandle. fold secret in Hhandle. simpl in Hhandle.
  destruct (wSecrets w !! secretKey secret) as [other|] eqn:Hkey; simpl in Hhandle.
  - rewrite (Reconcile_after_error req cluster w _ _ _ _ (Hcalm _) Hstored Hhandle).
    simpl. f_equal. f_equal. by flatten_worlds.
  - rewrite (Reconcile_after_write req cluster w _ _ _ (Hcalm _) Hstored
               (or_introl eq_refl) Hhandle).
    f_equal. f_equal. by flatten_worlds.
Qed.

(** The renewal of the secret [s], as one run. *)
Lemma Reconcile_renew_run (req : Request) cluster s w :
  (forall n, eFault env n = None) ->
  wClusters w !! (reqNamespace req, reqName req) = Some cluster ->
  cAnnotations cluster !! forceKubeconfigRotationAnnotation = None ->
  matchingSecrets w shootNameLabel (cShootName cluster) = [s] ->
  wSecrets w !! secretKey s = Some s ->
  snd (Fetch ctl (cShootName cluster)) = None ->
  fst (secretNeedsToBeRotated env cluster (Some s) (rotationPeriod ctl)
         (whenHandled req w)) = true ->
  let s' :=
    withKubeconfig (fst (Fetch ctl (cShootName cluster))) cluster s (eClock env (wTicks w)) in
  exists ticks,
    Reconcile env ctl req w =
      ((resultWithoutRequeue, None),
       snd (client_StatusUpdate env
              (UpdateConditionForReadyState cluster ConditionTypeKubeconfigManagement
                 ConditionReasonKubeconfigSecretRotated ConditionTrue)
              (mkWorld (<[secretKey s := s']> (wSecrets w)) (wClusters w)
                 (wTrace w ++ [CallGet (reqNamespace req) (reqName req);
                               CallList shootNameLabel (cShootName cluster);
                               CallFetch (cShootName cluster);
                               CallUpdate s'])
                 ticks))).
Proof.
  intros Hcalm Hstored Hnotforced Hone Hs Hfetch Hdue s'.
  assert (Hforced : secretRotationForced cluster = false).
  { unfold secretRotationForced. by rewrite Hnotforced. }
  destruct (handleKubeconfig_writes cluster (eClock env (wTicks w)) (whenHandled req w)
              (Some s))
    as [ticks Hhandle]; [done| |done|done|done|].
  { change (matchingSecrets (whenHandled req w) shootNameLabel (cShootName cluster))
      with (matchingSecrets w shootNameLabel (cShootName cluster)).
    by rewrite Hone. }
  exists ticks. cbv zeta in Hhandle.
  cbv beta iota zeta delta [updateExistingSecret client_Update bind ret call] in Hhandle.
  rewrite Hcalm in Hhandle. fold s' in Hhandle. simpl in Hhandle.
  change (secretKey s') with (secretKey s) in Hhandle.
  rewrite Hs in Hhandle. simpl in Hhandle.
  rewrite (Reconcile_after_write req cluster w _ _ _ (Hcalm _) Hstored
             (or_intror eq_refl) Hhandle).
  f_equal. f_equal. by flatten_worlds.
Qed.

(** X16: the first reconcile of a GardenerCluster creates its secret.  The
    API server answers every call, the GardenerCluster is stored without the
    forced-rotation annotation, the lookup finds no secret, the fetch
    succeeds and no secret is stored under the name the GardenerCluster asks
    for.  Then [Reconcile] stores the new secret under that name: it holds
    the fetched kubeconfig as string data under the configured key, the
    time of this reconcile as its last-sync annotation and no other data.
    [Reconcile] then sends a status update for the GardenerCluster in the
    ready state with reason KubeconfigSecretCreated, and returns without an
    error and without asking for a requeue. *)
Theorem Reconcile_creates_secret (req : Request) cluster w :
  (forall n, eFault env n = None) ->
  wClusters w !! (reqNamespace req, reqName req) = Some cluster ->
  cAnnotations cluster !! forceKubeconfigRotationAnnotation = None ->
  matchingSecrets w shootNameLabel (cShootName cluster) = [] ->
  snd (Fetch ctl (cShootName cluster)) = None ->
  wSecrets w !! (refNamespace (cSecret cluster), refName (cSecret cluster)) = None ->
  let kubeconfig := fst (Fetch ctl (cShootName cluster)) in
  let lastSyncTime := eClock env (wTicks w) in
  let secret := newSecret cluster kubeconfig lastSyncTime in
  let cluster' :=
    UpdateConditionForReadyState cluster ConditionTypeKubeconfigManagement
      ConditionReasonKubeconfigSecretCreated ConditionTrue in
  let r := Reconcile env ctl req w in
  fst r = (resultWithoutRequeue, None) /\
  wSecrets (snd r)
    = <[(refNamespace (cSecret cluster), refName (cSecret cluster)) := secret]> (wSecrets w) /\
  sStringData secret = {[ refKey (cSecret cluster) := kubeconfig ]} /\
  sAnnotations secret = {[ lastKubeconfigSyncAnnotation := formatRFC3339 lastSyncTime ]} /\
  sData secret = ∅ /\
  wTrace (snd r) =
    wTrace w ++ [CallGet (reqNamespace req) (reqName req);
                 CallList shootNameLabel (cShootName cluster);
                 CallFetch (cShootName cluster);
                 CallCreate secret;
                 CallStatusUpdate cluster'].
Proof.
  intros Hcalm Hstored Hnotforced Hnone Hfetch Hfree kubeconfig lastSyncTime secret
    cluster' r. subst r.
  destruct (Reconcile_create_run req cluster w Hcalm Hstored Hnotforced Hnone Hfetch)
    as [ticks Hrun].
  cbv zeta in Hrun. fold kubeconfig lastSyncTime secret in Hrun.
  change (secretKey secret)
    with (refNamespace (cSecret cluster), refName (cSecret cluster)) in Hrun.
  rewrite Hfree in Hrun. rewrite Hrun.
  cbn [fst snd]. status_update_effect.
  repeat split. by flatten_worlds.
Qed.

(** X17: a due secret is renewed in place.  The API server answers every
    call, the GardenerCluster is stored without the forced-rotation
    annotation, the lookup finds the one secret [s], the fetch succeeds and
    the rotation is due.  Then [Reconcile] stores [s] again under its name
    with the fetched kubeconfig as the data entry of the configured key and
    the time of this reconcile as its last-sync annotation; its labels, its
    string data and every other data entry and annotation are as they were.
    [Reconcile] then sends a status update for the GardenerCluster in the
    ready state with reason KubeconfigSecretRotated, and returns without an
    error and without asking for a requeue. *)
Theorem Reconcile_renews_due_secret (req : Request) cluster s w :
  (forall n, eFault env n = None) ->
  wellKeyed w ->
  wClusters w !! (reqNamespace req, reqName req) = Some cluster ->
  cAnnotations cluster !! forceKubeconfigRotationAnnotation = None ->
  matchingSecrets w shootNameLabel (cShootName cluster) = [s] ->
  snd (Fetch ctl (cShootName cluster)) = None ->
  fst (secretNeedsToBeRotated env cluster (Some s) (rotationPeriod ctl)
         (whenHandled req w)) = true ->
  let kubeconfig := fst (Fetch ctl (cShootName cluster)) in
  let lastSyncTime := eClock env (wTicks w) in
  let s' := withKubeconfig kubeconfig cluster s lastSyncTime in
  let cluster' :=
    UpdateConditionForReadyState cluster ConditionTypeKubeconfigManagement
      ConditionReasonKubeconfigSecretRotated ConditionTrue in
  let r := Reconcile env ctl req w in
  fst r = (resultWithoutRequeue, None) /\
  wSecrets (snd r) = <[secretKey s := s']> (wSecrets w) /\
  sData s' !! refKey (cSecret cluster) = Some (String.list_byte_of_string kubeconfig) /\
  sAnnotations s' !! lastKubeconfigSyncAnnotation = Some (formatRFC3339 lastSyncTime) /\
  (forall k, k <> refKey (cSecret cluster) -> sData s' !! k = sData s !! k) /\
  (forall k, k <> lastKubeconfigSyncAnnotation ->
             sAnnotations s' !! k = sAnnotations s !! k) /\
  sLabels s' = sLabels s /\ sStringData s' = sStringData s /\
  wTrace (snd r) =
    wTrace w ++ [CallGet (reqNamespace req) (reqName req);
                 CallList shootNameLabel (cShootName cluster);
                 CallFetch (cShootName cluster);
                 CallUpdate s';
                 CallStatusUpdate cluster'].
Proof.
  intros Hcalm Hkeys Hstored Hnotforced Hone Hfetch Hdue kubeconfig lastSyncTime s'
    cluster' r. subst r.
  assert (Hs : wSecrets w !! secretKey s = Some s).
  { apply (stored_secret w shootNameLabel (cShootName cluster)); [done|].
    rewrite Hone. by apply list_elem_of_singleton. }
  destruct (Reconcile_renew_run req cluster s w Hcalm Hstored Hnotforced Hone Hs Hfetch Hdue)
    as [ticks ->].
  fold kubeconfig lastSyncTime s'.
  cbn [fst snd]. status_update_effect.
  split; [done|]. split; [done|].
  split; [by apply lookup_insert_eq|]. split; [by apply lookup_insert_eq|].
  split; [by intros k Hk; apply lookup_insert_ne|].
  split; [by intros k Hk; apply lookup_insert_ne|].
  split; [done|]. split; [done|]. by flatten_worlds.
Qed.

(** X18: a secret of the same name without the label blocks the creation.
    The API server answers every call, the GardenerCluster is stored without
    the forced-rotation annotation, the fetch succeeds and the lookup by the
    shoot-name label finds nothing, but a secret is stored under the name the
    GardenerCluster asks for.  Then the creation is refused: [Reconcile]
    returns the already-exists error without asking for a requeue, sends a
    status update for the GardenerCluster carrying the FailedToCreateSecret
    condition, and leaves the stored secrets as they were. *)
Theorem Reconcile_create_conflict (req : Request) cluster (other : Secret) w :
  (forall n, eFault env n = None) ->
  wClusters w !! (reqNamespace req, reqName req) = Some cluster ->
  cAnnotations cluster !! forceKubeconfigRotationAnnotation = None ->
  matchingSecrets w shootNameLabel (cShootName cluster) = [] ->
  snd (Fetch ctl (cShootName cluster)) = None ->
  wSecrets w !! (refNamespace (cSecret cluster), refName (cSecret cluster)) = Some other ->
  let secret := newSecret cluster (fst (Fetch ctl (cShootName cluster))) (eClock env (wTicks w)) in
  let err := NewAlreadyExists (refName (cSecret cluster)) in
  let cluster' :=
    UpdateConditionForErrorState cluster ConditionTypeKubeconfigManagement
      ConditionReasonFailedToCreateSecret err in
  let r := Reconcile env ctl req w in
  fst r = (resultWithoutRequeue, Some err) /\
  wSecrets (snd r) = wSecrets w /\
  wTrace (snd r) =
    wTrace w ++ [CallGet (reqNamespace req) (reqName req);
                 CallList shootNameLabel (cShootName cluster);
                 CallFetch (cShootName cluster);
                 CallCreate secret;
                 CallStatusUpdate cluster'].
Proof.
  intros Hcalm Hstored Hnotforced Hnone Hfetch Htaken secret err cluster' r. subst r.
  destruct (Reconcile_create_run req cluster w Hcalm Hstored Hnotforced Hnone Hfetch)
    as [ticks Hrun].
  cbv zeta in Hrun. fold secret in Hrun.
  change (secretKey secret)
    with (refNamespace (cSecret cluster), refName (cSecret cluster)) in Hrun.
  rewrite Htaken in Hrun. rewrite Hrun.
  change (NewAlreadyExists (sName secret)) with err. fold cluster'.
  cbn [fst snd]. status_update_effect.
  repeat split. by flatten_worlds.
Qed.

(** A status update leaves everything of a stored GardenerCluster but its
    status. *)
Lemma client_StatusUpdate_keeps cluster w k c0 :
  wClusters w !! k = Some c0 ->
  exists c1,
    wClusters (snd (client_StatusUpdate env cluster w)) !! k = Some c1 /\
    cName c1 = cName c0 /\ cNamespace c1 = cNamespace c0 /\ cLabels c1 = cLabels c0 /\
    cAnnotations c1 = cAnnotations c0 /\ cShootName c1 = cShootName c0 /\
    cSecret c1 = cSecret c0.
Proof.
  intros Hk. cbv beta iota zeta delta [client_StatusUpdate bind ret call].
  destruct (eFault env (length (wTrace w))); [by exists c0|]. simpl.
  destruct (wClusters w !! clusterKey cluster) as [c|] eqn:Hc; [|by exists c0].
  simpl. destruct (decide (k = clusterKey cluster)) as [->|Hne].
  - rewrite lookup_insert_eq. eexists. split; [done|].
    rewrite Hc in Hk. by injection Hk as ->.
  - rewrite lookup_insert_ne by done. by exists c0.
Qed.

(** X19: a forced rotation that cannot strip the secret is not marked as
    done.  The GardenerCluster is stored with the forced-rotation annotation,
    the lookup finds the one secret [s] and the fetch succeeds, but the
    update that would strip the secret fails.  Then [Reconcile] does not
    touch the annotation: it sends a status update carrying the
    FailedToDeleteSecret condition, asks for no requeue and returns the error
    of the update, or nothing when that error is a not-found one.  The stored
    secrets are as they were, and the stored GardenerCluster still carries
    the forced-rotation annotation. *)
Theorem Reconcile_forced_update_fails (req : Request) cluster s w (err : error) :
  eFault env (length (wTrace w)) = None ->
  eFault env (S (length (wTrace w))) = None ->
  eFault env (S (S (S (length (wTrace w))))) = Some err ->
  wClusters w !! (reqNamespace req, reqName req) = Some cluster ->
  is_Some (cAnnotations cluster !! forceKubeconfigRotationAnnotation) ->
  matchingSecrets w shootNameLabel (cShootName cluster) = [s] ->
  snd (Fetch ctl (cShootName cluster)) = None ->
  let cluster' :=
    UpdateConditionForErrorState cluster ConditionTypeKubeconfigManagement
      ConditionReasonFailedToDeleteSecret err in
  let r := Reconcile env ctl req w in
  fst r = (resultWithoutRequeue, if IsNotFound err then None else Some err) /\
  wSecrets (snd r) = wSecrets w /\
  wTrace (snd r) =
    wTrace w ++ [CallGet (reqNamespace req) (reqName req);
                 CallList shootNameLabel (cShootName cluster);
                 CallFetch (cShootName cluster);
                 CallUpdate (withoutKubeconfig cluster s);
                 CallStatusUpdate cluster'] /\
  exists stored,
    wClusters (snd r) !! (reqNamespace req, reqName req) = Some stored /\
    cAnnotations stored = cAnnotations cluster /\
    is_Some (cAnnotations stored !! forceKubeconfigRotationAnnotation).
Proof.
  intros Hget Hlist Hupdate Hstored Hforced Hone Hfetch cluster' r. subst r.
  pose proof Hforced as Hannotated.
  apply secretRotationForced_is_Some in Hforced.
  assert (Hhandle :
    handleKubeconfig env ctl cluster (eClock env (wTicks w)) (whenHandled req w) =
      ((cluster', ksZero, Some err),
       mkWorld (wSecrets w) (wClusters w)
         (wTrace (whenHandled req w)
            ++ [CallList shootNameLabel (cShootName cluster);
                CallFetch (cShootName cluster);
                CallUpdate (withoutKubeconfig cluster s)])
         (wTicks (whenHandled req w)))).
  { unfold handleKubeconfig, bind. rewrite getSecret_run.
    replace (length (wTrace (whenHandled req w))) with (S (length (wTrace w)))
      by (simpl; rewrite length_app; simpl; lia).
    rewrite Hlist.
    change (matchingSecrets (whenHandled req w) shootNameLabel (cShootName cluster))
      with (matchingSecrets w shootNameLabel (cShootName cluster)).
    rewrite Hone. simpl. unfold KubeconfigProvider_Fetch. rewrite Hfetch, Hforced.
    cbv beta iota zeta delta [removeKubeconfig client_Update bind ret call].
    replace (length (wTrace (traced (traced (whenHandled req w) _) _)))
      with (S (S (S (length (wTrace w)))))
      by (simpl; rewrite !length_app; simpl; lia).
    rewrite Hupdate. simpl. by flatten_worlds. }
  rewrite (Reconcile_after_error req cluster w _ _ _ _ Hget Hstored Hhandle).
  cbn [fst snd].
  match goal with
  | |- context [client_StatusUpdate env ?c ?w1] =>
      destruct (client_StatusUpdate_keeps c w1 (reqNamespace req, reqName req) cluster)
        as (stored & Hafter & _ & _ & _ & Hannotations & _); [done|]
  end.
  status_update_effect.
  split; [done|]. split; [done|]. split; [by flatten_worlds|].
  exists stored. split; [done|]. split; [done|]. by rewrite Hannotations.
Qed.

(** X20: which lookups find the secret the controller creates.  The new
    secret carries the labels of the GardenerCluster, the managed-by label
    and the cluster-name label with the name of the GardenerCluster, the
    last two whatever the GardenerCluster has under these keys.  So the
    lookup of the cleanup, by the cluster-name label, always finds it; the
    lookup of [handleKubeconfig], by the shoot-name label, finds it exactly
    when the GardenerCluster itself carries that label with that value. *)
Theorem newSecret_labels cluster (kubeconfig : string) (lastSyncTime : Time) :
  let secret := newSecret cluster kubeconfig lastSyncTime in
  matchingLabels clusterCRNameLabel (cName cluster) secret = true /\
  sLabels secret !! "operator.kyma-project.io/managed-by" = Some "infrastructure-manager" /\
  (forall value,
     matchingLabels shootNameLabel value secret = true <->
     cLabels cluster !! shootNameLabel = Some value) /\
  (forall key,
     key <> clusterCRNameLabel -> key <> "operator.kyma-project.io/managed-by" ->
     sLabels secret !! key = cLabels cluster !! key).
Proof.
  intros secret. subst secret. unfold newSecret, matchingLabels. simpl.
  split; [by rewrite lookup_insert_eq, bool_decide_eq_true|].
  split; [by rewrite lookup_insert_ne, lookup_insert_eq|].
  split.
  - intros value. rewrite bool_decide_eq_true.
    by rewrite !lookup_insert_ne.
  - intros key Hne1 Hne2. by rewrite !lookup_insert_ne.
Qed.

End ReconcilerPaths.

(** ** The GardenerCluster controller: one reconcile after another *)

Section ReconcilerSequences.

Import controller.

Context (env : Env) (ctl : GardenerClusterController) `{TimeLayout} `{ConditionMethods}.

Implicit Types (w : World) (cluster : GardenerCluster) (s : Secret).

Ltac flatten_worlds :=
  unfold traced, setSecrets, setClusters, whenHandled in *; simpl in *;
  rewrite <- ?app_assoc; simpl.

Lemma filter_Permutation {A : Type} (f : A -> bool) (l1 l2 : list A) :
  l1 ≡ₚ l2 -> List.filter f l1 ≡ₚ List.filter f l2.
Proof.
  induction 1 as [|x l1 l2 _ IH|x y l|l1 l2 l3 _ IH1 _ IH2]; simpl.
  - done.
  - destruct (f x); [by constructor | done].
  - destruct (f x), (f y); try done. by constructor.
  - by etransitivity.
Qed.

(** What a selector finds once a secret has been stored under a free
    name. *)
Lemma matchingSecrets_insert_fresh w1 w k s label value :
  wSecrets w1 = <[k := s]> (wSecrets w) -> wSecrets w !! k = None ->
  matchingSecrets w1 label value ≡ₚ
    (if matchingLabels label value s then [s] else []) ++ matchingSecrets w label value.
Proof.
  intros Hstores Hfree. unfold matchingSecrets. rewrite Hstores.
  rewrite (filter_Permutation _ _ _
             (fmap_Permutation snd _ _ (map_to_list_insert (wSecrets w) k s Hfree))).
  simpl. by destruct (matchingLabels label value s).
Qed.

(** What a selector finds once the one secret it found has been stored
    again with the same labels. *)
Lemma matchingSecrets_replace w1 w k s0 s label value :
  wSecrets w !! k = Some s0 -> wSecrets w1 = <[k := s]> (wSecrets w) ->
  sLabels s = sLabels s0 ->
  matchingSecrets w label value = [s0] -> matchingSecrets w1 label value = [s].
Proof.
  intros Hstored Hstores Hlabels Hone.
  set (rest := setSecrets w (delete k (wSecrets w))).
  assert (Hfree : wSecrets rest !! k = None) by apply lookup_delete_eq.
  assert (Hsame : matchingLabels label value s = matchingLabels label value s0).
  { unfold matchingLabels. by rewrite Hlabels. }
  pose proof (matchingSecrets_insert_fresh w rest k s0 label value) as Hold.
  rewrite Hone in Hold.
  specialize (Hold (eq_sym (insert_delete_id (wSecrets w) k s0 Hstored)) Hfree).
  pose proof (matchingSecrets_insert_fresh w1 rest k s label value) as Hnew.
  rewrite Hsame in Hnew.
  assert (Hstores' : wSecrets w1 = <[k := s]> (wSecrets rest)).
  { rewrite Hstores. simpl. by rewrite insert_delete_eq. }
  specialize (Hnew Hstores' Hfree).
  destruct (matchingLabels label value s0) eqn:Hmatch.
  - simpl in Hold. apply Permutation_cons_inv, Permutation_nil_l in Hold.
    rewrite <- Hold in Hnew. simpl in Hnew.
    by apply Permutation_singleton_r in Hnew.
  - simpl in Hold. apply Permutation_singleton_l in Hold.
    assert (Hin : s0 ∈ matchingSecrets rest label value).
    { rewrite <- Hold. by apply list_elem_of_singleton. }
    unfold matchingSecrets in Hin.
    apply list_elem_of_In, filter_In in Hin as [_ Hin]. congruence.
Qed.

(** The forced rotation of the secret [s], as one run. *)
Lemma Reconcile_forced_run (req : Request) cluster s w :
  (forall n, eFault env n = None) ->
  wellKeyed w ->
  wClusters w !! (reqNamespace req, reqName req) = Some cluster ->
  is_Some (cAnnotations cluster !! forceKubeconfigRotationAnnotation) ->
  matchingSecrets w shootNameLabel (cShootName cluster) = [s] ->
  snd (Fetch ctl (cShootName cluster)) = None ->
  Reconcile env ctl req w =
    ((resultWithRequeue ctl, None),
     mkWorld (<[secretKey s := withoutKubeconfig cluster s]> (wSecrets w))
       (<[(reqNamespace req, reqName req) := withoutForceRotation cluster]> (wClusters w))
       (wTrace w ++ [CallGet (reqNamespace req) (reqName req);
                     CallList shootNameLabel (cShootName cluster);
                     CallFetch (cShootName cluster);
                     CallUpdate (withoutKubeconfig cluster s);
                     CallGet (cNamespace cluster) (cName cluster);
                     CallUpdateCluster (withoutForceRotation cluster)])
       (S (wTicks w))).
Proof.
  intros Hcalm Hkeys Hstored Hforced Hone Hfetch.
  apply secretRotationForced_is_Some in Hforced.
  assert (Hkey : (cNamespace cluster, cName cluster) = (reqNamespace req, reqName req)).
  { destruct Hkeys as [_ Hk]. apply (Hk _ _ Hstored). }
  assert (Hs : wSecrets w !! secretKey s = Some s).
  { apply (stored_secret w shootNameLabel (cShootName cluster)); [done|].
    rewrite Hone. by apply list_elem_of_singleton. }
  assert (Hhandle :
    handleKubeconfig env ctl cluster (eClock env (wTicks w)) (whenHandled req w) =
    ((cluster, ksRotated, None),
     mkWorld (<[secretKey s := withoutKubeconfig cluster s]> (wSecrets w)) (wClusters w)
       (wTrace (whenHandled req w)
          ++ [CallList shootNameLabel (cShootName cluster);
              CallFetch (cShootName cluster);
              CallUpdate (withoutKubeconfig cluster s)])
       (wTicks (whenHandled req w)))).
  { unfold handleKubeconfig, bind. rewrite getSecret_run, Hcalm.
    change (matchingSecrets (whenHandled req w) shootNameLabel (cShootName cluster))
      with (matchingSecrets w shootNameLabel (cShootName cluster)).
    rewrite Hone. simpl. unfold KubeconfigProvider_Fetch. rewrite Hfetch, Hforced.
    cbv beta iota zeta delta [removeKubeconfig client_Update bind ret call].
    rewrite Hcalm. simpl.
    change (secretKey (withoutKubeconfig cluster s)) with (secretKey s).
    rewrite Hs. by flatten_worlds. }
  cbv beta iota zeta delta [Reconcile bind ret client_Get call Now].
  rewrite Hcalm. simpl. rewrite Hstored. unfold traced. simpl.
  change (mkWorld (wSecrets w) (wClusters w) _ (S (wTicks w))) with (whenHandled req w).
  rewrite Hhandle. simpl.
  cbv beta iota zeta delta
    [removeForceRotationAnnotation bind ret client_Get client_UpdateCluster call].
  rewrite Hforced, Hcalm. simpl. injection Hkey as Hns Hname.
  rewrite Hns, Hname, Hstored, Hcalm. simpl.
  unfold clusterKey. simpl. rewrite Hns, Hname, Hstored. simpl.
  by flatten_worlds.
Qed.

(** The cleanup after the GardenerCluster is gone, as one run. *)
Lemma Reconcile_cleanup_run (req : Request) s w :
  (forall n, eFault env n = None) ->
  wClusters w !! (reqNamespace req, reqName req) = None ->
  matchingSecrets w clusterCRNameLabel (reqName req) = [s] ->
  wSecrets w !! secretKey s = Some s ->
  Reconcile env ctl req w =
    ((resultWithoutRequeue, None),
     mkWorld (delete (secretKey s) (wSecrets w)) (wClusters w)
       (wTrace w ++ [CallGet (reqNamespace req) (reqName req);
                     CallList clusterCRNameLabel (reqName req);
                     CallDelete s])
       (wTicks w)).
Proof.
  intros Hcalm Hgone Hone Hs.
  cbv beta iota zeta delta
    [Reconcile deleteKubeconfigSecret bind ret client_Get client_List client_Delete call].
  rewrite Hcalm. simpl. rewrite Hgone. simpl. rewrite Hcalm. simpl.
  change (matchingSecrets _ clusterCRNameLabel (reqName req))
    with (matchingSecrets w clusterCRNameLabel (reqName req)).
  rewrite Hone. simpl. rewrite Hcalm. simpl. rewrite Hs. by flatten_worlds.
Qed.

(** A reconcile that finds nothing to do, as one run. *)
Lemma Reconcile_steady_run (req : Request) cluster s w :
  (forall n, eFault env n = None) ->
  wClusters w !! (reqNamespace req, reqName req) = Some cluster ->
  cAnnotations cluster !! forceKubeconfigRotationAnnotation = None ->
  matchingSecrets w shootNameLabel (cShootName cluster) = [s] ->
  snd (Fetch ctl (cShootName cluster)) = None ->
  fst (secretNeedsToBeRotated env cluster (Some s) (rotationPeriod ctl)
         (whenHandled req w)) = false ->
  Reconcile env ctl req w =
    ((resultWithRequeue ctl, None),
     mkWorld (wSecrets w) (wClusters w)
       (wTrace w ++ [CallGet (reqNamespace req) (reqName req);
                     CallList shootNameLabel (cShootName cluster);
                     CallFetch (cShootName cluster)])
       (S (S (wTicks w)))).
Proof.
  intros Hcalm Hstored Hnotforced Hone Hfetch Hnotdue.
  assert (Hforced : secretRotationForced cluster = false).
  { unfold secretRotationForced. by rewrite Hnotforced. }
  assert (Hhandle :
    handleKubeconfig env ctl cluster (eClock env (wTicks w)) (whenHandled req w) =
    ((cluster, ksZero, None),
     mkWorld (wSecrets w) (wClusters w)
       (wTrace (whenHandled req w)
          ++ [CallList shootNameLabel (cShootName cluster);
              CallFetch (cShootName cluster)])
       (S (wTicks (whenHandled req w))))).
  { unfold handleKubeconfig, bind. rewrite getSecret_run, Hcalm.
    change (matchingSecrets (whenHandled req w) shootNameLabel (cShootName cluster))
      with (matchingSecrets w shootNameLabel (cShootName cluster)).
    rewrite Hone. simpl. unfold KubeconfigProvider_Fetch. rewrite Hfetch, Hforced.
    rewrite (secretNeedsToBeRotated_run env cluster (Some s) _ (whenHandled req w)
               (traced (traced (whenHandled req w) _) _) eq_refl Hnotdue).
    simpl. unfold ret. by flatten_worlds. }
  cbv beta iota zeta delta [Reconcile bind ret client_Get call Now].
  rewrite Hcalm. simpl. rewrite Hstored. unfold traced. simpl.
  change (mkWorld (wSecrets w) (wClusters w) _ (S (wTicks w))) with (whenHandled req w).
  rewrite Hhandle. simpl. by flatten_worlds.
Qed.

(** X21: what the controller creates, the cleanup removes.  The first
    reconcile of a GardenerCluster creates its secret, as in X16, and no
    other secret carries the cluster-name label with its name.  When the
    GardenerCluster is then deleted, the next reconcile of the same request
    finds exactly the created secret by that label and deletes it: it returns
    without an error, and the stored secrets are again what they were before
    the first reconcile. *)
Theorem Reconcile_create_then_cleanup (req : Request) cluster w :
  (forall n, eFault env n = None) ->
  wellKeyed w ->
  wClusters w !! (reqNamespace req, reqName req) = Some cluster ->
  cAnnotations cluster !! forceKubeconfigRotationAnnotation = None ->
  matchingSecrets w shootNameLabel (cShootName cluster) = [] ->
  snd (Fetch ctl (cShootName cluster)) = None ->
  wSecrets w !! (refNamespace (cSecret cluster), refName (cSecret cluster)) = None ->
  matchingSecrets w clusterCRNameLabel (reqName req) = [] ->
  let secret :=
    newSecret cluster (fst (Fetch ctl (cShootName cluster))) (eClock env (wTicks w)) in
  let w1 := snd (Reconcile env ctl req w) in
  let w2 := setClusters w1 (delete (reqNamespace req, reqName req) (wClusters w1)) in
  let r := Reconcile env ctl req w2 in
  wSecrets w1 !! secretKey secret = Some secret /\
  fst r = (resultWithoutRequeue, None) /\
  wSecrets (snd r) = wSecrets w /\
  wTrace (snd r) =
    wTrace w1 ++ [CallGet (reqNamespace req) (reqName req);
                  CallList clusterCRNameLabel (reqName req);
                  CallDelete secret].
Proof.
  intros Hcalm Hkeys Hstored Hnotforced Hnone Hfetch Hfree Hunlabelled secret w1 w2 r.
  assert (Hname : cName cluster = reqName req).
  { destruct Hkeys as [_ Hk]. specialize (Hk _ _ Hstored). by injection Hk. }
  destruct (Reconcile_create_run env ctl req cluster w Hcalm Hstored Hnotforced Hnone Hfetch)
    as [ticks Hrun].
  cbv zeta in Hrun. fold secret in Hrun.
  change (secretKey secret)
    with (refNamespace (cSecret cluster), refName (cSecret cluster)) in Hrun.
  rewrite Hfree in Hrun.
  assert (Hsecrets : wSecrets w1
    = <[(refNamespace (cSecret cluster), refName (cSecret cluster)) := secret]> (wSecrets w)).
  { subst w1. rewrite Hrun. cbn [snd].
    match goal with
    | |- context [client_StatusUpdate env ?c ?w0] =>
        by destruct (client_StatusUpdate_effect env c w0) as [_ ->]
    end. }
  assert (Hin : wSecrets w2 !! secretKey secret = Some secret).
  { change (wSecrets w2) with (wSecrets w1). rewrite Hsecrets. apply lookup_insert_eq. }
  assert (Hone : matchingSecrets w2 clusterCRNameLabel (reqName req) = [secret]).
  { pose proof (matchingSecrets_insert_fresh w2 w _ secret clusterCRNameLabel (reqName req)
                  Hsecrets Hfree) as Hperm.
    rewrite Hunlabelled, app_nil_r in Hperm.
    assert (Hmatch : matchingLabels clusterCRNameLabel (reqName req) secret = true).
    { unfold matchingLabels, secret, newSecret. simpl.
      by rewrite lookup_insert_eq, Hname, bool_decide_eq_true. }
    rewrite Hmatch in Hperm. by apply Permutation_singleton_r in Hperm. }
  assert (Hgone : wClusters w2 !! (reqNamespace req, reqName req) = None)
    by apply lookup_delete_eq.
  split; [exact Hin|].
  subst r. rewrite (Reconcile_cleanup_run req secret w2 Hcalm Hgone Hone Hin).
  cbn [fst snd]. split; [done|]. split; [|done].
  change (wSecrets w2) with (wSecrets w1). rewrite Hsecrets.
  by apply delete_insert_id.
Qed.

(** X22: a forced rotation is completed by the next reconcile.  The first
    reconcile, with the forced-rotation annotation, strips the one secret
    [s] and removes the annotation, as in C4, and asks for a requeue.  The
    next reconcile of the same request then finds the stripped secret, takes
    it as due without reading the clock against an annotation, because there
    is none left, and writes the fetched kubeconfig and a fresh last-sync
    annotation into it: the secret is stored under its old name with the new
    kubeconfig, and the second reconcile returns without an error and
    without asking for a requeue. *)
Theorem Reconcile_forced_then_renewed (req : Request) cluster s w :
  (forall n, eFault env n = None) ->
  wellKeyed w ->
  wClusters w !! (reqNamespace req, reqName req) = Some cluster ->
  is_Some (cAnnotations cluster !! forceKubeconfigRotationAnnotation) ->
  matchingSecrets w shootNameLabel (cShootName cluster) = [s] ->
  snd (Fetch ctl (cShootName cluster)) = None ->
  let kubeconfig := fst (Fetch ctl (cShootName cluster)) in
  let first := Reconcile env ctl req w in
  let w1 := snd first in
  let second := Reconcile env ctl req w1 in
  let renewed :=
    withKubeconfig kubeconfig (withoutForceRotation cluster) (withoutKubeconfig cluster s)
      (eClock env (wTicks w1)) in
  fst first = (resultWithRequeue ctl, None) /\
  fst second = (resultWithoutRequeue, None) /\
  wSecrets (snd second) = <[secretKey s := renewed]> (wSecrets w) /\
  sData renewed !! refKey (cSecret cluster) = Some (String.list_byte_of_string kubeconfig) /\
  sAnnotations renewed !! lastKubeconfigSyncAnnotation
    = Some (formatRFC3339 (eClock env (wTicks w1))) /\
  (forall k, k <> refKey (cSecret cluster) -> sData renewed !! k = sData s !! k) /\
  sLabels renewed = sLabels s /\
  exists calls,
    wTrace (snd second) = wTrace w1 ++ calls /\
    take 4 calls = [CallGet (reqNamespace req) (reqName req);
                    CallList shootNameLabel (cShootName cluster);
                    CallFetch (cShootName cluster);
                    CallUpdate renewed].
Proof.
  intros Hcalm Hkeys Hstored Hforced Hone Hfetch kubeconfig first w1 second renewed.
  assert (Hs : wSecrets w !! secretKey s = Some s).
  { apply (stored_secret w shootNameLabel (cShootName cluster)); [done|].
    rewrite Hone. by apply list_elem_of_singleton. }
  pose proof (Reconcile_forced_run req cluster s w Hcalm Hkeys Hstored Hforced Hone Hfetch)
    as Hfirst.
  fold first in Hfirst.
  assert (Hw1 : w1 = snd first) by done. rewrite Hfirst in Hw1. cbn [snd] in Hw1.
  set (stripped := withoutKubeconfig cluster s) in *.
  set (cluster1 := withoutForceRotation cluster) in *.
  assert (Hstored1 : wClusters w1 !! (reqNamespace req, reqName req) = Some cluster1).
  { rewrite Hw1. apply lookup_insert_eq. }
  assert (Hplain : cAnnotations cluster1 !! forceKubeconfigRotationAnnotation = None)
    by apply lookup_delete_eq.
  assert (Hone1 : matchingSecrets w1 shootNameLabel (cShootName cluster1) = [stripped]).
  { apply (matchingSecrets_replace w1 w (secretKey s) s stripped); try done.
    by rewrite Hw1. }
  assert (Hs1 : wSecrets w1 !! secretKey stripped = Some stripped).
  { rewrite Hw1. apply lookup_insert_eq. }
  assert (Hdue : fst (secretNeedsToBeRotated env cluster1 (Some stripped) (rotationPeriod ctl)
                        (whenHandled req w1)) = true).
  { unfold secretNeedsToBeRotated, bind, ret. rewrite secretRotationTimePassed_run.
    unfold stripped, withoutKubeconfig. simpl. by rewrite lookup_delete_eq. }
  destruct (Reconcile_renew_run env ctl req cluster1 stripped w1 Hcalm Hstored1 Hplain
              Hone1 Hs1 Hfetch Hdue) as [ticks Hsecond].
  fold second in Hsecond. cbv zeta in Hsecond.
  change (withKubeconfig _ cluster1 stripped (eClock env (wTicks w1))) with renewed
    in Hsecond.
  split; [by rewrite Hfirst|].
  rewrite Hsecond. cbn [fst snd].
  match goal with
  | |- context [client_StatusUpdate env ?c ?w0] =>
      destruct (client_StatusUpdate_effect env c w0) as [-> ->]
  end.
  cbn [wSecrets wTrace].
  split; [done|].
  split.
  { rewrite Hw1. cbn [wSecrets]. change (secretKey stripped) with (secretKey s).
    apply insert_insert_eq. }
  split; [by apply lookup_insert_eq|]. split; [by apply lookup_insert_eq|].
  split.
  { intros k Hk. unfold renewed, withKubeconfig, stripped, withoutKubeconfig. simpl.
    by rewrite lookup_insert_ne, lookup_delete_ne. }
  split; [done|].
  eexists. split; [by rewrite <- app_assoc|]. done.
Qed.

(** The first reconcile of X16, and what the world is like after it. *)
Lemma Reconcile_create_after (req : Request) cluster w :
  (forall n, eFault env n = None) ->
  wClusters w !! (reqNamespace req, reqName req) = Some cluster ->
  cAnnotations cluster !! forceKubeconfigRotationAnnotation = None ->
  matchingSecrets w shootNameLabel (cShootName cluster) = [] ->
  snd (Fetch ctl (cShootName cluster)) = None ->
  wSecrets w !! (refNamespace (cSecret cluster), refName (cSecret cluster)) = None ->
  let secret :=
    newSecret cluster (fst (Fetch ctl (cShootName cluster))) (eClock env (wTicks w)) in
  let w1 := snd (Reconcile env ctl req w) in
  wSecrets w1
    = <[(refNamespace (cSecret cluster), refName (cSecret cluster)) := secret]> (wSecrets w) /\
  exists cluster1,
    wClusters w1 !! (reqNamespace req, reqName req) = Some cluster1 /\
    cAnnotations cluster1 = cAnnotations cluster /\
    cLabels cluster1 = cLabels cluster /\
    cShootName cluster1 = cShootName cluster /\
    cSecret cluster1 = cSecret cluster.
Proof.
  intros Hcalm Hstored Hnotforced Hnone Hfetch Hfree secret w1.
  destruct (Reconcile_create_run env ctl req cluster w Hcalm Hstored Hnotforced Hnone Hfetch)
    as [ticks Hrun].
  cbv zeta in Hrun. fold secret in Hrun.
  change (secretKey secret)
    with (refNamespace (cSecret cluster), refName (cSecret cluster)) in Hrun.
  rewrite Hfree in Hrun. subst w1. rewrite Hrun. cbn [snd].
  match goal with
  | |- context [client_StatusUpdate env ?c ?w0] =>
      destruct (client_StatusUpdate_keeps env c w0 (reqNamespace req, reqName req) cluster)
        as (cluster1 & Hafter & _ & _ & Hlabels & Hannotations & Hshoot & Href); [done|];
      destruct (client_StatusUpdate_effect env c w0) as [_ ->]
  end.
  split; [done|]. by exists cluster1.
Qed.

(** X23: a GardenerCluster without the shoot-name label gets its secret
    once and an error ever after.  The first reconcile creates the secret, as
    in X16, with the labels of the GardenerCluster.  If these do not include
    the shoot-name label with the name of the shoot, the lookup of the next
    reconcile does not find the secret just created: the reconcile tries to
    create it again, is refused because the name is taken, and returns the
    already-exists error, leaving the stored secrets as the first reconcile
    left them. *)
Theorem Reconcile_unlabelled_cluster (req : Request) cluster w :
  (forall n, eFault env n = None) ->
  wClusters w !! (reqNamespace req, reqName req) = Some cluster ->
  cAnnotations cluster !! forceKubeconfigRotationAnnotation = None ->
  cLabels cluster !! shootNameLabel <> Some (cShootName cluster) ->
  matchingSecrets w shootNameLabel (cShootName cluster) = [] ->
  snd (Fetch ctl (cShootName cluster)) = None ->
  wSecrets w !! (refNamespace (cSecret cluster), refName (cSecret cluster)) = None ->
  let first := Reconcile env ctl req w in
  let w1 := snd first in
  let second := Reconcile env ctl req w1 in
  fst first = (resultWithoutRequeue, None) /\
  is_Some (wSecrets w1 !! (refNamespace (cSecret cluster), refName (cSecret cluster))) /\
  fst second = (resultWithoutRequeue, Some (NewAlreadyExists (refName (cSecret cluster)))) /\
  wSecrets (snd second) = wSecrets w1.
Proof.
  intros Hcalm Hstored Hnotforced Hunlabelled Hnone Hfetch Hfree first w1 second.
  destruct (Reconcile_create_after req cluster w Hcalm Hstored Hnotforced Hnone Hfetch Hfree)
    as (Hsecrets & cluster1 & Hstored1 & Hannotations & Hlabels & Hshoot & Href).
  fold first w1 in Hsecrets, Hstored1.
  set (secret := newSecret cluster (fst (Fetch ctl (cShootName cluster)))
                   (eClock env (wTicks w))) in *.
  split.
  { destruct (Reconcile_create_run env ctl req cluster w Hcalm Hstored Hnotforced Hnone
                Hfetch) as [ticks Hrun].
    cbv zeta in Hrun. fold secret in Hrun.
    change (secretKey secret)
      with (refNamespace (cSecret cluster), refName (cSecret cluster)) in Hrun.
    rewrite Hfree in Hrun. subst first. by rewrite Hrun. }
  split; [rewrite Hsecrets, lookup_insert_eq; by eexists|].
  assert (Hnone1 : matchingSecrets w1 shootNameLabel (cShootName cluster1) = []).
  { pose proof (matchingSecrets_insert_fresh w1 w _ secret shootNameLabel
                  (cShootName cluster1) Hsecrets Hfree) as Hperm.
    rewrite Hshoot, Hnone, app_nil_r in Hperm.
    assert (Hmatch : matchingLabels shootNameLabel (cShootName cluster) secret = false).
    { unfold matchingLabels, secret, newSecret. simpl.
      rewrite !lookup_insert_ne by done. by apply bool_decide_eq_false. }
    rewrite Hmatch in Hperm. rewrite Hshoot. by apply Permutation_nil_r in Hperm. }
  assert (Hplain1 : cAnnotations cluster1 !! forceKubeconfigRotationAnnotation = None)
    by (by rewrite Hannotations).
  assert (Hfetch1 : snd (Fetch ctl (cShootName cluster1)) = None) by (by rewrite Hshoot).
  destruct (Reconcile_create_run env ctl req cluster1 w1 Hcalm Hstored1 Hplain1 Hnone1
              Hfetch1) as [ticks Hrun].
  cbv zeta in Hrun.
  set (secret1 := newSecret cluster1 _ _) in Hrun.
  change (secretKey secret1)
    with (refNamespace (cSecret cluster1), refName (cSecret cluster1)) in Hrun.
  change (sName secret1) with (refName (cSecret cluster1)) in Hrun.
  rewrite Href, Hsecrets, lookup_insert_eq in Hrun.
  subst second. rewrite Hrun. cbn [fst snd].
  match goal with
  | |- context [client_StatusUpdate env ?c ?w0] =>
      destruct (client_StatusUpdate_effect env c w0) as [_ ->]
  end.
  split; [done|]. by rewrite <- Hsecrets.
Qed.

(** X24: a secret just created is left alone by the next reconcile.  The
    first reconcile creates the secret, as in X16, for a GardenerCluster that
    carries the shoot-name label with the name of its shoot.  The last-sync
    annotation it writes can be read back as the instant [t], and at the
    clock reading of the next reconcile's decision the time since [t] is
    below the threshold.  Then the next reconcile finds the created secret,
    decides that the rotation is not due, writes nothing and asks to be
    requeued after the rotation period. *)
Theorem Reconcile_created_then_steady (req : Request) cluster w (t : Time) :
  (forall n, eFault env n = None) ->
  wClusters w !! (reqNamespace req, reqName req) = Some cluster ->
  cAnnotations cluster !! forceKubeconfigRotationAnnotation = None ->
  cLabels cluster !! shootNameLabel = Some (cShootName cluster) ->
  matchingSecrets w shootNameLabel (cShootName cluster) = [] ->
  snd (Fetch ctl (cShootName cluster)) = None ->
  wSecrets w !! (refNamespace (cSecret cluster), refName (cSecret cluster)) = None ->
  let first := Reconcile env ctl req w in
  let w1 := snd first in
  let second := Reconcile env ctl req w1 in
  parseRFC3339 (formatRFC3339 (eClock env (wTicks w))) = Some t ->
  thresholdReached (rotationPeriod ctl) (Sub (eClock env (S (wTicks w1))) t) = false ->
  fst first = (resultWithoutRequeue, None) /\
  fst second = (resultWithRequeue ctl, None) /\
  wSecrets (snd second) = wSecrets w1 /\
  wTrace (snd second) =
    wTrace w1 ++ [CallGet (reqNamespace req) (reqName req);
                  CallList shootNameLabel (cShootName cluster);
                  CallFetch (cShootName cluster)].
Proof.
  intros Hcalm Hstored Hnotforced Hlabelled Hnone Hfetch Hfree first w1 second Hparse Hbelow.
  destruct (Reconcile_create_after req cluster w Hcalm Hstored Hnotforced Hnone Hfetch Hfree)
    as (Hsecrets & cluster1 & Hstored1 & Hannotations & Hlabels & Hshoot & Href).
  fold first w1 in Hsecrets, Hstored1.
  set (secret := newSecret cluster (fst (Fetch ctl (cShootName cluster)))
                   (eClock env (wTicks w))) in *.
  split.
  { destruct (Reconcile_create_run env ctl req cluster w Hcalm Hstored Hnotforced Hnone
                Hfetch) as [ticks Hrun].
    cbv zeta in Hrun. fold secret in Hrun.
    change (secretKey secret)
      with (refNamespace (cSecret cluster), refName (cSecret cluster)) in Hrun.
    rewrite Hfree in Hrun. subst first. by rewrite Hrun. }
  assert (Hone1 : matchingSecrets w1 shootNameLabel (cShootName cluster1) = [secret]).
  { pose proof (matchingSecrets_insert_fresh w1 w _ secret shootNameLabel
                  (cShootName cluster1) Hsecrets Hfree) as Hperm.
    rewrite Hshoot, Hnone, app_nil_r in Hperm.
    assert (Hmatch : matchingLabels shootNameLabel (cShootName cluster) secret = true).
    { unfold matchingLabels, secret, newSecret. simpl.
      rewrite !lookup_insert_ne by done. by apply bool_decide_eq_true. }
    rewrite Hmatch in Hperm. rewrite Hshoot. by apply Permutation_singleton_r in Hperm. }
  assert (Hplain1 : cAnnotations cluster1 !! forceKubeconfigRotationAnnotation = None)
    by (by rewrite Hannotations).
  assert (Hfetch1 : snd (Fetch ctl (cShootName cluster1)) = None) by (by rewrite Hshoot).
  assert (Hnotdue : fst (secretNeedsToBeRotated env cluster1 (Some secret) (rotationPeriod ctl)
                           (whenHandled req w1)) = false).
  { unfold secretNeedsToBeRotated, bind, ret. rewrite secretRotationTimePassed_run.
    unfold secret at 1, newSecret. cbn [sAnnotations].
    rewrite lookup_singleton_eq, Hparse. cbn [fst wTicks whenHandled].
    rewrite Hbelow. unfold secretRotationForced. by rewrite Hplain1. }
  subst second.
  rewrite (Reconcile_steady_run req cluster1 secret w1 Hcalm Hstored1 Hplain1 Hone1 Hfetch1
             Hnotdue).
  cbn [fst snd wSecrets wTrace]. by rewrite Hshoot.
Qed.

End ReconcilerSequences.

(** ** The GardenerCluster controller: what holds of every reconcile *)

Section ReconcilerInvariants.

Import controller.

Context (env : Env) (ctl : GardenerClusterController) `{TimeLayout} `{ConditionMethods}.

Implicit Types (w : World) (cluster : GardenerCluster) (s : Secret).

(** X25: a requeue is asked for only when nothing failed.  Whatever the
    API server, the provider and the clock do, [Reconcile] returns one of
    two results: the empty one, or the one asking for a requeue after the
    rotation period, and the latter only together with no error. *)
Theorem Reconcile_result (req : Request) w :
  let r := fst (Reconcile env ctl req w) in
  (fst r = resultWithoutRequeue \/ fst r = resultWithRequeue ctl /\ snd r = None) /\
  (Requeue (fst r) = true -> RequeueAfter (fst r) = rotationPeriod ctl /\ snd r = None) /\
  (snd r <> None -> Requeue (fst r) = false /\ RequeueAfter (fst r) = 0).
Proof.
  assert (Hcases :
    let r := fst (Reconcile env ctl req w) in
    fst r = resultWithoutRequeue \/ fst r = resultWithRequeue ctl /\ snd r = None).
  { unfold Reconcile, bind, ret.
    destruct (client_Get env (reqNamespace req) (reqName req) w) as [[err|cluster] w0].
    - destruct (IsNotFound err); [|by left].
      destruct (deleteKubeconfigSecret env (reqName req) w0). by left.
    - destruct (Now env w0) as [lastSyncTime w1].
      destruct (handleKubeconfig env ctl cluster lastSyncTime w1)
        as [[[cluster' status] [err|]] w2]; cbn [fst snd].
      + destruct (persistStatusChange env cluster' w2). by left.
      + destruct status; simpl.
        * by right.
        * destruct (persistStatusChange env cluster' w2). by left.
        * destruct (persistStatusChange env cluster' w2). by left.
        * destruct (removeForceRotationAnnotation env cluster' w2) as [[e|] w3];
            simpl; [by left | by right]. }
  intros r. split; [exact Hcases|].
  destruct Hcases as [Hr | [Hr Herr]]; fold r in Hr; try fold r in Herr;
    rewrite Hr; simpl; by split.
Qed.

Lemma clustersKept_refl (m : gmap (string * string) GardenerCluster) : clustersKept m m.
Proof.
  intros k. destruct (m !! k) as [c|]; [|done].
  repeat split; by left.
Qed.

Lemma clustersKept_trans (m1 m2 m3 : gmap (string * string) GardenerCluster) :
  clustersKept m1 m2 -> clustersKept m2 m3 -> clustersKept m1 m3.
Proof.
  intros H12 H23 k. specialize (H12 k). specialize (H23 k).
  destruct (m1 !! k) as [c1|], (m2 !! k) as [c2|], (m3 !! k) as [c3|]; try done.
  destruct H12 as (Hn & Hns & Hl & Hsh & Hr & Ha).
  destruct H23 as (Hn' & Hns' & Hl' & Hsh' & Hr' & Ha').
  repeat split; try congruence.
  destruct Ha as [Ha | Ha], Ha' as [Ha' | Ha']; rewrite Ha', Ha; auto.
  right. apply delete_delete_eq.
Qed.

Lemma footprint_ret {A : Type} (P : Call -> Prop) (a : A) : footprint P 0 (ret a).
Proof.
  intros w. exists []. simpl. rewrite app_nil_r.
  repeat split; [constructor | done | done | apply clustersKept_refl].
Qed.

Lemma footprint_weaken {A : Type} (P Q : Call -> Prop) (n m : nat) (c : M A) :
  (forall x, P x -> Q x) -> (n <= m)%nat -> footprint P n c -> footprint Q m c.
Proof.
  intros HPQ Hnm Hc w. destruct (Hc w) as (calls & Htrace & HP & Hlen & Hframe & Hkept).
  exists calls. repeat split; try done.
  - by apply (Forall_impl P Q).
  - lia.
  - by apply Hkept.
  - by apply Hkept.
Qed.

Lemma footprint_bind {A B : Type} (P : Call -> Prop) (n1 n2 : nat) (c : M A) (f : A -> M B) :
  footprint P n1 c -> (forall a, footprint P n2 (f a)) ->
  footprint P (n1 + n2) (bind c f).
Proof.
  intros Hc Hf w. unfold bind.
  destruct (Hc w) as (calls1 & Htrace1 & HP1 & Hlen1 & Hframe1 & Hkept1).
  destruct (c w) as [a w1]. simpl in *.
  destruct (Hf a w1) as (calls2 & Htrace2 & HP2 & Hlen2 & Hframe2 & Hkept2).
  exists (calls1 ++ calls2).
  split; [by rewrite Htrace2, Htrace1, app_assoc|].
  split; [by apply Forall_app|].
  rewrite omap_app. split; [rewrite length_app; lia|].
  split.
  - intros k Hk. rewrite not_elem_of_app in Hk. destruct Hk as [Hk1 Hk2].
    by rewrite Hframe2, Hframe1.
  - intros Hkeys. destruct (Hkept1 Hkeys) as [Hkeys1 H01].
    destruct (Hkept2 Hkeys1) as [Hkeys2 H12].
    split; [done|]. by apply (clustersKept_trans _ (wClusters w1)).
Qed.

(** A call that leaves the stores alone. *)
Lemma footprint_reads {A : Type} (P : Call -> Prop) (c : Call) (m : M A) :
  P c -> writtenKey c = None ->
  (forall w, snd (m w) = traced w c) ->
  footprint P 0 m.
Proof.
  intros HP Hkey Hm w. exists [c]. rewrite Hm. simpl. rewrite Hkey.
  repeat split; [by constructor | done | done | apply clustersKept_refl].
Qed.

Lemma footprint_Get (P : Call -> Prop) (namespace name : string) :
  P (CallGet namespace name) -> footprint P 0 (client_Get env namespace name).
Proof.
  intros HP. apply (footprint_reads P (CallGet namespace name)); [done..|].
  intros w. cbv beta iota zeta delta [client_Get bind ret call].
  destruct (eFault env (length (wTrace w))); [done|]. simpl.
  by destruct (wClusters w !! (namespace, name)).
Qed.

Lemma footprint_List (P : Call -> Prop) (label value : string) :
  P (CallList label value) -> footprint P 0 (client_List env label value).
Proof.
  intros HP. apply (footprint_reads P (CallList label value)); [done..|].
  intros w. cbv beta iota zeta delta [client_List bind ret call].
  by destruct (eFault env (length (wTrace w))).
Qed.

Lemma footprint_Fetch (P : Call -> Prop) (shootName : string) :
  P (CallFetch shootName) -> footprint P 0 (KubeconfigProvider_Fetch ctl shootName).
Proof.
  intros HP. by apply (footprint_reads P (CallFetch shootName)).
Qed.

Lemma footprint_Now (P : Call -> Prop) : footprint P 0 (Now env).
Proof.
  intros w. exists []. simpl. rewrite app_nil_r.
  repeat split; [constructor | done | done | apply clustersKept_refl].
Qed.

(** A call that writes the secret [s], if it writes at all. *)
Lemma footprint_writes (P : Call -> Prop) (c : Call) s (m : M (option error)) :
  P c -> writtenKey c = Some (secretKey s) ->
  (forall w, wTrace (snd (m w)) = wTrace w ++ [c] /\
             wClusters (snd (m w)) = wClusters w /\
             forall k, k <> secretKey s -> wSecrets (snd (m w)) !! k = wSecrets w !! k) ->
  footprint P 1 m.
Proof.
  intros HP Hkey Hm w. destruct (Hm w) as (Htrace & Hclusters & Hframe).
  exists [c]. simpl. rewrite Hkey, Hclusters. simpl.
  split; [done|]. split; [by constructor|]. split; [done|]. split.
  - intros k Hk. apply Hframe. intros ->. apply Hk. by apply list_elem_of_singleton.
  - intros Hkeys. split; [done | apply clustersKept_refl].
Qed.

Lemma footprint_Create (P : Call -> Prop) s :
  P (CallCreate s) -> footprint P 1 (client_Create env s).
Proof.
  intros HP. apply (footprint_writes P (CallCreate s) s); [done..|].
  intros w. cbv beta iota zeta delta [client_Create bind ret call].
  destruct (eFault env (length (wTrace w))); [done|]. simpl.
  destruct (wSecrets w !! secretKey s); [done|]. simpl.
  repeat split. by intros k Hk; apply lookup_insert_ne.
Qed.

Lemma footprint_Update (P : Call -> Prop) s :
  P (CallUpdate s) -> footprint P 1 (client_Update env s).
Proof.
  intros HP. apply (footprint_writes P (CallUpdate s) s); [done..|].
  intros w. cbv beta iota zeta delta [client_Update bind ret call].
  destruct (eFault env (length (wTrace w))); [done|]. simpl.
  destruct (wSecrets w !! secretKey s); [|done]. simpl.
  repeat split. by intros k Hk; apply lookup_insert_ne.
Qed.

Lemma footprint_Delete (P : Call -> Prop) s :
  P (CallDelete s) -> footprint P 1 (client_Delete env s).
Proof.
  intros HP. apply (footprint_writes P (CallDelete s) s); [done..|].
  intros w. cbv beta iota zeta delta [client_Delete bind ret call].
  destruct (eFault env (length (wTrace w))); [done|]. simpl.
  destruct (wSecrets w !! secretKey s); [|done]. simpl.
  repeat split. by intros k Hk; apply lookup_delete_ne.
Qed.

Lemma footprint_StatusUpdate (P : Call -> Prop) cluster :
  P (CallStatusUpdate cluster) -> footprint P 0 (client_StatusUpdate env cluster).
Proof.
  intros HP w. exists [CallStatusUpdate cluster].
  cbv beta iota zeta delta [client_StatusUpdate bind ret call].
  destruct (eFault env (length (wTrace w))); simpl;
    [repeat split; [by constructor | done | done | apply clustersKept_refl]|].
  destruct (wClusters w !! clusterKey cluster) as [c0|] eqn:Hc0; simpl;
    [|repeat split; [by constructor | done | done | apply clustersKept_refl]].
  split; [done|]. split; [by constructor|]. split; [done|]. split; [done|].
  intros Hkeys. split.
  - apply map_Forall_insert_2; [|done]. apply (Hkeys _ _ Hc0).
  - intros k. destruct (decide (k = clusterKey cluster)) as [->|Hne].
    + rewrite Hc0, lookup_insert_eq. repeat split; by left.
    + rewrite lookup_insert_ne by done. apply clustersKept_refl.
Qed.

Lemma footprint_removeForceRotationAnnotation (P : Call -> Prop) cluster :
  (forall x, handlingCall x -> P x) ->
  footprint P 0 (removeForceRotationAnnotation env cluster).
Proof.
  intros HP w. unfold removeForceRotationAnnotation.
  destruct (secretRotationForced cluster); [|apply (footprint_ret P None w)].
  cbv beta iota zeta delta [client_Get client_UpdateCluster bind ret call].
  destruct (eFault env (length (wTrace w))); simpl.
  { exists [CallGet (cNamespace cluster) (cName cluster)].
    repeat split; [constructor; [by apply HP | constructor] | done | done |
                   apply clustersKept_refl]. }
  destruct (wClusters w !! (cNamespace cluster, cName cluster)) as [c0|] eqn:Hc0; simpl.
  2:{ exists [CallGet (cNamespace cluster) (cName cluster)].
      repeat split; [constructor; [by apply HP | constructor] | done | done |
                     apply clustersKept_refl]. }
  exists [CallGet (cNamespace cluster) (cName cluster);
          CallUpdateCluster (withoutForceRotation c0)].
  assert (HPs : Forall P [CallGet (cNamespace cluster) (cName cluster);
                          CallUpdateCluster (withoutForceRotation c0)]).
  { repeat constructor; by apply HP. }
  destruct (eFault env (length (wTrace w ++ [CallGet (cNamespace cluster) (cName cluster)])));
    simpl.
  { rewrite <- app_assoc.
    repeat split; [done | done | done | apply clustersKept_refl]. }
  destruct (wClusters w !! clusterKey (withoutForceRotation c0)) as [c1|] eqn:Hc1; simpl.
  2:{ rewrite <- app_assoc.
      repeat split; [done | done | done | apply clustersKept_refl]. }
  rewrite <- app_assoc. split; [done|]. split; [done|]. split; [done|]. split; [done|].
  intros Hkeys.
  assert (Hkey : clusterKey (withoutForceRotation c0) = (cNamespace cluster, cName cluster)).
  { apply (Hkeys _ _ Hc0). }
  split.
  - by apply map_Forall_insert_2.
  - intros k. destruct (decide (k = clusterKey (withoutForceRotation c0))) as [->|Hne].
    + rewrite lookup_insert_eq, Hkey, Hc0. repeat split; by right.
    + rewrite lookup_insert_ne by done. apply clustersKept_refl.
Qed.

Ltac footprint_done :=
  first
    [ apply footprint_ret
    | eapply footprint_weaken; [| |apply footprint_ret]; [done|lia] ].

Lemma footprint_deleteKubeconfigSecret (clusterCRName : string) :
  footprint cleanupCall 1 (deleteKubeconfigSecret env clusterCRName).
Proof.
  unfold deleteKubeconfigSecret.
  apply (footprint_bind cleanupCall 0 1); [by apply footprint_List|].
  intros [err|items]; [footprint_done|].
  destruct (bool_decide (length items <> 1%nat)); [footprint_done|].
  destruct items as [|item items]; [footprint_done|].
  by apply footprint_Delete.
Qed.

Lemma footprint_getSecret (shootName : string) :
  footprint handlingCall 0 (getSecret env shootName).
Proof.
  unfold getSecret.
  apply (footprint_bind handlingCall 0 0); [by apply footprint_List|].
  intros [err|items]; [footprint_done|].
  destruct (bool_decide (length items = 0%nat)); [footprint_done|].
  destruct (bool_decide (1 < length items)%nat); footprint_done.
Qed.

Lemma footprint_secretNeedsToBeRotated cluster (secret : option Secret) (period : Duration) :
  footprint handlingCall 0 (secretNeedsToBeRotated env cluster secret period).
Proof.
  unfold secretNeedsToBeRotated.
  apply (footprint_bind handlingCall 0 0); [|intros passed; footprint_done].
  unfold secretRotationTimePassed.
  destruct secret as [s|]; [|footprint_done].
  destruct (sAnnotations s !! lastKubeconfigSyncAnnotation) as [v|]; [|footprint_done].
  destruct (parseRFC3339 v) as [t|]; [|footprint_done].
  apply (footprint_bind handlingCall 0 0); [apply footprint_Now|].
  intros now. footprint_done.
Qed.

Lemma footprint_handleKubeconfig cluster (lastSyncTime : Time) :
  footprint handlingCall 1 (handleKubeconfig env ctl cluster lastSyncTime).
Proof.
  unfold handleKubeconfig.
  apply (footprint_bind handlingCall 0 1); [apply footprint_getSecret|].
  intros [existing err]. cbn [fst snd].
  destruct (unlessNotFound err); [footprint_done|].
  apply (footprint_bind handlingCall 0 1); [by apply footprint_Fetch|].
  intros [kubeconfig fetchErr]. cbn [fst snd].
  destruct fetchErr; [footprint_done|].
  destruct (secretRotationForced cluster).
  - apply (footprint_bind handlingCall 1 0).
    + unfold removeKubeconfig. destruct existing as [s|]; [|footprint_done].
      by apply footprint_Update.
    + intros [e|]; footprint_done.
  - apply (footprint_bind handlingCall 0 1); [apply footprint_secretNeedsToBeRotated|].
    intros needs. destruct (negb needs); [footprint_done|].
    destruct existing as [s|].
    + apply (footprint_bind handlingCall 1 0); [|intros r; footprint_done].
      unfold updateExistingSecret.
      apply (footprint_bind handlingCall 1 0); [by apply footprint_Update|].
      intros [e|]; footprint_done.
    + apply (footprint_bind handlingCall 1 0); [|intros r; footprint_done].
      unfold createNewSecret.
      apply (footprint_bind handlingCall 1 0); [by apply footprint_Create|].
      intros [e|]; footprint_done.
Qed.

(** What [Reconcile] does after it has read the GardenerCluster. *)
Lemma footprint_handling cluster :
  footprint handlingCall 1
    (lastSyncTime <- Now env ;;
     handled <- handleKubeconfig env ctl cluster lastSyncTime ;;
     let cluster := fst (fst handled) in
     let kubeconfigStatus := snd (fst handled) in
     match snd handled with
     | Some err =>
         _ <- persistStatusChange env cluster ;;
         ret (resultWithoutRequeue, if IsNotFound err then None else Some err)
     | None =>
         err <- (if bool_decide (kubeconfigStatus = ksRotated)
                 then removeForceRotationAnnotation env cluster
                 else ret None) ;;
         match err with
         | Some e => ret (resultWithoutRequeue, Some e)
         | None =>
             if bool_decide (kubeconfigStatus = ksCreated)
                || bool_decide (kubeconfigStatus = ksModified)
             then
               _ <- persistStatusChange env cluster ;;
               ret (resultWithoutRequeue, None)
             else ret (resultWithRequeue ctl, None)
         end
     end).
Proof.
  apply (footprint_bind handlingCall 0 1); [apply footprint_Now|].
  intros lastSyncTime.
  apply (footprint_bind handlingCall 1 0); [apply footprint_handleKubeconfig|].
  intros [[cluster' status] err]. cbn [fst snd].
  destruct err as [err|].
  - apply (footprint_bind handlingCall 0 0); [by apply footprint_StatusUpdate|].
    intros _. footprint_done.
  - apply (footprint_bind handlingCall 0 0).
    + destruct (bool_decide (status = ksRotated)); [|footprint_done].
      by apply footprint_removeForceRotationAnnotation.
    + intros [e|]; [footprint_done|].
      destruct (bool_decide (status = ksCreated) || bool_decide (status = ksModified));
        [|footprint_done].
      apply (footprint_bind handlingCall 0 0); [by apply footprint_StatusUpdate|].
      intros _. footprint_done.
Qed.

(** Every reconcile, call by call: the read of the GardenerCluster, and
    then either the calls of the cleanup or the calls of the handling. *)
Lemma Reconcile_footprint (req : Request) w :
  exists calls,
    wTrace (snd (Reconcile env ctl req w))
      = wTrace w ++ CallGet (reqNamespace req) (reqName req) :: calls /\
    (Forall cleanupCall calls \/ Forall handlingCall calls) /\
    (length (omap writtenKey calls) <= 1)%nat /\
    (forall k, k ∉ omap writtenKey calls ->
               wSecrets (snd (Reconcile env ctl req w)) !! k = wSecrets w !! k) /\
    (map_Forall (fun k c => clusterKey c = k) (wClusters w) ->
     map_Forall (fun k c => clusterKey c = k) (wClusters (snd (Reconcile env ctl req w))) /\
     clustersKept (wClusters w) (wClusters (snd (Reconcile env ctl req w)))).
Proof.
  assert (Hread : forall r w0,
    client_Get env (reqNamespace req) (reqName req) w = (r, w0) ->
    w0 = traced w (CallGet (reqNamespace req) (reqName req))).
  { intros r w0. cbv beta iota zeta delta [client_Get bind ret call].
    destruct (eFault env (length (wTrace w))); simpl; [congruence|].
    destruct (wClusters w !! (reqNamespace req, reqName req)); congruence. }
  remember (Reconcile env ctl req w) as run eqn:Hrun.
  unfold Reconcile in Hrun. unfold bind at 1 in Hrun.
  destruct (client_Get env (reqNamespace req) (reqName req) w) as [r w0] eqn:Hget.
  rewrite (Hread r w0 eq_refl) in Hrun.
  set (w1 := traced w (CallGet (reqNamespace req) (reqName req))) in *.
  destruct r as [err|cluster].
  - assert (Hrest : footprint cleanupCall 1
      (err0 <- (if IsNotFound err then deleteKubeconfigSecret env (reqName req)
                else ret (Some err)) ;;
       ret (resultWithoutRequeue, err0))).
    { apply (footprint_bind cleanupCall 1 0); [|intros e; footprint_done].
      destruct (IsNotFound err); [apply footprint_deleteKubeconfigSecret|footprint_done]. }
    destruct (Hrest w1) as (calls & Htrace & HP & Hlen & Hframe & Hkept).
    rewrite <- Hrun in Htrace, Hframe, Hkept.
    exists calls. rewrite Htrace. unfold w1, traced. cbn [wTrace]. rewrite <- app_assoc.
    split; [done|]. split; [by left|]. split; [done|]. split; [exact Hframe|exact Hkept].
  - destruct (footprint_handling cluster w1) as (calls & Htrace & HP & Hlen & Hframe & Hkept).
    cbv zeta in Hrun, Htrace, Hframe, Hkept.
    rewrite <- Hrun in Htrace, Hframe, Hkept.
    exists calls. rewrite Htrace. unfold w1, traced. cbn [wTrace]. rewrite <- app_assoc.
    split; [done|]. split; [by right|]. split; [done|]. split; [exact Hframe|exact Hkept].
Qed.

(** X26: one reconcile writes at most one secret.  Whatever the API
    server, the provider and the clock do, among the calls a reconcile issues
    at most one creates, updates or deletes a secret, and every stored secret
    but the one that call names is after the reconcile what it was before. *)
Theorem Reconcile_writes_one_secret (req : Request) w :
  let w' := snd (Reconcile env ctl req w) in
  exists calls,
    wTrace w' = wTrace w ++ calls /\
    (length (omap writtenKey calls) <= 1)%nat /\
    (forall k, k ∉ omap writtenKey calls -> wSecrets w' !! k = wSecrets w !! k).
Proof.
  intros w'. destruct (Reconcile_footprint req w) as (calls & Htrace & _ & Hlen & Hframe & _).
  exists (CallGet (reqNamespace req) (reqName req) :: calls).
  split; [done|]. by split.
Qed.

(** X27: a reconcile either handles or cleans up.  The first call of
    every reconcile is the read of the GardenerCluster.  The calls after it
    are either those of the cleanup, lookups and deletes only, or those of
    the handling, among which there is no delete: a reconcile that deletes a
    secret neither fetches a kubeconfig nor creates or updates anything, and
    a reconcile that fetches, creates or updates deletes nothing. *)
Theorem Reconcile_call_kinds (req : Request) w :
  exists calls,
    wTrace (snd (Reconcile env ctl req w))
      = wTrace w ++ CallGet (reqNamespace req) (reqName req) :: calls /\
    (Forall cleanupCall calls \/ Forall handlingCall calls) /\
    ((exists s, CallDelete s ∈ calls) ->
     forall c, c ∈ calls ->
       match c with
       | CallFetch _ | CallCreate _ | CallUpdate _
       | CallUpdateCluster _ | CallStatusUpdate _ => False
       | _ => True
       end).
Proof.
  destruct (Reconcile_footprint req w) as (calls & Htrace & Hkinds & _).
  exists calls. split; [done|]. split; [done|].
  intros [s Hs] c Hc. destruct Hkinds as [Hcleanup | Hhandling].
  - rewrite Forall_forall in Hcleanup. specialize (Hcleanup c Hc). by destruct c.
  - rewrite Forall_forall in Hhandling. by specialize (Hhandling _ Hs).
Qed.

(** X28: a reconcile keeps the GardenerClusters.  When the stored
    GardenerClusters sit under their own names, they still do after a
    reconcile, whatever the API server, the provider and the clock do: none
    is added, none is removed, and each one has the name, the namespace, the
    labels, the shoot and the secret reference it had; besides its status, a
    reconcile changes nothing of it but the forced-rotation annotation, which
    it may delete. *)
Theorem Reconcile_keeps_clusters (req : Request) w :
  map_Forall (fun k c => clusterKey c = k) (wClusters w) ->
  let w' := snd (Reconcile env ctl req w) in
  map_Forall (fun k c => clusterKey c = k) (wClusters w') /\
  clustersKept (wClusters w) (wClusters w').
Proof.
  intros Hkeys w'.
  destruct (Reconcile_footprint req w) as (calls & _ & _ & _ & _ & Hkept).
  by apply Hkept.
Qed.

End ReconcilerInvariants.

(** ** The rotation policy at the edges: the future and the empty period *)

Section RotationEdges.

Import controller.

(** Rounding does not look at the sign. *)
Lemma binary_round_aux_opp (m e : Z) (l : location) :
  binary_round_aux prec64 emax64 true m e l
  = SFopp (binary_round_aux prec64 emax64 false m e l).
Proof.
  unfold binary_round_aux.
  destruct (shr_fexp prec64 emax64 m e l) as [mrs' e'].
  destruct (shr_fexp prec64 emax64 _ e' loc_Exact) as [mrs'' e''].
  destruct (shr_m mrs'') as [|p|p]; [done| |done].
  by destruct (e'' <=? emax64 - prec64).
Qed.

Lemma binary_round_opp (m : positive) (e : Z) :
  binary_round prec64 emax64 true m e = SFopp (binary_round prec64 emax64 false m e).
Proof.
  unfold binary_round. destruct (shl_align m e _) as [mz ez].
  apply binary_round_aux_opp.
Qed.

Lemma float64_of_int_opp (z : Z) :
  0 < z -> float64_of_int (- z) = SFopp (float64_of_int z).
Proof.
  intros Hz. destruct z as [|p|p]; [lia| |lia].
  unfold float64_of_int. simpl. apply binary_round_opp.
Qed.

Lemma SFdiv_opp (m1 m2 : positive) (e1 e2 : Z) :
  SFdiv prec64 emax64 (S754_finite true m1 e1) (S754_finite false m2 e2)
  = SFopp (SFdiv prec64 emax64 (S754_finite false m1 e1) (S754_finite false m2 e2)).
Proof.
  unfold SFdiv.
  destruct (SFdiv_core_binary prec64 emax64 (Zpos m1) e1 (Zpos m2) e2) as [[mz ez] lz].
  apply binary_round_aux_opp.
Qed.

Lemma SFadd_opp (m1 m2 : positive) (e1 e2 : Z) :
  SFadd prec64 emax64 (S754_finite true m1 e1) (S754_finite true m2 e2)
  = SFopp (SFadd prec64 emax64 (S754_finite false m1 e1) (S754_finite false m2 e2)).
Proof.
  unfold SFadd. simpl cond_Zopp.
  destruct (shl_align m1 e1 (Z.min e1 e2)) as [a ea].
  destruct (shl_align m2 e2 (Z.min e1 e2)) as [b eb].
  simpl. apply binary_round_opp.
Qed.

Lemma SFmul_opp (m1 m2 : positive) (e1 e2 : Z) :
  SFmul prec64 emax64 (S754_finite false m1 e1) (S754_finite true m2 e2)
  = SFopp (SFmul prec64 emax64 (S754_finite false m1 e1) (S754_finite false m2 e2)).
Proof. unfold SFmul. simpl xorb. apply binary_round_aux_opp. Qed.

(** [Minutes] of a duration that is not negative: zero, or a positive
    normal number. *)
Lemma Minutes_nonnegative (d : Z) :
  0 <= d < 2 ^ 63 ->
  Minutes d = S754_zero false \/
  exists m e, Minutes d = S754_finite false m e /\ normal m /\ - 200 <= e <= 200.
Proof.
  intros Hd. destruct (Z.eq_dec d 0) as [->|Hne]; [by left|].
  right. destruct (Minutes_correct d) as (m & e & Heq & Hnorm & He & _); [lia|].
  by exists m, e.
Qed.

(** [Minutes] of a negative duration: a negative normal number. *)
Lemma Minutes_negative (d : Z) :
  - 2 ^ 63 <= d < 0 ->
  exists m e, Minutes d = S754_finite true m e /\ normal m /\ - 200 <= e <= 200.
Proof.
  intros Hd. destruct (Z.eq_dec d (- 2 ^ 63)) as [->|Hmin].
  { exists 5158083497022418%positive, (-25). split; [by vm_compute|]. unfold normal. lia. }
  assert (Hpos : 0 < - d < 2 ^ 63) by lia.
  replace d with (- - d) by lia. set (p := - d) in *.
  unfold Minutes, float64_add, float64_div.
  assert (Hminute : Minute <> 0) by done.
  rewrite Z.quot_opp_l, Z.rem_opp_l by done.
  assert (Hrem : 0 <= Z.rem p Minute < Minute)
    by (apply Z.rem_bound_pos; unfold Minute, Second, Nanosecond; lia).
  assert (Hquot : 0 <= Z.quot p Minute)
    by (apply Z.quot_pos; unfold Minute, Second, Nanosecond; lia).
  assert (Hsplit : p = Minute * Z.quot p Minute + Z.rem p Minute) by apply Z.quot_rem'.
  set (q := Z.quot p Minute) in *. set (r := Z.rem p Minute) in *.
  rewrite c64_eq.
  destruct (Z.eq_dec r 0) as [Hr0|Hr0]; [|destruct (Z.eq_dec q 0) as [Hq0|Hq0]].
  - rewrite Hr0. change (float64_of_int (- 0)) with (S754_zero false). simpl SFdiv.
    assert (Hq : 0 < q < 2 ^ 63) by (unfold Minute, Second, Nanosecond in *; lia).
    rewrite float64_of_int_opp by lia.
    destruct (float64_of_int_correct q Hq) as (m & e & -> & Hnorm & He & _).
    exists m, e. simpl. split; [done|]. split; [done|lia].
  - rewrite Hq0. change (float64_of_int (- 0)) with (S754_zero false).
    assert (Hr : 0 < r < 2 ^ 63) by (unfold Minute, Second, Nanosecond in *; lia).
    rewrite float64_of_int_opp by lia.
    destruct (float64_of_int_correct r Hr) as (mr & er & -> & Hnr & Her & _).
    simpl SFopp. rewrite SFdiv_opp.
    destruct (SFdiv_correct mr 7864320000000000 er (-17) Hnr c64_normal)
      as (m & e & -> & Hnorm & He & _); [lia..|].
    exists m, e. simpl. split; [done|]. split; [done|lia].
  - assert (Hq : 0 < q < 2 ^ 63) by (unfold Minute, Second, Nanosecond in *; lia).
    assert (Hr : 0 < r < 2 ^ 63) by (unfold Minute, Second, Nanosecond in *; lia).
    rewrite !float64_of_int_opp by lia.
    destruct (float64_of_int_correct q Hq) as (mq & eq & -> & Hnq & Heq & _).
    destruct (float64_of_int_correct r Hr) as (mr & er & -> & Hnr & Her & _).
    simpl SFopp. rewrite SFdiv_opp.
    destruct (SFdiv_correct mr 7864320000000000 er (-17) Hnr c64_normal)
      as (mt & et & -> & Hnt & Het & _); [lia..|].
    simpl SFopp. rewrite SFadd_opp.
    destruct (SFadd_correct mq mt eq et Hnq Hnt) as (m & e & -> & Hnorm & He & _); [lia..|].
    exists m, e. simpl. split; [done|]. split; [done|lia].
Qed.

(** A negative time never reaches the threshold of a positive period. *)
Lemma thresholdReached_negative (period elapsed : Z) :
  0 < period < 2 ^ 63 -> - 2 ^ 63 <= elapsed < 0 ->
  thresholdReached period elapsed = false.
Proof.
  intros Hp He. unfold thresholdReached, float64_ge, float64_mul.
  destruct (Minutes_correct period Hp) as (mp & ep & -> & Hnp & Hep & _).
  destruct (Minutes_negative elapsed He) as (me & ee & -> & _).
  destruct (SFmul_correct 8556839292003942 mp (-53) ep ratio_normal Hnp)
    as (m & e & Hmul & _); [lia..|].
  unfold rotationPeriodRatio. by rewrite Hmul.
Qed.

(** A time that is not negative always reaches the threshold of a period
    that is not positive. *)
Lemma thresholdReached_nonpositive (period elapsed : Z) :
  - 2 ^ 63 <= period <= 0 -> 0 <= elapsed < 2 ^ 63 ->
  thresholdReached period elapsed = true.
Proof.
  intros Hp He. unfold thresholdReached, float64_ge, float64_mul.
  assert (Hproduct :
    SFmul prec64 emax64 rotationPeriodRatio (Minutes period) = S754_zero false \/
    exists m e, SFmul prec64 emax64 rotationPeriodRatio (Minutes period)
                = S754_finite true m e).
  { destruct (Z.eq_dec period 0) as [->|Hne]; [by left|]. right.
    destruct (Minutes_negative period) as (mp & ep & -> & Hnp & Hep); [lia|].
    unfold rotationPeriodRatio. rewrite SFmul_opp.
    destruct (SFmul_correct 8556839292003942 mp (-53) ep ratio_normal Hnp)
      as (m & e & -> & _); [lia..|].
    by exists m, e. }
  destruct (Minutes_nonnegative elapsed He) as [-> | (me & ee & -> & _)];
    destruct Hproduct as [-> | (m & e & ->)]; done.
Qed.

Context (env : Env) `{TimeLayout}.

(** X29: a secret synced in the future is not due.  For a positive
    rotation period and a GardenerCluster without the forced-rotation
    annotation, a secret whose last-sync annotation reads as an instant after
    the present one is never taken as due, however far ahead the instant is:
    the rotation waits until the clock has caught up with the annotation and
    0.95 of the period has passed since. *)
Theorem secretNeedsToBeRotated_future_sync (cluster : GardenerCluster) (s : Secret)
    (v : string) (t : Time) (period : Duration) (w : World) :
  0 < period <= maxDuration ->
  cAnnotations cluster !! forceKubeconfigRotationAnnotation = None ->
  sAnnotations s !! lastKubeconfigSyncAnnotation = Some v ->
  parseRFC3339 v = Some t ->
  eClock env (wTicks w) < t ->
  fst (secretNeedsToBeRotated env cluster (Some s) period w) = false.
Proof.
  intros Hperiod Hplain Hv Ht Hfuture.
  unfold secretNeedsToBeRotated, bind, ret. rewrite secretRotationTimePassed_run.
  rewrite Hv, Ht. cbn [fst]. unfold secretRotationForced. rewrite Hplain.
  rewrite orb_false_r. unfold maxDuration in Hperiod.
  apply thresholdReached_negative; [lia|].
  unfold Sub, minDuration, maxDuration.
  destruct (Z.ltb_spec (eClock env (wTicks w) - t) (- 2 ^ 63)); [lia|].
  destruct (Z.ltb_spec (2 ^ 63 - 1) (eClock env (wTicks w) - t)); lia.
Qed.

(** X30: without a rotation period every secret is due.  When the
    configured rotation period is zero or negative, the decision is true for
    every secret whose last-sync annotation does not read as an instant in
    the future, whatever its age, and so for every secret it is true for
    other reasons: each reconcile of such a secret renews it. *)
Theorem secretNeedsToBeRotated_empty_period (cluster : GardenerCluster)
    (secret : option Secret) (period : Duration) (w : World) :
  minDuration <= period <= 0 ->
  (forall s v t,
     secret = Some s -> sAnnotations s !! lastKubeconfigSyncAnnotation = Some v ->
     parseRFC3339 v = Some t -> t <= eClock env (wTicks w)) ->
  fst (secretNeedsToBeRotated env cluster secret period w) = true.
Proof.
  intros Hperiod Hpast.
  unfold secretNeedsToBeRotated, bind, ret. rewrite secretRotationTimePassed_run.
  destruct secret as [s|]; [|done].
  destruct (sAnnotations s !! lastKubeconfigSyncAnnotation) as [v|] eqn:Hv; [|done].
  destruct (parseRFC3339 v) as [t|] eqn:Ht; [|done].
  cbn [fst]. specialize (Hpast s v t eq_refl Hv Ht).
  rewrite thresholdReached_nonpositive; [done| |].
  - unfold minDuration in Hperiod. lia.
  - unfold Sub, minDuration, maxDuration.
    destruct (Z.ltb_spec (eClock env (wTicks w) - t) (- 2 ^ 63)); [lia|].
    destruct (Z.ltb_spec (2 ^ 63 - 1) (eClock env (wTicks w) - t)); lia.
Qed.

End RotationEdges.

(** ** The further properties on the sample objects *)

Section FurtherExamples.

Import controller.

(** An upsert for other data, then the upsert for [exampleAuditLogData]: the
    stale entry between the two others holds the configuration of the
    latter. *)
Lemma oSetExtension_last_write_wins_witness :
  let shoot := exampleShootWith [dnsExtension; staleAuditlogExtension; certExtension] in
  fst (@auditlogs.oSetExtension exampleJSON exampleAuditLogData
         (fst (@auditlogs.oSetExtension exampleJSON otherAuditLogData shoot)))
  = exampleShootWith
      [dnsExtension; auditlogs.auditlogExtension exampleRaw; certExtension].
Proof.
  intros shoot.
  rewrite (@oSetExtension_last_write_wins exampleJSON otherAuditLogData
             exampleAuditLogData shoot exampleRaw eq_refl).
  reflexivity.
Defined.

(** A Shoot that came with two auditlog entries keeps the second. *)
Lemma oSetExtension_entries_witness :
  let shoot :=
    exampleShootWith
      [dnsExtension; staleAuditlogExtension; certExtension; secondStaleExtension] in
  Extensions (Spec (fst (@auditlogs.oSetExtension exampleJSON exampleAuditLogData shoot)))
  = [dnsExtension; auditlogs.auditlogExtension exampleRaw; certExtension;
     secondStaleExtension].
Proof.
  intros shoot.
  destruct (@oSetExtension_entries exampleJSON exampleAuditLogData shoot exampleRaw eq_refl)
    as (_ & _ & Hfirst).
  apply (Hfirst [dnsExtension] staleAuditlogExtension [certExtension; secondStaleExtension]);
    [reflexivity | reflexivity |].
  constructor; [reflexivity | constructor].
Defined.

(** The fresh entry is found at index 1, before the second stale one. *)
Lemma oSetExtension_first_entry_witness :
  let shoot :=
    exampleShootWith
      [dnsExtension; staleAuditlogExtension; certExtension; secondStaleExtension] in
  let new :=
    Extensions (Spec (fst (@auditlogs.oSetExtension exampleJSON exampleAuditLogData shoot))) in
  auditlogs.IndexFunc new auditlogs.isAuditlog = 1 /\
  new !! 1%nat = Some (auditlogs.auditlogExtension exampleRaw).
Proof.
  intros shoot new.
  destruct (@oSetExtension_first_entry exampleJSON exampleAuditLogData shoot exampleRaw
              eq_refl) as (i & Hindex & Hentry & _).
  fold new in Hindex, Hentry.
  assert (Hi : i = 1%nat).
  { assert (Hone : auditlogs.IndexFunc new auditlogs.isAuditlog = 1) by reflexivity.
    rewrite Hone in Hindex. lia. }
  subst i. by split.
Defined.

(** The seed location is not enforced: a failing lookup changes nothing. *)
Lemma sFnCreateShoot_seed_check_off_witness :
  fsm.sFnCreateShoot (withSeedLookup exampleFsm failingSeedLookup) relaxedSystemState
  = fsm.sFnCreateShoot exampleFsm relaxedSystemState.
Proof.
  apply (sFnCreateShoot_seed_check_off exampleFsm relaxedSystemState failingSeedLookup).
  discriminate.
Defined.

(** The seed location is enforced and the lookup fails. *)
Lemma sFnCreateShoot_seed_lookup_fails_witness :
  let r := fsm.sFnCreateShoot (withSeedLookup exampleFsm failingSeedLookup)
             exampleSystemState in
  fst r = fsm.RequeueAfter (15 * Second) /\
  fsm.stopCounter (snd r) = 4%nat /\
  fsm.created (snd r) = [].
Proof.
  intros r.
  destruct (sFnCreateShoot_seed_lookup_fails (withSeedLookup exampleFsm failingSeedLookup)
              exampleSystemState false [] exampleSeedError eq_refl eq_refl)
    as (Hrequeue & Hcounter & Hcreated & _).
  by repeat split.
Defined.

(** Mandatory audit log data that cannot be read. *)
Lemma sFnCreateShoot_audit_log_mandatory_witness :
  let r := fsm.sFnCreateShoot (withAuditLogData exampleFsm failingAuditLogData)
             relaxedSystemState in
  fst r = fsm.Stop /\ fsm.stopCounter (snd r) = 5%nat /\ fsm.created (snd r) = [].
Proof.
  intros r.
  assert (Hseed : seedCheckPasses (withAuditLogData exampleFsm failingAuditLogData)
                    relaxedSystemState) by (left; discriminate).
  destruct (sFnCreateShoot_audit_log_mandatory
              (withAuditLogData exampleFsm failingAuditLogData) relaxedSystemState
              (auditlogs.mkAuditLogData EmptyString EmptyString EmptyString)
              exampleAuditLogError Hseed eq_refl eq_refl)
    as (Hstop & Hcounter & Hcreated & _).
  by repeat split.
Defined.

(** Audit log data that is not mandatory and cannot be read: the Shoot is
    created all the same. *)
Lemma sFnCreateShoot_audit_log_optional_witness :
  let r := fsm.sFnCreateShoot optionalAuditFsm relaxedSystemState in
  fst r = fsm.RequeueAfter (15 * Second) /\
  fsm.created (snd r) = [exampleShootWith []].
Proof.
  intros r. subst r.
  rewrite <- (sFnCreateShoot_audit_log_optional optionalAuditFsm relaxedSystemState eq_refl).
  by split.
Defined.


(** The labels of the Runtime are not valid. *)
Lemma sFnCreateShoot_conversion_fails_witness :
  let r := fsm.sFnCreateShoot unlabelledFsm relaxedSystemState in
  fst r = fsm.Stop /\ fsm.stopCounter (snd r) = 5%nat /\ fsm.created (snd r) = [].
Proof.
  intros r.
  assert (Hseed : seedCheckPasses unlabelledFsm relaxedSystemState) by (left; discriminate).
  assert (Haudit : auditLogPasses unlabelledFsm relaxedSystemState) by (by left).
  destruct (sFnCreateShoot_conversion_fails unlabelledFsm relaxedSystemState
              exampleLabelError Hseed Haudit (or_introl eq_refl))
    as (Hstop & Hcounter & Hcreated & _).
  by repeat split.
Defined.

(** The backend refuses the Shoot: it has been handed over once, and the
    run comes back. *)
Lemma sFnCreateShoot_creates_shoot_witness :
  let r := fsm.sFnCreateShoot refusingFsm relaxedSystemState in
  fst r = fsm.RequeueAfter (15 * Second) /\
  fsm.stopCounter (snd r) = 4%nat /\
  fsm.created (snd r) = [exampleShootWith []] /\
  fsm.mkCondition fsm.ConditionTypeRuntimeProvisioned "False"
    fsm.ConditionReasonGardenerError "Gardener API create error: quota exceeded"
  ∈ fsm.rConditions (fsm.rStatus (fsm.instance (snd r))).
Proof.
  intros r.
  assert (Hseed : seedCheckPasses refusingFsm relaxedSystemState) by (left; discriminate).
  assert (Haudit : auditLogPasses refusingFsm relaxedSystemState) by (by left).
  exact (sFnCreateShoot_creates_shoot refusingFsm relaxedSystemState (exampleShootWith [])
           Hseed Haudit eq_refl eq_refl).
Defined.

(** The API server refuses the read. *)
Lemma Reconcile_read_fails_witness :
  let w := exampleWorld [exampleCluster ∅] [exampleStoredSecret] in
  let r := @Reconcile (faultyEnv 0 exampleApiError) (exampleController exampleTenMinutes)
             exampleLayout exampleConditions exampleRequest w in
  fst r = (resultWithoutRequeue, Some exampleApiError) /\
  wTrace (snd r) = [CallGet "kcp-system" "cluster-1"] /\
  wSecrets (snd r) = wSecrets w.
Proof.
  intros w r. subst r.
  rewrite (@Reconcile_read_fails (faultyEnv 0 exampleApiError)
             (exampleController exampleTenMinutes) exampleLayout exampleConditions
             exampleRequest w exampleApiError eq_refl eq_refl).
  by repeat split.
Defined.

(** The GardenerCluster is gone and the API server refuses the lookup, or
    the delete. *)
Lemma Reconcile_cleanup_fails_witness :
  let w := exampleWorld [] [exampleStoredSecret] in
  let lookup := @Reconcile (faultyEnv 1 exampleApiError)
                  (exampleController exampleTenMinutes) exampleLayout exampleConditions
                  exampleRequest w in
  let delete := @Reconcile (faultyEnv 2 exampleApiError)
                  (exampleController exampleTenMinutes) exampleLayout exampleConditions
                  exampleRequest w in
  (fst lookup = (resultWithoutRequeue, Some exampleApiError) /\
   wSecrets (snd lookup) = wSecrets w) /\
  (fst delete = (resultWithoutRequeue, Some exampleApiError) /\
   wSecrets (snd delete) = wSecrets w /\
   wTrace (snd delete) =
     [CallGet "kcp-system" "cluster-1"; CallList clusterCRNameLabel "cluster-1";
      CallDelete exampleStoredSecret]).
Proof.
  intros w lookup delete. split.
  - destruct (@Reconcile_cleanup_fails (faultyEnv 1 exampleApiError)
                (exampleController exampleTenMinutes) exampleLayout exampleConditions
                exampleRequest w exampleApiError eq_refl eq_refl) as [Hlookup _].
    fold lookup in Hlookup. by rewrite (Hlookup eq_refl).
  - destruct (@Reconcile_cleanup_fails (faultyEnv 2 exampleApiError)
                (exampleController exampleTenMinutes) exampleLayout exampleConditions
                exampleRequest w exampleApiError eq_refl eq_refl) as [_ Hdelete].
    fold delete in Hdelete.
    by rewrite (Hdelete exampleStoredSecret eq_refl eq_refl eq_refl).
Defined.

(** The provider does not know the shoot: the failure is recorded and no
    error is returned. *)
Lemma Reconcile_fetch_fails_witness :
  let w := exampleWorld [exampleCluster ∅] [exampleStoredSecret] in
  let r := @Reconcile (exampleEnv Minute)
             (failingController exampleTenMinutes (NotFoundError "shoot-1 not found"))
             exampleLayout exampleConditions exampleRequest w in
  fst r = (resultWithoutRequeue, None) /\
  wSecrets (snd r) = wSecrets w /\
  length (wTrace (snd r)) = 4%nat.
Proof.
  intros w r.
  assert (Hlookup : (length (matchingSecrets w shootNameLabel
                               (cShootName (exampleCluster ∅))) <= 1)%nat)
    by (vm_compute; lia).
  destruct (@Reconcile_fetch_fails (exampleEnv Minute)
              (failingController exampleTenMinutes (NotFoundError "shoot-1 not found"))
              exampleLayout exampleConditions exampleRequest (exampleCluster ∅) w
              (NotFoundError "shoot-1 not found") (exampleCalm Minute) eq_refl Hlookup
              eq_refl)
    as (Hresult & Hsecrets & Htrace).
  fold r in Hresult, Hsecrets, Htrace.
  split; [exact Hresult|]. split; [exact Hsecrets|]. by rewrite Htrace.
Defined.

(** The API server refuses the lookup of the secret. *)
Lemma Reconcile_lookup_fails_witness :
  let w := exampleWorld [exampleCluster ∅] [exampleStoredSecret] in
  let r := @Reconcile (faultyEnv 1 exampleApiError) (exampleController exampleTenMinutes)
             exampleLayout exampleConditions exampleRequest w in
  fst r = (resultWithoutRequeue, Some exampleApiError) /\
  wSecrets (snd r) = wSecrets w /\
  Forall (fun c => c <> CallFetch "shoot-1") (wTrace (snd r)).
Proof.
  intros w r.
  destruct (@Reconcile_lookup_fails (faultyEnv 1 exampleApiError)
              (exampleController exampleTenMinutes) exampleLayout exampleConditions
              exampleRequest (exampleCluster ∅) w exampleApiError eq_refl eq_refl eq_refl
              eq_refl)
    as (Hresult & Hsecrets & Htrace).
  fold r in Hresult, Hsecrets, Htrace.
  split; [exact Hresult|]. split; [exact Hsecrets|]. rewrite Htrace.
  repeat constructor; discriminate.
Defined.

(** The first reconcile of [exampleCluster]. *)
Lemma Reconcile_creates_secret_witness :
  let w := exampleWorld [exampleCluster ∅] [] in
  let r := @Reconcile (exampleEnv 0) (exampleController exampleTenMinutes)
             exampleLayout exampleConditions exampleRequest w in
  fst r = (resultWithoutRequeue, None) /\
  wSecrets (snd r) !! ("kcp-system", "kubeconfig-cluster-1") =
    Some (mkSecret "kubeconfig-cluster-1" "kcp-system"
            {[ "kyma-project.io/shoot-name" := "shoot-1";
               "operator.kyma-project.io/managed-by" := "infrastructure-manager";
               clusterCRNameLabel := "cluster-1" ]}
            {[ lastKubeconfigSyncAnnotation := "2024-01-01T00:00:00Z" ]}
            ∅
            {[ "config" := "kubeconfig-1" ]}).
Proof.
  intros w r.
  destruct (@Reconcile_creates_secret (exampleEnv 0) (exampleController exampleTenMinutes)
              exampleLayout exampleConditions exampleRequest (exampleCluster ∅) w
              (exampleCalm 0) eq_refl eq_refl eq_refl eq_refl eq_refl)
    as (Hresult & Hsecrets & _).
  fold r in Hresult, Hsecrets.
  split; [exact Hresult|]. rewrite Hsecrets. by vm_compute.
Defined.

(** The ten minutes of the secret are over. *)
Lemma Reconcile_renews_due_secret_witness :
  let w := exampleWorld [exampleCluster ∅] [exampleStoredSecret] in
  let r := @Reconcile (exampleEnv exampleTenMinutes) (exampleController exampleTenMinutes)
             exampleLayout exampleConditions exampleRequest w in
  fst r = (resultWithoutRequeue, None) /\
  wSecrets (snd r) !! ("kcp-system", "kubeconfig-cluster-1") =
    Some (mkSecret "kubeconfig-cluster-1" "kcp-system" (sLabels exampleStoredSecret)
            {[ lastKubeconfigSyncAnnotation := "2024-01-01T00:10:00Z" ]}
            {[ "config" := String.list_byte_of_string "kubeconfig-1" ]}
            ∅).
Proof.
  intros w r.
  assert (Hdue : fst (@secretNeedsToBeRotated (exampleEnv exampleTenMinutes) exampleLayout
                        (exampleCluster ∅) (Some exampleStoredSecret)
                        (rotationPeriod (exampleController exampleTenMinutes))
                        (whenHandled exampleRequest w)) = true)
    by (by vm_compute).
  destruct (@Reconcile_renews_due_secret (exampleEnv exampleTenMinutes)
              (exampleController exampleTenMinutes) exampleLayout exampleConditions
              exampleRequest (exampleCluster ∅) exampleStoredSecret w
              (exampleCalm exampleTenMinutes) (exampleWorld_wellKeyed _ _)
              eq_refl eq_refl eq_refl eq_refl Hdue)
    as (Hresult & Hsecrets & _).
  fold r in Hresult, Hsecrets.
  split; [exact Hresult|]. rewrite Hsecrets. by vm_compute.
Defined.

(** A secret without labels has taken the name. *)
Lemma Reconcile_create_conflict_witness :
  let w := exampleWorld [exampleCluster ∅] [foreignSecret] in
  let r := @Reconcile (exampleEnv 0) (exampleController exampleTenMinutes)
             exampleLayout exampleConditions exampleRequest w in
  fst r = (resultWithoutRequeue, Some (NewAlreadyExists "kubeconfig-cluster-1")) /\
  wSecrets (snd r) = wSecrets w.
Proof.
  intros w r.
  destruct (@Reconcile_create_conflict (exampleEnv 0) (exampleController exampleTenMinutes)
              exampleLayout exampleConditions exampleRequest (exampleCluster ∅)
              foreignSecret w (exampleCalm 0) eq_refl eq_refl eq_refl eq_refl eq_refl)
    as (Hresult & Hsecrets & _).
  by split.
Defined.

(** The API server refuses the update that strips the secret. *)
Lemma Reconcile_forced_update_fails_witness :
  let w := exampleWorld [exampleCluster forcedAnnotations] [exampleStoredSecret] in
  let r := @Reconcile (faultyEnv 3 exampleApiError) (exampleController exampleTenMinutes)
             exampleLayout exampleConditions exampleRequest w in
  fst r = (resultWithoutRequeue, Some exampleApiError) /\
  wSecrets (snd r) = wSecrets w /\
  exists stored,
    wClusters (snd r) !! ("kcp-system", "cluster-1") = Some stored /\
    cAnnotations stored = forcedAnnotations.
Proof.
  intros w r.
  assert (Hforced : is_Some (cAnnotations (exampleCluster forcedAnnotations)
                               !! forceKubeconfigRotationAnnotation))
    by (exists "true"; reflexivity).
  destruct (@Reconcile_forced_update_fails (faultyEnv 3 exampleApiError)
              (exampleController exampleTenMinutes) exampleLayout exampleConditions
              exampleRequest (exampleCluster forcedAnnotations) exampleStoredSecret w
              exampleApiError eq_refl eq_refl eq_refl eq_refl Hforced eq_refl eq_refl)
    as (Hresult & Hsecrets & _ & stored & Hstored & Hannotations & _).
  split; [exact Hresult|]. split; [exact Hsecrets|].
  exists stored. split; [exact Hstored | exact Hannotations].
Defined.

(** The first reconcile and the cleanup after the GardenerCluster is
    deleted. *)
Lemma Reconcile_create_then_cleanup_witness :
  let w := exampleWorld [exampleCluster ∅] [] in
  let w1 := snd (@Reconcile (exampleEnv 0) (exampleController exampleTenMinutes)
                   exampleLayout exampleConditions exampleRequest w) in
  let w2 := setClusters w1 (delete ("kcp-system", "cluster-1") (wClusters w1)) in
  let r := @Reconcile (exampleEnv 0) (exampleController exampleTenMinutes)
             exampleLayout exampleConditions exampleRequest w2 in
  is_Some (wSecrets w1 !! ("kcp-system", "kubeconfig-cluster-1")) /\
  fst r = (resultWithoutRequeue, None) /\
  wSecrets (snd r) = ∅.
Proof.
  intros w w1 w2 r.
  destruct (@Reconcile_create_then_cleanup (exampleEnv 0)
              (exampleController exampleTenMinutes) exampleLayout exampleConditions
              exampleRequest (exampleCluster ∅) w (exampleCalm 0)
              (exampleWorld_wellKeyed _ _) eq_refl eq_refl eq_refl eq_refl eq_refl eq_refl)
    as (Hcreated & Hresult & Hsecrets & _).
  split; [by eexists|]. by split.
Defined.

(** The forced rotation and the reconcile that follows it. *)
Lemma Reconcile_forced_then_renewed_witness :
  let w := exampleWorld [exampleCluster forcedAnnotations] [exampleStoredSecret] in
  let first := @Reconcile (exampleEnv 0) (exampleController exampleTenMinutes)
                 exampleLayout exampleConditions exampleRequest w in
  let second := @Reconcile (exampleEnv 0) (exampleController exampleTenMinutes)
                  exampleLayout exampleConditions exampleRequest (snd first) in
  fst first = ({| Requeue := true; RequeueAfter := exampleTenMinutes |}, None) /\
  fst second = (resultWithoutRequeue, None) /\
  wSecrets (snd second) !! ("kcp-system", "kubeconfig-cluster-1") =
    Some (mkSecret "kubeconfig-cluster-1" "kcp-system" (sLabels exampleStoredSecret)
            {[ lastKubeconfigSyncAnnotation := "2024-01-01T00:00:00Z" ]}
            {[ "config" := String.list_byte_of_string "kubeconfig-1" ]}
            ∅).
Proof.
  intros w first second.
  assert (Hforced : is_Some (cAnnotations (exampleCluster forcedAnnotations)
                               !! forceKubeconfigRotationAnnotation))
    by (exists "true"; reflexivity).
  destruct (@Reconcile_forced_then_renewed (exampleEnv 0)
              (exampleController exampleTenMinutes) exampleLayout exampleConditions
              exampleRequest (exampleCluster forcedAnnotations) exampleStoredSecret w
              (exampleCalm 0) (exampleWorld_wellKeyed _ _) eq_refl Hforced eq_refl eq_refl)
    as (Hfirst & Hsecond & Hsecrets & _).
  fold first in Hfirst, Hsecond, Hsecrets. fold second in Hsecond, Hsecrets.
  split; [exact Hfirst|]. split; [exact Hsecond|]. rewrite Hsecrets. by vm_compute.
Defined.

(** A GardenerCluster without labels, reconciled twice. *)
Lemma Reconcile_unlabelled_cluster_witness :
  let w := exampleWorld [unlabelledCluster] [] in
  let first := @Reconcile (exampleEnv 0) (exampleController exampleTenMinutes)
                 exampleLayout exampleConditions exampleRequest w in
  let second := @Reconcile (exampleEnv 0) (exampleController exampleTenMinutes)
                  exampleLayout exampleConditions exampleRequest (snd first) in
  fst first = (resultWithoutRequeue, None) /\
  fst second = (resultWithoutRequeue, Some (NewAlreadyExists "kubeconfig-cluster-1")).
Proof.
  intros w first second.
  assert (Hunlabelled : cLabels unlabelledCluster !! shootNameLabel
                        <> Some (cShootName unlabelledCluster)) by discriminate.
  destruct (@Reconcile_unlabelled_cluster (exampleEnv 0)
              (exampleController exampleTenMinutes) exampleLayout exampleConditions
              exampleRequest unlabelledCluster w (exampleCalm 0) eq_refl eq_refl
              Hunlabelled eq_refl eq_refl eq_refl)
    as (Hfirst & _ & Hsecond & _).
  by split.
Defined.

(** [exampleCluster], reconciled twice within a few milliseconds. *)
Lemma Reconcile_created_then_steady_witness :
  let w := exampleWorld [exampleCluster ∅] [] in
  let first := @Reconcile (exampleEnv 0) (exampleController exampleTenMinutes)
                 exampleLayout exampleConditions exampleRequest w in
  let second := @Reconcile (exampleEnv 0) (exampleController exampleTenMinutes)
                  exampleLayout exampleConditions exampleRequest (snd first) in
  fst first = (resultWithoutRequeue, None) /\
  fst second = ({| Requeue := true; RequeueAfter := exampleTenMinutes |}, None) /\
  wSecrets (snd second) = wSecrets (snd first).
Proof.
  intros w first second.
  assert (Hbelow :
    thresholdReached (rotationPeriod (exampleController exampleTenMinutes))
      (Sub (eClock (exampleEnv 0) (S (wTicks (snd first)))) (1704067200 * Second)) = false)
    by (by vm_compute).
  destruct (@Reconcile_created_then_steady (exampleEnv 0)
              (exampleController exampleTenMinutes) exampleLayout exampleConditions
              exampleRequest (exampleCluster ∅) w (1704067200 * Second) (exampleCalm 0)
              eq_refl eq_refl eq_refl eq_refl eq_refl eq_refl eq_refl Hbelow)
    as (Hfirst & Hsecond & Hsecrets & _).
  by repeat split.
Defined.

(** The GardenerCluster of the forced rotation is kept, without its
    annotation. *)
Lemma Reconcile_keeps_clusters_witness :
  let w := exampleWorld [exampleCluster forcedAnnotations] [exampleStoredSecret] in
  let w' := snd (@Reconcile (exampleEnv 0) (exampleController exampleTenMinutes)
                   exampleLayout exampleConditions exampleRequest w) in
  clustersKept (wClusters w) (wClusters w').
Proof.
  intros w w'.
  destruct (@Reconcile_keeps_clusters (exampleEnv 0) (exampleController exampleTenMinutes)
              exampleLayout exampleConditions exampleRequest w
              (proj2 (exampleWorld_wellKeyed _ _))) as [_ Hkept].
  exact Hkept.
Defined.

(** The clock is a minute behind the last-sync annotation. *)
Lemma secretNeedsToBeRotated_future_sync_witness :
  fst (@secretNeedsToBeRotated (exampleEnv (- Minute)) exampleLayout (exampleCluster ∅)
         (Some exampleStoredSecret) exampleTenMinutes (exampleWorld [] [])) = false.
Proof.
  apply (@secretNeedsToBeRotated_future_sync (exampleEnv (- Minute)) exampleLayout
           (exampleCluster ∅) exampleStoredSecret "2024-01-01T00:00:00Z"
           (1704067200 * Second) exampleTenMinutes (exampleWorld [] []));
    [by vm_compute | reflexivity | reflexivity | reflexivity | by vm_compute].
Defined.

(** A rotation period of zero, a second after the sync. *)
Lemma secretNeedsToBeRotated_empty_period_witness :
  fst (@secretNeedsToBeRotated (exampleEnv Second) exampleLayout (exampleCluster ∅)
         (Some exampleStoredSecret) 0 (exampleWorld [] [])) = true.
Proof.
  apply (@secretNeedsToBeRotated_empty_period (exampleEnv Second) exampleLayout
           (exampleCluster ∅) (Some exampleStoredSecret) 0 (exampleWorld [] []));
    [by vm_compute|].
  intros s v t [= <-] Hv Ht.
  assert (v = "2024-01-01T00:00:00Z") by (vm_compute in Hv; congruence). subst v.
  assert (t = 1704067200 * Second) by (vm_compute in Ht; vm_compute; congruence). subst t.
  by vm_compute.
Defined.

End FurtherExamples.
